(** * data_spaces: synthetic mobility datasets and their RDF mapping

    A shallow embedding of [generate_data.py] (the dataset synthesizer) and
    of [mobility-semantic/generate_ttl.py] (the semantic mapper), followed by
    the properties of the two pipelines.

    Conventions of the embedding:
    - a Python [str] is the byte string of its UTF-8 encoding;
    - a Python [int] is a [Z];
    - a Python [float] is a [pyfloat]: NaN, an infinity, or a finite value
      given by the rational it denotes (rounding error of binary64
      arithmetic is not modelled);
    - an exception is a value of [exn]; code that can raise returns a
      [result];
    - the global generator of the [random] module is an explicit state
      [rng], threaded through the synthesizer by the monad [M]. *)

From Stdlib Require Import QArith Qround Qabs Ascii String Lqa.
From stdpp Require Import gmap strings list pretty.
From Equations Require Import Equations.

Local Open Scope string_scope.
Local Open Scope Z_scope.

(** ** Python values and exceptions *)

Inductive exn : Set :=
| ValueError
| TypeError
| OverflowError
| AttributeError
| IndexError
| KeyError
| ZeroDivisionError.

Inductive result (A : Type) : Type :=
| Ok (a : A)
| Raise (e : exn).
Arguments Ok {A} a.
Arguments Raise {A} e.

#[global] Instance exn_eq_dec : EqDecision exn.
Proof. solve_decision. Defined.

#[global] Instance result_ret : MRet result := fun A a => Ok a.

#[global] Instance result_bind : MBind result := fun A B k r =>
  match r with
  | Ok a => k a
  | Raise e => Raise e
  end.

(** [try: body except excs: handler]. *)
Definition try_except {A} (body : result A) (excs : list exn) (handler : result A)
  : result A :=
  match body with
  | Ok a => Ok a
  | Raise e => if bool_decide (e ∈ excs) then handler else Raise e
  end.

Inductive pyfloat : Set :=
| FNaN
| FInf (negative : bool)
| FNum (q : Q).

Inductive pyval : Set :=
| VStr (s : string)
| VInt (z : Z)
| VFloat (f : pyfloat)
| VBool (b : bool).

#[global] Instance Q_eq_dec : EqDecision Q.
Proof. solve_decision. Defined.

#[global] Instance pyfloat_eq_dec : EqDecision pyfloat.
Proof. solve_decision. Defined.

#[global] Instance pyval_eq_dec : EqDecision pyval.
Proof. solve_decision. Defined.

(** The textual conversions of floats belong to the Python runtime:
    [float_of_str s] is [float(s)] on a [str] ([None] when it raises
    [ValueError]) and [str_of_float x] is [str(x)]. *)
Class FloatText : Type := {
  float_of_str : string -> option pyfloat;
  str_of_float : pyfloat -> string
}.

(** [math.exp]. *)
Class PyMath : Type := {
  py_exp : Q -> Q
}.

(** ** Numbers *)

Definition Qtrunc (q : Q) : Z := Z.quot (Qnum q) (Z.pos (Qden q)).

(** [int(x)] on a float. *)
Definition int_of_float (f : pyfloat) : result Z :=
  match f with
  | FNaN => Raise ValueError
  | FInf _ => Raise OverflowError
  | FNum q => Ok (Qtrunc q)
  end.

(** The rational a finite number denotes ([bool] counts as 0 or 1). *)
Definition num_value (v : pyval) : option Q :=
  match v with
  | VInt z => Some (inject_Z z)
  | VFloat (FNum q) => Some q
  | VBool b => Some (if b then 1%Q else 0%Q)
  | _ => None
  end.

Definition Qltb (a b : Q) : bool := negb (Qle_bool b a).

(** [a < b] on floats: false as soon as one side is NaN. *)
Definition float_ltb (a b : pyfloat) : bool :=
  match a, b with
  | FNaN, _ | _, FNaN => false
  | FInf true, FInf true => false
  | FInf true, _ => true
  | _, FInf true => false
  | FInf false, _ => false
  | _, FInf false => true
  | FNum x, FNum y => Qltb x y
  end.

Definition float_of_num (v : pyval) : option pyfloat :=
  match v with
  | VInt z => Some (FNum (inject_Z z))
  | VFloat f => Some f
  | VBool b => Some (FNum (if b then 1%Q else 0%Q))
  | VStr _ => None
  end.

(** [a < b] on numbers (never reached with a [str] here). *)
Definition py_ltb (a b : pyval) : bool :=
  match float_of_num a, float_of_num b with
  | Some x, Some y => float_ltb x y
  | _, _ => false
  end.

(** Builtin [min(a, b)] and [max(a, b)]: the first argument is kept unless
    the second is strictly smaller (resp. greater). *)
Definition py_min (a b : pyval) : pyval := if py_ltb b a then b else a.
Definition py_max (a b : pyval) : pyval := if py_ltb a b then b else a.

(** Round half to even to [ndigits] decimals. *)
Definition Qround_half_even (q : Q) : Z :=
  let f := Qfloor q in
  let r := (q - inject_Z f)%Q in
  if Qltb r (1 # 2) then f
  else if Qltb (1 # 2) r then f + 1
  else if Z.even f then f else f + 1.

Definition Qround (q : Q) (ndigits : nat) : Q :=
  let scale := inject_Z (10 ^ Z.of_nat ndigits) in
  (inject_Z (Qround_half_even (q * scale)) / scale)%Q.

(** [round(x, ndigits)]. *)
Definition py_round (x : pyval) (ndigits : nat) : pyval :=
  match x with
  | VFloat (FNum q) => VFloat (FNum (Qround q ndigits))
  | VBool b => VInt (if b then 1 else 0)
  | _ => x
  end.

(** [int(x)] on a number. *)
Definition py_int (x : pyval) : result Z :=
  match x with
  | VInt z => Ok z
  | VFloat f => int_of_float f
  | VBool b => Ok (if b then 1 else 0)
  | VStr _ => Raise ValueError
  end.

(** ** Strings *)

Definition str_of_nat (n : nat) : string := pretty n.
Definition str_of_Z (z : Z) : string := pretty z.

(** [f"{n:02d}"]. *)
Definition fmt_02d (n : nat) : string :=
  if decide (n < 10)%nat then "0" +:+ str_of_nat n else str_of_nat n.

Fixpoint str_map (f : ascii -> ascii) (s : string) : string :=
  match s with
  | EmptyString => EmptyString
  | String c s' => String (f c) (str_map f s')
  end.

(** [s.replace(a, b)] for one-character [a] and [b]. *)
Definition replace_char (a b : ascii) (s : string) : string :=
  str_map (fun c => if bool_decide (c = a) then b else c) s.

Definition byte_of (c : ascii) : N := N_of_ascii c.

Definition ascii_lower (c : ascii) : ascii :=
  let n := byte_of c in
  if bool_decide (65 <= n <= 90)%N then ascii_of_N (n + 32) else c.

(** [s.lower()] on ASCII letters. *)
Definition str_lower (s : string) : string := str_map ascii_lower s.

(** The ASCII characters that [str.strip()] removes. *)
Definition is_space (c : ascii) : bool :=
  let n := byte_of c in
  bool_decide (9 <= n <= 13)%N || bool_decide (28 <= n <= 32)%N.

Fixpoint lstrip (s : string) : string :=
  match s with
  | String c s' => if is_space c then lstrip s' else s
  | EmptyString => EmptyString
  end.

Fixpoint rstrip (s : string) : string :=
  match s with
  | EmptyString => EmptyString
  | String c s' =>
      match rstrip s' with
      | EmptyString => if is_space c then EmptyString else String c EmptyString
      | t => String c t
      end
  end.

Definition str_strip (s : string) : string := rstrip (lstrip s).

(** [s.split(sep)[0]] for a one-character separator. *)
Fixpoint split_head (sep : ascii) (s : string) : string :=
  match s with
  | EmptyString => EmptyString
  | String c s' =>
      if bool_decide (c = sep) then EmptyString else String c (split_head sep s')
  end.

Definition digit_of (c : ascii) : option Z :=
  let n := byte_of c in
  if bool_decide (48 <= n <= 57)%N then Some (Z.of_N n - 48) else None.

Fixpoint digits_value (acc : Z) (s : string) : option Z :=
  match s with
  | EmptyString => Some acc
  | String c s' =>
      match digit_of c with
      | Some d => digits_value (10 * acc + d) s'
      | None => None
      end
  end.

(** [int(s)] on a string of decimal digits; anything else is a [ValueError]
    (signs, blanks and underscores do not occur where it is called). *)
Definition int_of_str (s : string) : result Z :=
  match s with
  | EmptyString => Raise ValueError
  | _ => match digits_value 0 s with
         | Some z => Ok z
         | None => Raise ValueError
         end
  end.

Definition hex_digit (n : N) : ascii :=
  if bool_decide (n < 10)%N then ascii_of_N (48 + n) else ascii_of_N (55 + n).

(** Characters that [urllib.parse.quote] never escapes. *)
Definition is_unreserved (c : ascii) : bool :=
  let n := byte_of c in
  bool_decide (48 <= n <= 57)%N || bool_decide (65 <= n <= 90)%N
  || bool_decide (97 <= n <= 122)%N
  || bool_decide (c ∈ ["_"; "."; "-"; "~"]%char).

(** [urllib.parse.quote(s, safe="")]. *)
Fixpoint quote (s : string) : string :=
  match s with
  | EmptyString => EmptyString
  | String c s' =>
      if is_unreserved c then String c (quote s')
      else
        let n := byte_of c in
        String "%" (String (hex_digit (n / 16)) (String (hex_digit (n mod 16)) (quote s')))
  end.

(** ** The [random] module

    The generator is a tape of raw draws and a cursor. [random.seed(s)]
    replaces the tape by the one the runtime derives from [s]; every other
    operation reads the next raw draw. Quantifying over the tape quantifies
    over every sequence of draws. *)

Record rng : Type := { tape : nat -> N; pos : nat }.

Class PyRandom : Type := {
  seeded_tape : Z -> nat -> N
}.

(** Code that draws random numbers and may raise. *)
Definition M (A : Type) : Type := rng -> result (A * rng).

#[global] Instance M_ret : MRet M := fun A a g => Ok (a, g).

#[global] Instance M_bind : MBind M := fun A B k m g =>
  match m g with
  | Ok (a, g') => k a g'
  | Raise e => Raise e
  end.

Definition raise {A} (e : exn) : M A := fun _ => Raise e.

Definition lift {A} (r : result A) : M A := fun g =>
  match r with
  | Ok a => Ok (a, g)
  | Raise e => Raise e
  end.

(** Weakest precondition: [m] started in [g] returns, and its value and
    final state satisfy [post]. *)
Definition wp {A} (m : M A) (g : rng) (post : A -> rng -> Prop) : Prop :=
  match m g with
  | Ok (a, g') => post a g'
  | Raise _ => False
  end.

(** [for x in l: s = body(x, s)]. *)
Fixpoint for_ {A S} (l : list A) (body : A -> S -> M S) (s : S) : M S :=
  match l with
  | [] => mret s
  | x :: l' => s' ← body x s; for_ l' body s'
  end.

Definition next_raw : M N := fun g =>
  Ok (tape g (pos g), {| tape := tape g; pos := S (pos g) |}).

Definition random_seed `{PyRandom} (s : Z) : M unit := fun _ =>
  Ok (tt, {| tape := seeded_tape s; pos := 0 |}).

(** [random.random()]: a multiple of 2^-53 in [0, 1). *)
Definition random_random : M Q :=
  k ← next_raw; mret (Z.of_N (k mod 2 ^ 53) # 2 ^ 53).

(** [random.uniform(a, b)]. *)
Definition random_uniform (a b : Q) : M Q :=
  u ← random_random; mret (a + (b - a) * u)%Q.

(** [_randbelow(n)], called with [n > 0]: CPython draws bits until they
    make a number below [n]; what is kept here is that the value drawn is
    below [n] and that every such value is drawn on some tape. *)
Definition randbelow (n : nat) : M nat :=
  k ← next_raw; mret (N.to_nat (k mod N.of_nat n)).

(** [random.choice(seq)]. *)
Definition random_choice {A} (seq : list A) : M A :=
  match seq with
  | [] => raise IndexError
  | _ =>
      j ← randbelow (length seq);
      match seq !! j with
      | Some x => mret x
      | None => raise IndexError
      end
  end.

(** [random.randint(a, b)]. *)
Definition random_randint (a b : Z) : M Z :=
  let width := b + 1 - a in
  if decide (0 < width) then j ← randbelow (Z.to_nat width); mret (a + Z.of_nat j)
  else raise ValueError.

(** The selection loop of [random.sample] over a pool whose first [n]
    entries are the items not selected yet:
    [j = randbelow(n - i); result[i] = pool[j]; pool[j] = pool[n - i - 1]]. *)
Fixpoint sample_pool {A} (pool : list A) (n k : nat) : M (list A) :=
  match k with
  | O => mret []
  | S k' =>
      j ← randbelow n;
      match pool !! j, pool !! (n - 1)%nat with
      | Some x, Some y =>
          rest ← sample_pool (<[j := y]> pool) (n - 1) k';
          mret (x :: rest)
      | _, _ => raise IndexError
      end
  end.

(** [random.sample(population, k)]: [k] items at distinct positions. CPython
    selects from a pool for small populations and by rejection of repeated
    positions for large ones; both return [k] distinct positions, and the
    pool selection, which ends on every tape, is the one kept here. *)
Definition random_sample {A} (population : list A) (k : nat) : M (list A) :=
  if decide (k <= length population)%nat
  then sample_pool population (length population) k
  else raise ValueError.

(** * generate_data.py *)

(** ** Global configuration *)

Definition SEED : Z := 42.

Definition ZONES : list string :=
  (fun i : nat => "Z" +:+ str_of_nat i) <$> seq 1 8.

Definition ZONE_TO_AREA_CODE : gmap string string :=
  list_to_map ((fun p : nat * string => (p.2, "A" +:+ fmt_02d p.1))
                 <$> zip (seq 1 (length ZONES)) ZONES).

Definition ZONE_TO_SERVICE_ZONE : gmap string string :=
  list_to_map ((fun z => (z, "ServiceZone-" +:+ z)) <$> ZONES).

(** A [datetime] of 2025-03-10 is the number of seconds since the start of
    that day (every instant of the program lies on it); a [timedelta] is a
    number of seconds. *)
Definition datetime : Type := Z.

Definition datetime_2025_3_10 (hour minute : Z) : datetime :=
  hour * 3600 + minute * 60.

Definition timedelta_minutes (m : Z) : Z := 60 * m.

Definition TRAFFIC_START : datetime := datetime_2025_3_10 7 0.
Definition TRAFFIC_END : datetime := datetime_2025_3_10 12 40.
Definition TRAFFIC_STEP_MIN : positive := 5.

Definition TRAFFIC_MISSING_RATE : Q := 0.03.
Definition TRAFFIC_OUTLIER_RATE : Q := 0.01.

Definition BUS_COUNT : nat := 15.
Definition BUS_POINTS_PER_BUS : nat := 120.
Definition BUS_TIME_STEP_SEC : Z := 60.
Definition BUS_MISSING_DELAY_RATE : Q := 0.02.

Definition PLANNING_LINES : nat := 180.

(** ** Helpers *)

Definition clamp (x lo hi : pyval) : pyval := py_max lo (py_min hi x).

(** [dt_range(start, end, step)] for a positive [step] in seconds, as a
    list (with a step that is not positive the Python generator never
    ends). *)
Equations? dt_range (cur end_ : datetime) (step : positive) : list datetime
  by wf (Z.to_nat (end_ - cur + 1)) lt :=
  dt_range cur end_ step with decide (cur <= end_) => {
    | left _ := cur :: dt_range (cur + Z.pos step) end_ step ;
    | right _ := [] }.
Proof. lia. Qed.

Definition fmt_02 (z : Z) : string := fmt_02d (Z.to_nat z).

(** [ts.strftime("%H:%M")], [("%Y-%m-%d %H:%M")] and [("%Y-%m-%d %H:%M:%S")]. *)
Definition strftime_HM (ts : datetime) : string :=
  fmt_02 (ts / 3600) +:+ ":" +:+ fmt_02 (ts mod 3600 / 60).

Definition strftime_date_HM (ts : datetime) : string :=
  "2025-03-10 " +:+ strftime_HM ts.

Definition strftime_date_HMS (ts : datetime) : string :=
  strftime_date_HM ts +:+ ":" +:+ fmt_02 (ts mod 60).

(** What [write_csv] leaves on disk: the path, the header and the rows. *)
Record csv_file : Type := {
  csv_path : string;
  csv_header : list string;
  csv_rows : list (list pyval)
}.

Definition str_of_val `{FloatText} (v : pyval) : string :=
  match v with
  | VStr s => s
  | VInt z => str_of_Z z
  | VFloat f => str_of_float f
  | VBool b => if b then "True" else "False"
  end.

Definition str_join (sep : string) (l : list string) : string :=
  match l with
  | [] => ""
  | x :: l' => x +:+ foldr (fun y acc => sep +:+ y +:+ acc) "" l'
  end.

(** The text [csv.writer] produces: fields joined by commas, lines ended by
    CR LF (no field of these tables needs quoting). *)
Definition csv_text `{FloatText} (f : csv_file) : string :=
  let crlf := String "013" (String "010" EmptyString) in
  let line (cells : list string) := str_join "," cells +:+ crlf in
  line (csv_header f) +:+ foldr (fun r acc => line (str_of_val <$> r) +:+ acc) "" (csv_rows f).

Definition write_csv (path : string) (header : list string) (rows : list (list pyval))
  : csv_file :=
  {| csv_path := path; csv_header := header; csv_rows := rows |}.

Definition path_join (dir name : string) : string := dir +:+ "/" +:+ name.

(** ** Source 1: the traffic table *)

Record zone_prof : Type := {
  base_speed : Q;
  base_vol : Q;
  peak_strength : Q
}.

Definition zone_profile : gmap string zone_prof :=
  list_to_map [
    ("Z1", {| base_speed := 52; base_vol := 140; peak_strength := 0.55 |});
    ("Z2", {| base_speed := 56; base_vol := 120; peak_strength := 0.40 |});
    ("Z3", {| base_speed := 58; base_vol := 110; peak_strength := 0.30 |});
    ("Z4", {| base_speed := 54; base_vol := 130; peak_strength := 0.35 |});
    ("Z5", {| base_speed := 60; base_vol := 90; peak_strength := 0.20 |});
    ("Z6", {| base_speed := 50; base_vol := 150; peak_strength := 0.60 |});
    ("Z7", {| base_speed := 62; base_vol := 75; peak_strength := 0.10 |});
    ("Z8", {| base_speed := 55; base_vol := 115; peak_strength := 0.33 |})
  ].

Definition peak_center : datetime := datetime_2025_3_10 8 20.
Definition peak_sigma_minutes : Q := 50.

(** [d[k]] on a dict. *)
Definition dict_get {V} (d : gmap string V) (k : string) : M V :=
  match d !! k with
  | Some v => mret v
  | None => raise KeyError
  end.

(** A row of the table is the Python list
    [[zone_id, timestamp, average_speed_kmh, traffic_volume, occupancy_rate]]. *)
Definition traffic_header : list string :=
  ["zone_id"; "timestamp"; "average_speed_kmh"; "traffic_volume"; "occupancy_rate"].

Definition col_zone_id : nat := 0.
Definition col_timestamp : nat := 1.
Definition col_average_speed_kmh : nat := 2.
Definition col_traffic_volume : nat := 3.
Definition col_occupancy_rate : nat := 4.

(** The body of the inner loop: the row of zone [z] at instant [ts]. *)
Definition traffic_row `{PyMath} (z : string) (prof : zone_prof) (ts : datetime)
  : M (list pyval) :=
  let diff_min := (Qabs (inject_Z (ts - peak_center)) / 60)%Q in
  let peak_factor :=
    py_exp (- (diff_min ^ 2) / (2 * peak_sigma_minutes ^ 2))%Q in
  let speed := (base_speed prof * (1 - peak_strength prof * peak_factor))%Q in
  noise ← random_uniform (-1.5) 1.5;
  let speed := clamp (VFloat (FNum (speed + noise))) (VInt 8) (VInt 80) in
  let volume := (base_vol prof * (1 + 0.9 * peak_strength prof * peak_factor))%Q in
  noise ← random_uniform (-8) 8;
  volume ← lift (py_int (clamp (VFloat (FNum (volume + noise))) (VInt 20) (VInt 450)));
  let occ :=
    (0.18 + inject_Z volume / 500 + 0.25 * peak_strength prof * peak_factor)%Q in
  noise ← random_uniform (-0.02) 0.02;
  let occ := clamp (VFloat (FNum (occ + noise))) (VFloat (FNum 0.05)) (VFloat (FNum 0.99)) in
  mret [VStr z; VStr (strftime_date_HM ts); py_round speed 1; VInt volume; py_round occ 2].

(** The two nested loops that fill [rows]. *)
Definition traffic_base_rows `{PyMath} : M (list (list pyval)) :=
  let timestamps :=
    dt_range TRAFFIC_START TRAFFIC_END
      (Z.to_pos (timedelta_minutes (Z.pos TRAFFIC_STEP_MIN))) in
  for_ ZONES (fun z rows =>
    prof ← dict_get zone_profile z;
    for_ timestamps (fun ts rows =>
      row ← traffic_row z prof ts;
      mret (rows ++ [row])%list) rows) [].

(** [rows[i][j] = v]. *)
Definition set_cell (rows : list (list pyval)) (i j : nat) (v : pyval)
  : M (list (list pyval)) :=
  match rows !! i with
  | Some row =>
      if decide (j < length row)%nat then mret (<[i := <[j := v]> row]> rows)
      else raise IndexError
  | None => raise IndexError
  end.

(** The body of the loop over [miss_indices]. *)
Definition blank_one_field (i : nat) (rows : list (list pyval)) : M (list (list pyval)) :=
  u ← random_random;
  if Qltb u 0.6 then set_cell rows i col_average_speed_kmh (VStr "")
  else set_cell rows i col_occupancy_rate (VStr "").

(** The body of the loop over [out_indices]. *)
Definition outlier_one_field (i : nat) (rows : list (list pyval)) : M (list (list pyval)) :=
  u ← random_random;
  if Qltb u 0.5 then
    v ← random_choice [VFloat (FNum 2.0); VFloat (FNum 4.5); VFloat (FNum 120.0)];
    set_cell rows i col_average_speed_kmh v
  else
    x ← random_uniform 1.01 1.10;
    set_cell rows i col_occupancy_rate (py_round (VFloat (FNum x)) 2).

(** [int(total * rate)]. *)
Definition rate_count (total : nat) (rate : Q) : nat :=
  Z.to_nat (Qtrunc (inject_Z (Z.of_nat total) * rate)).

(** The local variables of [generate_traffic_csv] when it writes the file:
    [base] is [rows] before the injection, [rows] after it. *)
Record traffic_run : Type := {
  t_base : list (list pyval);
  t_total : nat;
  t_miss_indices : list nat;
  t_out_indices : list nat;
  t_rows : list (list pyval)
}.

(** The body of [generate_traffic_csv] after the seeding and before the
    write. *)
Definition traffic_table `{PyMath} : M traffic_run :=
  base ← traffic_base_rows;
  let total := length base in
  let miss_count := rate_count total TRAFFIC_MISSING_RATE in
  let out_count := rate_count total TRAFFIC_OUTLIER_RATE in
  miss_indices ← random_sample (seq 0 total) miss_count;
  rows ← for_ miss_indices blank_one_field base;
  out_indices ←
    random_sample (filter (fun i => i ∉ miss_indices) (seq 0 total)) out_count;
  rows ← for_ out_indices outlier_one_field rows;
  mret {| t_base := base; t_total := total; t_miss_indices := miss_indices;
          t_out_indices := out_indices; t_rows := rows |}.

(** [generate_traffic_csv(outdir)]: the file written and the returned
    [(path, total)]. *)
Definition generate_traffic_csv `{PyRandom} `{PyMath} (outdir : string)
  : M (csv_file * (string * nat)) :=
  _ ← random_seed SEED;
  run ← traffic_table;
  let path := path_join outdir "traffic_data.csv" in
  mret (write_csv path traffic_header (t_rows run), (path, t_total run)).

(** ** Source 2: the bus GPS points *)

Definition lines : list string :=
  (fun i : nat => "L" +:+ str_of_nat i) <$> seq 1 8.

Definition line_zones : gmap string (list string) :=
  list_to_map [
    ("L1", ["Z1"; "Z2"; "Z4"]);
    ("L2", ["Z6"; "Z1"; "Z8"]);
    ("L3", ["Z3"; "Z4"; "Z5"]);
    ("L4", ["Z7"; "Z5"; "Z8"]);
    ("L5", ["Z2"; "Z3"; "Z6"]);
    ("L6", ["Z8"; "Z4"; "Z1"]);
    ("L7", ["Z5"; "Z2"; "Z7"]);
    ("L8", ["Z6"; "Z3"; "Z8"])
  ].

(** (lat, lon) centers. *)
Definition zone_center : gmap string (Q * Q) :=
  list_to_map [
    ("Z1", (33.590, -7.620)%Q);
    ("Z2", (33.600, -7.610)%Q);
    ("Z3", (33.585, -7.605)%Q);
    ("Z4", (33.575, -7.615)%Q);
    ("Z5", (33.565, -7.600)%Q);
    ("Z6", (33.610, -7.630)%Q);
    ("Z7", (33.555, -7.625)%Q);
    ("Z8", (33.595, -7.595)%Q)
  ].

(** A GeoJSON point feature: the coordinates [[lon, lat]] and the
    properties; [delay_minutes] is [None] for JSON [null]. *)
Record bus_feature : Type := {
  coordinates : list pyval;
  bus_id : string;
  line_id : string;
  area_code : string;
  timestamp : string;
  delay_minutes : option Z;
  speed_kmh : pyval
}.

(** [l[i]] on a list. *)
Definition list_get {A} (l : list A) (i : nat) : M A :=
  match l !! i with
  | Some x => mret x
  | None => raise IndexError
  end.

(** [z in ("Z1", "Z6")]. *)
Definition congested (z : string) : bool := bool_decide (z ∈ ["Z1"; "Z6"]).

(** The body of the loop over [k]: the feature of point [k] of a bus. *)
Definition bus_point (bus line : string) (zones_path : list string)
    (t0 : datetime) (base_delay : Z) (k : nat) : M bus_feature :=
  let ts := t0 + BUS_TIME_STEP_SEC * Z.of_nat k in
  let n := length zones_path in
  if decide (n = 0)%nat then raise ZeroDivisionError
  else
    let seg := ((k / Nat.max 1 (BUS_POINTS_PER_BUS / n)) mod n)%nat in
    z ← list_get zones_path seg;
    center ← dict_get zone_center z;
    d ← random_uniform (-0.0025) 0.0025;
    let lat := (center.1 + d)%Q in
    d ← random_uniform (-0.0025) 0.0025;
    let lon := (center.2 + d)%Q in
    speed ← random_uniform 18 35;
    speed ← (if congested z then random_uniform 8 20 else mret speed);
    let peak_bonus :=
      if bool_decide (datetime_2025_3_10 7 45 <= ts <= datetime_2025_3_10 9 0)
      then 3 else 0 in
    let delay := base_delay + peak_bonus in
    r ← (if congested z then random_randint 2 7 else random_randint (-1) 3);
    let delay := delay + r in
    delay ← lift (py_int (clamp (VInt delay) (VInt 0) (VInt 35)));
    u ← random_random;
    let delay_value := if Qltb u BUS_MISSING_DELAY_RATE then None else Some delay in
    code ← dict_get ZONE_TO_AREA_CODE z;
    mret {| coordinates := [py_round (VFloat (FNum lon)) 6; py_round (VFloat (FNum lat)) 6];
            bus_id := bus;
            line_id := line;
            area_code := code;
            timestamp := strftime_date_HMS ts;
            delay_minutes := delay_value;
            speed_kmh := py_round (VFloat (FNum speed)) 1 |}.

(** The body of the loop over [buses]. *)
Definition bus_trajectory (b : string * string) (features : list bus_feature)
  : M (list bus_feature) :=
  zones_path ← dict_get line_zones b.2;
  r ← random_randint 0 30;
  let t0 := TRAFFIC_START + timedelta_minutes r in
  let base_delay :=
    if bool_decide ("Z1" ∈ zones_path) || bool_decide ("Z6" ∈ zones_path)
    then 6 else 2 in
  for_ (seq 0 BUS_POINTS_PER_BUS) (fun k features =>
    feat ← bus_point b.1 b.2 zones_path t0 base_delay k;
    mret (features ++ [feat])%list) features.

(** The first loop: the identifier and the line of each bus. *)
Definition bus_assignments : M (list (string * string)) :=
  for_ (seq 1 BUS_COUNT) (fun b buses =>
    l ← random_choice lines;
    mret (buses ++ [("BUS-" +:+ fmt_02d b, l)])%list) [].

(** The features of the collection, in the order they are appended. *)
Definition bus_features : M (list bus_feature) :=
  buses ← bus_assignments;
  for_ buses bus_trajectory [].

(** [generate_bus_geojson(outdir)]: the features dumped to the file and the
    returned [(path, len(features))]. *)
Definition generate_bus_geojson `{PyRandom} (outdir : string)
  : M (list bus_feature * (string * nat)) :=
  _ ← random_seed (SEED + 1);
  features ← bus_features;
  mret (features, (path_join outdir "bus_gps.geojson", length features)).

(** ** Source 3: the planning records *)

Definition day_types : list string := ["weekday"; "weekend"].

Definition times : list string :=
  (fun i : nat =>
     strftime_HM (datetime_2025_3_10 7 0 + timedelta_minutes (10 * Z.of_nat i)))
    <$> seq 0 36.

Definition freq_options : list Z := [6; 8; 10; 12; 15].

(** The body of the [while] loop: one line of the file. *)
Definition planning_record : M string :=
  l ← random_choice lines;
  z ← random_choice ZONES;
  service_zone ← dict_get ZONE_TO_SERVICE_ZONE z;
  day_type ← random_choice day_types;
  scheduled_time ← random_choice times;
  hh ← lift (int_of_str (split_head ":" scheduled_time));
  let peak := bool_decide (7 <= hh <= 9) in
  frequency ←
    (if bool_decide (day_type = "weekday") && peak
     then random_choice [6; 8; 10]
     else random_choice freq_options);
  u ← random_random;
  let sep := if Qltb u 0.85 then " | " else " ; " in
  mret ("line_id=" +:+ l +:+ sep
        +:+ "service_zone=" +:+ service_zone +:+ sep
        +:+ "day_type=" +:+ day_type +:+ sep
        +:+ "scheduled_time=" +:+ scheduled_time +:+ sep
        +:+ "frequency_min=" +:+ str_of_Z frequency).

(** [while len(records) < PLANNING_LINES: records.append(line)]. *)
Equations? planning_while (records : list string) (g : rng)
  : result (list string * rng)
  by wf (PLANNING_LINES - length records)%nat lt :=
  planning_while records g with decide (length records < PLANNING_LINES)%nat => {
    | left _ with planning_record g => {
        | Ok (line, g') := planning_while (records ++ [line])%list g' ;
        | Raise e := Raise e } ;
    | right _ := Ok (records, g) }.
Proof. rewrite length_app. simpl. lia. Qed.

(** [generate_planning_txt(outdir)]: the lines written and the returned
    [(path, len(records))]. *)
Definition generate_planning_txt `{PyRandom} (outdir : string)
  : M (list string * (string * nat)) :=
  _ ← random_seed (SEED + 2);
  records ← planning_while [];
  mret ((fun line => line +:+ String "010" EmptyString) <$> records,
        (path_join outdir "planning.txt", length records)).

(** ** The mapping table *)

Definition generate_zone_mapping (outdir : string) : M (csv_file * (string * nat)) :=
  rows ← for_ ZONES (fun z rows =>
    a ← dict_get ZONE_TO_AREA_CODE z;
    s ← dict_get ZONE_TO_SERVICE_ZONE z;
    mret (rows ++ [[VStr z; VStr a; VStr s]])%list) [];
  let path := path_join outdir "zone_mapping.csv" in
  mret (write_csv path ["zone_id"; "area_code"; "service_zone"] rows, (path, length rows)).

(** ** Main *)

Definition OUTDIR : string := "generated_sources".

(** [main()]: the four generators in turn; what it prints is a rendering of
    the paths and the counts they return. *)
Definition main `{PyRandom} `{PyMath}
  : M ((csv_file * (string * nat)) * (list bus_feature * (string * nat))
       * (list string * (string * nat)) * (csv_file * (string * nat))) :=
  t ← generate_traffic_csv OUTDIR;
  b ← generate_bus_geojson OUTDIR;
  p ← generate_planning_txt OUTDIR;
  m ← generate_zone_mapping OUTDIR;
  mret (t, b, p, m).

(** * mobility-semantic/generate_ttl.py *)

(** ** Namespaces and RDF terms *)

Definition MOB : string := "https://purl.org/mobility/ontology#".
Definition EX : string := "https://example.org/mobility/data/".
Definition GEO_NS : string := "http://www.opengis.net/ont/geosparql#".
Definition UNIT : string := "http://qudt.org/vocab/unit/".
Definition RDF : string := "http://www.w3.org/1999/02/22-rdf-syntax-ns#".
Definition RDFS : string := "http://www.w3.org/2000/01/rdf-schema#".
Definition XSD : string := "http://www.w3.org/2001/XMLSchema#".

Inductive node : Set :=
| URIRef (iri : string)
| Literal (value : pyval) (datatype : option string).

#[global] Instance node_eq_dec : EqDecision node.
Proof. solve_decision. Defined.

Definition triple : Set := node * node * node.

(** A graph is the list of the triples added to it, in order; what rdflib
    keeps is the set of its members. *)
Definition graph : Set := list triple.

(** [ns.name] and [ns[name]] for a [str] name. *)
Definition term (ns name : string) : node := URIRef (ns +:+ name).

(** [ns[key]] for a cell: rdflib appends the key when it is a [str] and
    nothing otherwise. *)
Definition term_of_cell (ns : string) (key : pyval) : node :=
  match key with
  | VStr s => term ns s
  | _ => term ns ""
  end.

(** The keyword argument [datatype=ns.name] of a literal. *)
Definition datatype (ns name : string) : option string := Some (ns +:+ name).

Definition init_graph : graph := [].

(** ** Utils *)

(** A cell of a data frame read by [pd.read_csv] is a [pyval]; a blank
    field is the float NaN. *)

(** [pd.isna(x)]. *)
Definition isna (x : pyval) : bool :=
  match x with
  | VFloat FNaN => true
  | _ => false
  end.

(** [x == s] for a string literal [s]. *)
Definition eq_str (x : pyval) (s : string) : bool :=
  match x with
  | VStr t => bool_decide (t = s)
  | _ => false
  end.

(** [float(x)]. *)
Definition py_float `{FloatText} (x : pyval) : result pyfloat :=
  match x with
  | VStr s =>
      match float_of_str s with
      | Some f => Ok f
      | None => Raise ValueError
      end
  | VInt z => Ok (FNum (inject_Z z))
  | VFloat f => Ok f
  | VBool b => Ok (FNum (if b then 1%Q else 0%Q))
  end.

Definition to_uri `{FloatText} (base : string) (value : pyval) : option node :=
  if isna value || eq_str value "" then None
  else
    let safe_value :=
      replace_char "." "-" (replace_char ":" "-" (replace_char " " "_" (str_of_val value))) in
    let safe_value := quote safe_value in
    Some (term EX (base +:+ "/" +:+ safe_value)).

Definition safe_float `{FloatText} (x : pyval) : result (option pyfloat) :=
  try_except
    (if negb (isna x) && negb (eq_str x "") then f ← py_float x; mret (Some f)
     else mret None)
    [ValueError; TypeError]
    (mret None).

Definition safe_int `{FloatText} (x : pyval) : result (option Z) :=
  try_except
    (if negb (isna x) && negb (eq_str x "")
     then f ← py_float x; z ← int_of_float f; mret (Some z)
     else mret None)
    [ValueError; TypeError]
    (mret None).

Definition safe_bool `{FloatText} (x : pyval) : option bool :=
  if isna x then None
  else
    let x_str := str_strip (str_lower (str_of_val x)) in
    Some (bool_decide (x_str ∈ ["true"; "1"; "yes"; "t"])).

(** [pd.notna(x) and x != ""]. *)
Definition present (x : pyval) : bool := negb (isna x) && negb (eq_str x "").

(** [for _, row in df.iterrows(): body], where [body row] lists the triples
    the iteration adds to [g] (none when it reaches [continue]). *)
Fixpoint iterrows {R} (body : R -> result (list triple)) (df : list R) (g : graph)
  : result graph :=
  match df with
  | [] => mret g
  | row :: df' => added ← body row; iterrows body df' (g ++ added)%list
  end.

(** [g.add(t)] under [if v is not None], for the value [v] of the parse. *)
Definition add_if {A} (v : option A) (ts : A -> list triple) : list triple :=
  match v with
  | Some a => ts a
  | None => []
  end.

Definition RDF_type : node := term RDF "type".

(** ** ZONE_MAPPING *)

Module ZoneMapping.
Record row : Set := { ZONE_ID : pyval; AREA_CODE : pyval; SERVICE_ZONE : pyval }.
End ZoneMapping.

(** The loop body of [process_zone_mapping]. A URI built by [to_uri] is a
    non-empty string, so [not uri] holds for [None] only. *)
Definition zone_mapping_body `{FloatText} (row : ZoneMapping.row) : result (list triple) :=
  match to_uri "zone" (ZoneMapping.ZONE_ID row) with
  | Some zone_uri =>
      mret [(zone_uri, RDF_type, term MOB "ServiceZone");
            (zone_uri, term MOB "hasAreaCode", Literal (ZoneMapping.AREA_CODE row) None);
            (zone_uri, term RDFS "label", Literal (ZoneMapping.SERVICE_ZONE row) None)]
  | None => mret []
  end.

Definition process_zone_mapping `{FloatText} (df : list ZoneMapping.row) : result graph :=
  iterrows zone_mapping_body df init_graph.

(** ** PLANNING_CLEAN *)

Module Planning.
Record row : Set := {
  LINE_ID : pyval;
  ZONE_ID : pyval;
  DAY_TYPE : pyval;
  SCHEDULED_TIME : pyval;
  FREQUENCY_MIN : pyval;
  IS_PEAK_SCHEDULE : pyval
}.
End Planning.

Definition planning_uris `{FloatText} (row : Planning.row)
  : option node * option node * option node :=
  let schedule_id :=
    str_of_val (Planning.LINE_ID row) +:+ "_" +:+ str_of_val (Planning.ZONE_ID row)
    +:+ "_" +:+ str_of_val (Planning.DAY_TYPE row)
    +:+ "_" +:+ str_of_val (Planning.SCHEDULED_TIME row) in
  (to_uri "schedule" (VStr schedule_id),
   to_uri "route" (Planning.LINE_ID row),
   to_uri "zone" (Planning.ZONE_ID row)).

Definition planning_body `{FloatText} (row : Planning.row) : result (list triple) :=
  match planning_uris row with
  | (Some schedule_uri, Some route_uri, Some zone_uri) =>
      let g :=
        [(schedule_uri, RDF_type, term MOB "Schedule");
         (schedule_uri, term MOB "belongsToRoute", route_uri);
         (schedule_uri, term MOB "appliesToZone", zone_uri);
         (schedule_uri, term MOB "dayType", Literal (Planning.DAY_TYPE row) None);
         (schedule_uri, term MOB "scheduledTime",
           Literal (Planning.SCHEDULED_TIME row) (datatype XSD "time"))] in
      freq ← safe_int (Planning.FREQUENCY_MIN row);
      let g := (g ++ add_if freq (fun freq =>
        [(schedule_uri, term MOB "frequencyMinutes",
           Literal (VInt freq) (datatype XSD "integer"))]))%list in
      let is_peak := safe_bool (Planning.IS_PEAK_SCHEDULE row) in
      let g := (g ++ add_if is_peak (fun is_peak =>
        [(schedule_uri, term MOB "isPeakSchedule",
           Literal (VBool is_peak) (datatype XSD "boolean"))]))%list in
      mret g
  | _ => mret []
  end.

Definition process_planning_clean `{FloatText} (df : list Planning.row) : result graph :=
  iterrows planning_body df init_graph.

(** ** TRAFFIC_CLEAN *)

Module Traffic.
Record row : Set := {
  ZONE_ID : pyval;
  TIMESTAMP : pyval;
  AVERAGE_SPEED_KMH : pyval;
  TRAFFIC_VOLUME : pyval;
  OCCUPANCY_RATE : pyval;
  CONGESTION_LEVEL : pyval;
  IS_CONGESTED : pyval
}.
End Traffic.

Definition traffic_uris `{FloatText} (row : Traffic.row) : option node * option node :=
  let obs_id :=
    str_of_val (Traffic.ZONE_ID row) +:+ "_" +:+ str_of_val (Traffic.TIMESTAMP row) in
  (to_uri "traffic_obs" (VStr obs_id), to_uri "zone" (Traffic.ZONE_ID row)).

Definition traffic_body `{FloatText} (row : Traffic.row) : result (list triple) :=
  match traffic_uris row with
  | (Some obs_uri, Some zone_uri) =>
      let g :=
        [(obs_uri, RDF_type, term MOB "TrafficObservation");
         (obs_uri, term MOB "observedInZone", zone_uri);
         (obs_uri, term MOB "observedAt",
           Literal (Traffic.TIMESTAMP row) (datatype XSD "dateTime"))] in
      speed ← safe_float (Traffic.AVERAGE_SPEED_KMH row);
      let g := (g ++ add_if speed (fun speed =>
        [(obs_uri, term MOB "averageSpeed",
           Literal (VFloat speed) (datatype XSD "float"));
         (obs_uri, term MOB "speedUnit", term UNIT "KiloM-PER-HR")]))%list in
      vol ← safe_int (Traffic.TRAFFIC_VOLUME row);
      let g := (g ++ add_if vol (fun vol =>
        [(obs_uri, term MOB "trafficVolume",
           Literal (VInt vol) (datatype XSD "integer"))]))%list in
      occ ← safe_float (Traffic.OCCUPANCY_RATE row);
      let g := (g ++ add_if occ (fun occ =>
        [(obs_uri, term MOB "occupancyRate",
           Literal (VFloat occ) (datatype XSD "float"))]))%list in
      let g :=
        if present (Traffic.CONGESTION_LEVEL row)
        then (g ++ [(obs_uri, term MOB "congestionLevel",
                      term_of_cell MOB (Traffic.CONGESTION_LEVEL row))])%list
        else g in
      let is_cong := safe_bool (Traffic.IS_CONGESTED row) in
      let g := (g ++ add_if is_cong (fun is_cong =>
        [(obs_uri, term MOB "isCongested",
           Literal (VBool is_cong) (datatype XSD "boolean"))]))%list in
      mret g
  | _ => mret []
  end.

Definition process_traffic_clean `{FloatText} (df : list Traffic.row) : result graph :=
  iterrows traffic_body df init_graph.

(** ** BUS_GPS_CLEAN *)

Module BusGps.
Record row : Set := {
  EVENT_TIME : pyval;
  BUS_ID : pyval;
  LINE_ID : pyval;
  ZONE_ID : pyval;
  LATITUDE : pyval;
  LONGITUDE : pyval;
  SPEED_KMH : pyval;
  IS_DELAYED : pyval;
  DELAY_MINUTES : pyval;
  DELAY_CATEGORY : pyval
}.
End BusGps.

(** [x.replace(a, b)]: only a [str] has the method. *)
Definition method_replace (x : pyval) (a b : ascii) : result string :=
  match x with
  | VStr s => Ok (replace_char a b s)
  | _ => Raise AttributeError
  end.

(** [trip_id] of a row. *)
Definition bus_trip_id `{FloatText} (row : BusGps.row) : result (string * string) :=
  s ← method_replace (BusGps.EVENT_TIME row) " " "T";
  let event_time_iso := s +:+ "Z" in
  mret (event_time_iso, str_of_val (BusGps.BUS_ID row) +:+ "_" +:+ event_time_iso).

Definition bus_uris `{FloatText} (row : BusGps.row) (trip_id : string)
  : option node * option node * option node * option node :=
  (to_uri "trip" (VStr trip_id),
   to_uri "vehicle" (BusGps.BUS_ID row),
   to_uri "route" (BusGps.LINE_ID row),
   to_uri "zone" (BusGps.ZONE_ID row)).

(** The triples of the delay event of a row, added when [delay_min > 0]. *)
Definition delay_event_triples `{FloatText} (row : BusGps.row) (trip_uri : node)
    (trip_id : string) (delay_min : pyfloat) : list triple :=
  match to_uri "delay_event" (VStr trip_id) with
  | Some event_uri =>
      ([(trip_uri, term MOB "hasDelayEvent", event_uri);
        (event_uri, RDF_type, term MOB "DelayEvent");
        (event_uri, term MOB "delayMinutes",
          Literal (VFloat delay_min) (datatype XSD "float"));
        (event_uri, term MOB "delayUnit", term UNIT "MIN")]
       ++ (if present (BusGps.DELAY_CATEGORY row)
           then [(event_uri, term MOB "delayCategory",
                   term_of_cell MOB (BusGps.DELAY_CATEGORY row))]
           else []))%list
  | None => []
  end.

(** The triples of the location of a trip, added when both coordinates
    parse. *)
Definition bus_location_triples `{FloatText} (trip_uri : node) (trip_id : string)
    (lat lon : option pyfloat) : list triple :=
  match lat, lon with
  | Some lat, Some lon =>
      match to_uri "point" (VStr trip_id) with
      | Some point_uri =>
          let wkt := "POINT(" +:+ str_of_float lon +:+ " " +:+ str_of_float lat +:+ ")" in
          [(trip_uri, term MOB "hasLocation", point_uri);
           (point_uri, RDF_type, term GEO_NS "Point");
           (point_uri, term GEO_NS "asWKT",
             Literal (VStr wkt) (datatype GEO_NS "wktLiteral"))]
      | None => []
      end
  | _, _ => []
  end.

(** [if delay_min is not None and delay_min > 0: ...]. *)
Definition bus_delay_triples `{FloatText} (row : BusGps.row) (trip_uri : node)
    (trip_id : string) (delay_min : option pyfloat) : list triple :=
  match delay_min with
  | Some d =>
      if float_ltb (FNum 0) d then delay_event_triples row trip_uri trip_id d else []
  | None => []
  end.

(** What an iteration adds for a trip before it looks at the delay. *)
Definition bus_trip_triples `{FloatText} (row : BusGps.row) (ids : string * string)
    (trip_uri vehicle_uri route_uri zone_uri : node) : result (list triple) :=
  let event_time_iso := ids.1 in
  let trip_id := ids.2 in
  let g :=
    [(trip_uri, RDF_type, term MOB "Trip");
     (trip_uri, term MOB "hasVehicle", vehicle_uri);
     (trip_uri, term MOB "operatesOnRoute", route_uri);
     (trip_uri, term MOB "observedInZone", zone_uri);
     (trip_uri, term MOB "recordedAt",
       Literal (VStr event_time_iso) (datatype XSD "dateTime"));
     (vehicle_uri, RDF_type, term MOB "Vehicle");
     (vehicle_uri, term RDFS "label", Literal (BusGps.BUS_ID row) None)] in
  lat ← safe_float (BusGps.LATITUDE row);
  lon ← safe_float (BusGps.LONGITUDE row);
  let g := (g ++ bus_location_triples trip_uri trip_id lat lon)%list in
  speed ← safe_float (BusGps.SPEED_KMH row);
  let g := (g ++ add_if speed (fun speed =>
    [(trip_uri, term MOB "instantaneousSpeed",
       Literal (VFloat speed) (datatype XSD "float"));
     (trip_uri, term MOB "speedUnit", term UNIT "KiloM-PER-HR")]))%list in
  let is_delayed := safe_bool (BusGps.IS_DELAYED row) in
  let g := (g ++ add_if is_delayed (fun is_delayed =>
    [(trip_uri, term MOB "isDelayed",
       Literal (VBool is_delayed) (datatype XSD "boolean"))]))%list in
  mret g.

Definition bus_gps_body `{FloatText} (row : BusGps.row) : result (list triple) :=
  ids ← bus_trip_id row;
  let trip_id := ids.2 in
  match bus_uris row trip_id with
  | (Some trip_uri, Some vehicle_uri, Some route_uri, Some zone_uri) =>
      g ← bus_trip_triples row ids trip_uri vehicle_uri route_uri zone_uri;
      delay_min ← safe_float (BusGps.DELAY_MINUTES row);
      let g := (g ++ bus_delay_triples row trip_uri trip_id delay_min)%list in
      mret g
  | _ => mret []
  end.

Definition process_bus_gps_clean `{FloatText} (df : list BusGps.row) : result graph :=
  iterrows bus_gps_body df init_graph.

(** ** BUS_PERFORMANCE_HOURLY *)

Module BusPerf.
Record row : Set := {
  LINE_ID : pyval;
  ZONE_ID : pyval;
  EVENT_DATE : pyval;
  EVENT_HOUR : pyval;
  AVG_DELAY_MINUTES : pyval;
  MAX_DELAY_MINUTES : pyval;
  AVG_SPEED_KMH : pyval;
  DELAY_RATE_PCT : pyval
}.
End BusPerf.

Definition bus_perf_uris `{FloatText} (row : BusPerf.row)
  : option node * option node * option node :=
  let perf_id :=
    str_of_val (BusPerf.LINE_ID row) +:+ "_" +:+ str_of_val (BusPerf.ZONE_ID row)
    +:+ "_" +:+ str_of_val (BusPerf.EVENT_DATE row)
    +:+ "_" +:+ str_of_val (BusPerf.EVENT_HOUR row) in
  (to_uri "performance" (VStr perf_id),
   to_uri "route" (BusPerf.LINE_ID row),
   to_uri "zone" (BusPerf.ZONE_ID row)).

Definition bus_perf_body `{FloatText} (row : BusPerf.row) : result (list triple) :=
  match bus_perf_uris row with
  | (Some perf_uri, Some route_uri, Some zone_uri) =>
      let float_triple (name : string) (v : option pyfloat) :=
        add_if v (fun v =>
          [(perf_uri, term MOB name, Literal (VFloat v) (datatype XSD "float"))]) in
      let g :=
        [(perf_uri, RDF_type, term MOB "AggregatedPerformance");
         (perf_uri, term MOB "route", route_uri);
         (perf_uri, term MOB "zone", zone_uri);
         (perf_uri, term MOB "performanceDate",
           Literal (BusPerf.EVENT_DATE row) (datatype XSD "date"))] in
      hour ← safe_int (BusPerf.EVENT_HOUR row);
      let g := (g ++ add_if hour (fun hour =>
        [(perf_uri, term MOB "performanceHour",
           Literal (VInt hour) (datatype XSD "integer"))]))%list in
      avg_delay ← safe_float (BusPerf.AVG_DELAY_MINUTES row);
      let g := (g ++ float_triple "averageDelayMinutes" avg_delay)%list in
      max_delay ← safe_float (BusPerf.MAX_DELAY_MINUTES row);
      let g := (g ++ float_triple "maxDelayMinutes" max_delay)%list in
      avg_speed ← safe_float (BusPerf.AVG_SPEED_KMH row);
      let g := (g ++ float_triple "averageSpeedKmh" avg_speed)%list in
      delay_rate ← safe_float (BusPerf.DELAY_RATE_PCT row);
      let g := (g ++ float_triple "delayRatePercent" delay_rate)%list in
      mret g
  | _ => mret []
  end.

Definition process_bus_performance_hourly `{FloatText} (df : list BusPerf.row)
  : result graph :=
  iterrows bus_perf_body df init_graph.

(** ** The rows of the five tables, seen together *)

Inductive mapper_row : Set :=
| ZoneMappingRow (row : ZoneMapping.row)
| PlanningRow (row : Planning.row)
| TrafficRow (row : Traffic.row)
| BusGpsRow (row : BusGps.row)
| BusPerfRow (row : BusPerf.row).

(** The identifier URIs a row must resolve before anything is added for it:
    the operands of [if not ...: continue]. *)
Definition required_uris `{FloatText} (r : mapper_row) : result (list (option node)) :=
  match r with
  | ZoneMappingRow row => mret [to_uri "zone" (ZoneMapping.ZONE_ID row)]
  | PlanningRow row => let '(s, l, z) := planning_uris row in mret [s; l; z]
  | TrafficRow row => let '(o, z) := traffic_uris row in mret [o; z]
  | BusGpsRow row =>
      ids ← bus_trip_id row;
      let '(t, v, l, z) := bus_uris row ids.2 in mret [t; v; l; z]
  | BusPerfRow row => let '(p, l, z) := bus_perf_uris row in mret [p; l; z]
  end.

(** The triples one iteration of the loop of its table adds for a row. *)
Definition row_triples `{FloatText} (r : mapper_row) : result (list triple) :=
  match r with
  | ZoneMappingRow row => zone_mapping_body row
  | PlanningRow row => planning_body row
  | TrafficRow row => traffic_body row
  | BusGpsRow row => bus_gps_body row
  | BusPerfRow row => bus_perf_body row
  end.

(** Some triple of [c] has predicate [p]. *)
Definition has_pred (p : node) (c : list triple) : Prop :=
  ∃ s o, (s, p, o) ∈ c.

(** [delay_min is not None and delay_min > 0]. *)
Definition delay_positive (delay : option pyfloat) : Prop :=
  ∃ d, delay = Some d ∧ float_ltb (FNum 0) d = true.

(** The predicates of the triples added for a trip before its delay. *)
Definition trip_predicates : list node :=
  [RDF_type; term MOB "hasVehicle"; term MOB "operatesOnRoute";
   term MOB "observedInZone"; term MOB "recordedAt"; term RDFS "label";
   term MOB "hasLocation"; term GEO_NS "asWKT"; term MOB "instantaneousSpeed";
   term MOB "speedUnit"; term MOB "isDelayed"].

(** The predicates of the triples of a delay event. *)
Definition delay_predicates : list node :=
  [term MOB "hasDelayEvent"; term MOB "delayMinutes"; term MOB "delayUnit";
   term MOB "delayCategory"].

(** ** Vocabulary of the properties of the traffic table *)

(** A number between [lo] and [hi]. *)
Definition in_range (lo hi : Q) (v : pyval) : Prop :=
  ∃ q, num_value v = Some q ∧ (lo <= q <= hi)%Q.

Definition below (lim : Q) (v : pyval) : bool :=
  from_option (λ q, Qltb q lim) false (num_value v).

Definition above (lim : Q) (v : pyval) : bool :=
  from_option (λ q, Qltb lim q) false (num_value v).

(** An unrealistic speed, an occupancy above 1. *)
Definition speed_outlier (v : pyval) : bool := below 8 v || above 80 v.
Definition occupancy_outlier (v : pyval) : bool := above 1 v.

Definition cell_is (f : pyval → bool) (row : list pyval) (col : nat) : bool :=
  from_option f false (row !! col).

(** The number of blank fields and of outlier fields of a row. *)
Definition blank_count (row : list pyval) : nat :=
  length (filter (λ v, v = VStr "") row).

Definition outlier_count (row : list pyval) : nat :=
  ((if cell_is speed_outlier row col_average_speed_kmh then 1 else 0)
   + (if cell_is occupancy_outlier row col_occupancy_rate then 1 else 0))%nat.

(** A row as the nested loops produce it. *)
Definition normal_row (row : list pyval) : Prop :=
  ∃ z ts speed vol occ,
    row = [VStr z; VStr ts; speed; VInt vol; VFloat (FNum occ)]
    ∧ z ≠ "" ∧ ts ≠ ""
    ∧ in_range 8 80 speed
    ∧ (0.05 <= occ <= 0.99)%Q.

(** The effect of the injection of a missing value and of an outlier on a
    row. *)
Definition blank_edit (old new : list pyval) : Prop :=
  new = <[col_average_speed_kmh := VStr ""]> old
  ∨ new = <[col_occupancy_rate := VStr ""]> old.

Definition outlier_edit (old new : list pyval) : Prop :=
  (∃ v, v ∈ [VFloat (FNum 2.0); VFloat (FNum 4.5); VFloat (FNum 120.0)]
        ∧ new = <[col_average_speed_kmh := v]> old)
  ∨ (∃ q, (1.01 <= q <= 1.10)%Q
          ∧ new = <[col_occupancy_rate := VFloat (FNum q)]> old).

(** What holds of the local variables of [generate_traffic_csv] when the
    file is written. *)
Definition traffic_run_ok (run : traffic_run) : Prop :=
  let n := t_total run in
  let miss := t_miss_indices run in
  let out := t_out_indices run in
  n = 552%nat ∧ length (t_base run) = n ∧ length (t_rows run) = n
  ∧ Forall normal_row (t_base run)
  ∧ length miss = rate_count n TRAFFIC_MISSING_RATE
  ∧ length out = rate_count n TRAFFIC_OUTLIER_RATE
  ∧ NoDup miss ∧ NoDup out
  ∧ (∀ i, i ∈ miss → (i < n)%nat)
  ∧ (∀ i, i ∈ out → (i < n)%nat ∧ i ∉ miss)
  ∧ (∀ i, i ∈ miss → ∃ old new,
        t_base run !! i = Some old ∧ t_rows run !! i = Some new ∧ blank_edit old new)
  ∧ (∀ i, i ∈ out → ∃ old new,
        t_base run !! i = Some old ∧ t_rows run !! i = Some new ∧ outlier_edit old new)
  ∧ (∀ i, i ∉ miss → i ∉ out → t_rows run !! i = t_base run !! i).

(** The zone an area code stands for. *)
Definition zone_of_area_code (code : string) : option string :=
  head (filter (λ z, ZONE_TO_AREA_CODE !! z = Some code) ZONES).

(** The zone of the area code of a feature is on the path of its line. *)
Definition on_line_path (f : bus_feature) : Prop :=
  ∃ zones_path z,
    line_zones !! line_id f = Some zones_path
    ∧ zone_of_area_code (area_code f) = Some z
    ∧ z ∈ zones_path.

(** ** Vocabulary of the layout of the traffic table *)

(** [timestamps], and the zone and the instant of each row: the order in
    which the nested loops append. *)
Definition traffic_timestamps : list datetime :=
  dt_range TRAFFIC_START TRAFFIC_END
    (Z.to_pos (timedelta_minutes (Z.pos TRAFFIC_STEP_MIN))).

Definition traffic_keys : list (string * datetime) :=
  z ← ZONES; (λ ts, (z, ts)) <$> traffic_timestamps.

(** The row the nested loops produce for a zone and an instant. *)
Definition base_row_of (key : string * datetime) (row : list pyval) : Prop :=
  ∃ speed vol occ,
    row = [VStr key.1; VStr (strftime_date_HM key.2); speed; VInt vol; VFloat (FNum occ)]
    ∧ in_range 8 80 speed ∧ 20 ≤ vol ≤ 450 ∧ (0.05 <= occ <= 0.99)%Q.

(** The fields of a row of the file that the injection never touches. *)
Definition keyed_row (key : string * datetime) (row : list pyval) : Prop :=
  length row = 5%nat
  ∧ row !! col_zone_id = Some (VStr key.1)
  ∧ row !! col_timestamp = Some (VStr (strftime_date_HM key.2))
  ∧ ∃ vol, row !! col_traffic_volume = Some (VInt vol) ∧ 20 ≤ vol ≤ 450.

(** ** Vocabulary of the bus features *)

(** Point [k] of the trajectory of a bus that starts at [t0] on a line of
    path [zones_path]: its identifiers, its instant, the zone of its
    segment, and the ranges of its measurements. *)
Definition bus_point_ok (bus line : string) (zones_path : list string) (t0 : datetime)
    (k : nat) (f : bus_feature) : Prop :=
  bus_id f = bus ∧ line_id f = line
  ∧ timestamp f = strftime_date_HMS (t0 + BUS_TIME_STEP_SEC * Z.of_nat k)
  ∧ ∃ z center lon lat,
      zones_path !! (k / 40)%nat = Some z
      ∧ ZONE_TO_AREA_CODE !! z = Some (area_code f)
      ∧ zone_of_area_code (area_code f) = Some z
      ∧ zone_center !! z = Some center
      ∧ coordinates f = [VFloat (FNum lon); VFloat (FNum lat)]
      ∧ (center.2 - 0.0025 <= lon <= center.2 + 0.0025)%Q
      ∧ (center.1 - 0.0025 <= lat <= center.1 + 0.0025)%Q
      ∧ (if congested z then in_range 8 20 (speed_kmh f)
         else in_range 18 35 (speed_kmh f))
      ∧ match delay_minutes f with
        | None => True
        | Some d => if congested z then 8 ≤ d ≤ 16 else 1 ≤ d ≤ 12
        end.

(** The 120 features of a bus. *)
Definition bus_block_ok (b : string * string) (block : list bus_feature) : Prop :=
  ∃ zones_path r,
    line_zones !! b.2 = Some zones_path
    ∧ 0 ≤ r ≤ 30
    ∧ Forall2 (bus_point_ok b.1 b.2 zones_path (TRAFFIC_START + timedelta_minutes r))
        (seq 0 BUS_POINTS_PER_BUS) block.

(** A bound that is a multiple of 10^-6. *)
Definition on_grid6 (q : Q) : bool :=
  Qeq_bool (q * inject_Z (10 ^ Z.of_nat 6))
    (inject_Z (Qfloor (q * inject_Z (10 ^ Z.of_nat 6)))).

(** The measurements of a feature, against the zone its area code stands
    for. *)
Definition bus_feature_ranges (f : bus_feature) : Prop :=
  ∃ z center lon lat,
    zone_of_area_code (area_code f) = Some z
    ∧ zone_center !! z = Some center
    ∧ coordinates f = [VFloat (FNum lon); VFloat (FNum lat)]
    ∧ (Qabs (lon - center.2) <= 0.0025)%Q
    ∧ (Qabs (lat - center.1) <= 0.0025)%Q
    ∧ in_range 8 35 (speed_kmh f)
    ∧ (if congested z then in_range 8 20 (speed_kmh f)
       else in_range 18 35 (speed_kmh f))
    ∧ ∀ d, delay_minutes f = Some d →
           1 ≤ d ≤ 16 ∧ if congested z then 8 ≤ d else d ≤ 12.

(** ** Vocabulary of the planning records *)

(** A line of the planning file: five [key=value] fields joined by one
    separator, the values drawn from their lists, and the frequency from
    the fast ones on a weekday between 7 and 9. *)
Definition planning_line_ok (line : string) : Prop :=
  ∃ l z service_zone day_type scheduled_time hh frequency sep,
    line = "line_id=" +:+ l +:+ sep
           +:+ "service_zone=" +:+ service_zone +:+ sep
           +:+ "day_type=" +:+ day_type +:+ sep
           +:+ "scheduled_time=" +:+ scheduled_time +:+ sep
           +:+ "frequency_min=" +:+ str_of_Z frequency
    ∧ l ∈ lines
    ∧ z ∈ ZONES
    ∧ ZONE_TO_SERVICE_ZONE !! z = Some service_zone
    ∧ service_zone = "ServiceZone-" +:+ z
    ∧ day_type ∈ day_types
    ∧ scheduled_time ∈ times
    ∧ int_of_str (split_head ":" scheduled_time) = Ok hh
    ∧ 7 ≤ hh ≤ 12
    ∧ sep ∈ [" | "; " ; "]
    ∧ frequency ∈ freq_options
    ∧ (day_type = "weekday" → hh ≤ 9 → frequency ∈ [6; 8; 10]).

(** ** Vocabulary of the mapping table *)

(** The row of the mapping table for a zone. *)
Definition mapping_row_of (z : string) (row : list pyval) : Prop :=
  ∃ a s, row = [VStr z; VStr a; VStr s]
         ∧ ZONE_TO_AREA_CODE !! z = Some a
         ∧ ZONE_TO_SERVICE_ZONE !! z = Some s
         ∧ zone_of_area_code a = Some z
         ∧ s = "ServiceZone-" +:+ z.

(** ** Vocabulary of the properties of the URIs *)

(** Every character of [s] satisfies [p]. *)
Fixpoint str_forall (p : ascii → bool) (s : string) : bool :=
  match s with
  | EmptyString => true
  | String c s' => p c && str_forall p s'
  end.

(** [str(value).replace(" ", "_").replace(":", "-").replace(".", "-")]: what
    [to_uri] hands to [quote]. *)
Definition slugify (s : string) : string :=
  replace_char "." "-" (replace_char ":" "-" (replace_char " " "_" s)).

(** The characters a resolved slug is made of: letters, digits, [_], [-],
    [~] and the [%] of an escape. *)
Definition slug_char (c : ascii) : bool :=
  let n := byte_of c in
  bool_decide (48 <= n <= 57)%N || bool_decide (65 <= n <= 90)%N
  || bool_decide (97 <= n <= 122)%N
  || bool_decide (c ∈ ["_"; "-"; "~"; "%"]%char).

Definition no_slash (s : string) : bool :=
  str_forall (λ c, negb (bool_decide (c = "/"%char))) s.

(** The value of a hexadecimal digit, and the decoding of the escapes
    that [quote] writes (on a text that [quote] did not write it is of no
    use). *)
Definition hex_value (c : ascii) : N :=
  let n := byte_of c in
  if bool_decide (n < 58)%N then n - 48 else n - 55.

Fixpoint percent_decode (s : string) : string :=
  match s with
  | EmptyString => EmptyString
  | String c s' =>
      if bool_decide (c = "%"%char) then
        match s' with
        | String h (String l s'') =>
            String (ascii_of_N (16 * hex_value h + hex_value l)) (percent_decode s'')
        | _ => String c (percent_decode s')
        end
      else String c (percent_decode s')
  end.

(** ** Vocabulary of the properties of the graphs *)

(** Two graphs with the same members: the same rdflib graph. *)
Definition same_graph (g g' : graph) : Prop := ∀ t, t ∈ g ↔ t ∈ g'.

(** Two runs of a mapper that both return, with the same graph, or both
    raise. *)
Definition same_outcome (r r' : result graph) : Prop :=
  match r, r' with
  | Ok g, Ok g' => same_graph g g'
  | Raise e, Raise e' => True
  | _, _ => False
  end.

(** A node of a namespace. *)
Definition in_namespace (ns : string) (n : node) : Prop :=
  ∃ name, n = URIRef (ns +:+ name).

(** [int(float(x))] overflows: [x] is an infinity, or a text that [float]
    reads as one. *)
Definition overflows `{FloatText} (x : pyval) : Prop :=
  x ≠ VStr "" ∧ ∃ neg, py_float x = Ok (FInf neg).

(** Every required URI of the row resolves: the row is not skipped. *)
Definition resolves `{FloatText} (r : mapper_row) : Prop :=
  ∃ uris, required_uris r = Ok uris ∧ None ∉ uris.

(** The cell of a row that goes through [safe_int], in the tables that
    have one. *)
Definition int_field (r : mapper_row) : option pyval :=
  match r with
  | PlanningRow row => Some (Planning.FREQUENCY_MIN row)
  | TrafficRow row => Some (Traffic.TRAFFIC_VOLUME row)
  | BusPerfRow row => Some (BusPerf.EVENT_HOUR row)
  | _ => None
  end.

(** ** A runtime for the examples

    Decimal numerals without exponent, and the spellings of the special
    values: on these [float] and [str] of CPython agree with the functions
    below. *)

Fixpoint frac_digits (fuel : nat) (num den : Z) : string :=
  match fuel with
  | O => ""
  | S fuel' =>
      if decide (num = 0) then ""
      else str_of_Z (10 * num / den) +:+ frac_digits fuel' (10 * num mod den) den
  end.

Definition decimal_str_of_float (f : pyfloat) : string :=
  match f with
  | FNaN => "nan"
  | FInf neg => if neg then "-inf" else "inf"
  | FNum q =>
      let n := Z.abs (Qnum q) in
      let d := Z.pos (Qden q) in
      let frac := frac_digits 17 (n mod d) d in
      (if decide (Qnum q < 0) then "-" else "")
      +:+ str_of_Z (n / d) +:+ "." +:+ (if decide (frac = "") then "0" else frac)
  end.

Fixpoint split_tail (sep : ascii) (s : string) : option string :=
  match s with
  | EmptyString => None
  | String c s' => if bool_decide (c = sep) then Some s' else split_tail sep s'
  end.

Definition decimal_float_of_str (s : string) : option pyfloat :=
  if decide (s = "nan") then Some FNaN
  else if decide (s = "inf") then Some (FInf false)
  else if decide (s = "-inf") then Some (FInf true)
  else
    match int_of_str (split_head "." s), split_tail "." s with
    | Ok i, None => Some (FNum (inject_Z i))
    | Ok i, Some t =>
        match int_of_str t with
        | Ok f => Some (FNum (inject_Z i + inject_Z f / inject_Z (10 ^ Z.of_nat (String.length t))))
        | Raise _ => None
        end
    | Raise _, _ => None
    end.

Definition decimal_text : FloatText :=
  {| float_of_str := decimal_float_of_str; str_of_float := decimal_str_of_float |}.

(** ** Sample rows *)

(** A traffic row whose ZONE_ID is blank. *)
Definition traffic_row_blank_zone : Traffic.row :=
  {| Traffic.ZONE_ID := VFloat FNaN;
     Traffic.TIMESTAMP := VStr "2025-03-10 07:00";
     Traffic.AVERAGE_SPEED_KMH := VFloat (FNum 41.5);
     Traffic.TRAFFIC_VOLUME := VInt 120;
     Traffic.OCCUPANCY_RATE := VFloat (FNum 0.42);
     Traffic.CONGESTION_LEVEL := VStr "MODERATE";
     Traffic.IS_CONGESTED := VBool false |}.

(** Two traffic rows of the same zone and instant: the speed of the first
    is blank, the speed of the second is 41.5. *)
Definition traffic_row_blank_speed : Traffic.row :=
  {| Traffic.ZONE_ID := VStr "Z1";
     Traffic.TIMESTAMP := VStr "2025-03-10 07:00";
     Traffic.AVERAGE_SPEED_KMH := VFloat FNaN;
     Traffic.TRAFFIC_VOLUME := VInt 120;
     Traffic.OCCUPANCY_RATE := VFloat (FNum 0.42);
     Traffic.CONGESTION_LEVEL := VStr "MODERATE";
     Traffic.IS_CONGESTED := VBool false |}.

Definition traffic_row_same_key : Traffic.row :=
  {| Traffic.ZONE_ID := VStr "Z1";
     Traffic.TIMESTAMP := VStr "2025-03-10 07:00";
     Traffic.AVERAGE_SPEED_KMH := VFloat (FNum 41.5);
     Traffic.TRAFFIC_VOLUME := VInt 120;
     Traffic.OCCUPANCY_RATE := VFloat (FNum 0.42);
     Traffic.CONGESTION_LEVEL := VStr "MODERATE";
     Traffic.IS_CONGESTED := VBool false |}.

(** A planning row whose FREQUENCY_MIN column holds [inf]. *)
Definition planning_row_infinite_frequency : Planning.row :=
  {| Planning.LINE_ID := VStr "L1";
     Planning.ZONE_ID := VStr "Z1";
     Planning.DAY_TYPE := VStr "weekday";
     Planning.SCHEDULED_TIME := VStr "07:30";
     Planning.FREQUENCY_MIN := VFloat (FInf false);
     Planning.IS_PEAK_SCHEDULE := VBool true |}.

(** Two bus rows delayed by 5 minutes: the first has a delay category, the
    DELAY_CATEGORY of the second is blank. *)
Definition bus_row_delayed : BusGps.row :=
  {| BusGps.EVENT_TIME := VStr "2025-03-10 07:05:00";
     BusGps.BUS_ID := VStr "BUS-01";
     BusGps.LINE_ID := VStr "L1";
     BusGps.ZONE_ID := VStr "Z1";
     BusGps.LATITUDE := VFloat (FNum 33.59);
     BusGps.LONGITUDE := VFloat (FNum (-7.62));
     BusGps.SPEED_KMH := VFloat (FNum 24.5);
     BusGps.IS_DELAYED := VBool true;
     BusGps.DELAY_MINUTES := VFloat (FNum 5);
     BusGps.DELAY_CATEGORY := VStr "MINOR_DELAY" |}.

Definition bus_row_delayed_no_category : BusGps.row :=
  {| BusGps.EVENT_TIME := VStr "2025-03-10 07:05:00";
     BusGps.BUS_ID := VStr "BUS-01";
     BusGps.LINE_ID := VStr "L1";
     BusGps.ZONE_ID := VStr "Z1";
     BusGps.LATITUDE := VFloat (FNum 33.59);
     BusGps.LONGITUDE := VFloat (FNum (-7.62));
     BusGps.SPEED_KMH := VFloat (FNum 24.5);
     BusGps.IS_DELAYED := VBool true;
     BusGps.DELAY_MINUTES := VFloat (FNum 5);
     BusGps.DELAY_CATEGORY := VFloat FNaN |}.

(** A planning row of a weekday schedule, every 10 minutes. *)
Definition planning_row_weekday : Planning.row :=
  {| Planning.LINE_ID := VStr "L1";
     Planning.ZONE_ID := VStr "Z1";
     Planning.DAY_TYPE := VStr "weekday";
     Planning.SCHEDULED_TIME := VStr "07:30";
     Planning.FREQUENCY_MIN := VInt 10;
     Planning.IS_PEAK_SCHEDULE := VBool true |}.

(** A row of hourly performance whose maximum delay is blank. *)
Definition bus_perf_row_blank_max : BusPerf.row :=
  {| BusPerf.LINE_ID := VStr "L1";
     BusPerf.ZONE_ID := VStr "Z1";
     BusPerf.EVENT_DATE := VStr "2025-03-10";
     BusPerf.EVENT_HOUR := VInt 7;
     BusPerf.AVG_DELAY_MINUTES := VFloat (FNum 4.5);
     BusPerf.MAX_DELAY_MINUTES := VFloat FNaN;
     BusPerf.AVG_SPEED_KMH := VFloat (FNum 21.5);
     BusPerf.DELAY_RATE_PCT := VFloat (FNum 62.5) |}.

(** The bus row [bus_row_delayed] with a blank EVENT_TIME: [pd.read_csv]
    gives the float NaN for the empty field. *)
Definition bus_row_blank_time : BusGps.row :=
  {| BusGps.EVENT_TIME := VFloat FNaN;
     BusGps.BUS_ID := VStr "BUS-01";
     BusGps.LINE_ID := VStr "L1";
     BusGps.ZONE_ID := VStr "Z1";
     BusGps.LATITUDE := VFloat (FNum 33.59);
     BusGps.LONGITUDE := VFloat (FNum (-7.62));
     BusGps.SPEED_KMH := VFloat (FNum 24.5);
     BusGps.IS_DELAYED := VBool true;
     BusGps.DELAY_MINUTES := VFloat (FNum 5);
     BusGps.DELAY_CATEGORY := VStr "MINOR_DELAY" |}.

(** * Properties *)

(** ** Numbers *)

Lemma Qltb_lt a b : Qltb a b = true ↔ (a < b)%Q.
Proof.
  unfold Qltb. rewrite negb_true_iff, <- not_true_iff_false, Qle_bool_iff.
  split; [apply Qnot_le_lt | apply Qlt_not_le].
Qed.

Lemma Qltb_ge a b : Qltb a b = false ↔ (b <= a)%Q.
Proof.
  unfold Qltb. rewrite negb_false_iff, Qle_bool_iff. done.
Qed.

(** [clamp] of a finite float between finite bounds is one of the three
    values and lies between the bounds. *)
Lemma clamp_range (x : Q) (lo hi : pyval) (l h : Q) :
  num_value lo = Some l → num_value hi = Some h →
  float_of_num lo = Some (FNum l) → float_of_num hi = Some (FNum h) →
  (l <= h)%Q →
  clamp (VFloat (FNum x)) lo hi ∈ [VFloat (FNum x); lo; hi]
  ∧ in_range l h (clamp (VFloat (FNum x)) lo hi).
Proof.
  intros Hl Hh Hfl Hfh Hlh. unfold clamp, py_max, py_min, py_ltb.
  rewrite Hfh, Hfl. simpl.
  destruct (Qltb x h) eqn:Hxh; simpl.
  - destruct (Qltb l x) eqn:Hlx.
    + apply Qltb_lt in Hxh, Hlx. split; [set_solver|].
      exists x. split; [done|]. split; by apply Qlt_le_weak.
    + apply Qltb_ge in Hlx. split; [set_solver|].
      exists l. split; [done|]. split; [apply Qle_refl | done].
  - rewrite Hfh. simpl. apply Qltb_ge in Hxh.
    destruct (Qltb l h) eqn:Hlh'.
    + split; [set_solver|]. exists h. split; [done|]. split; [done | apply Qle_refl].
    + split; [set_solver|]. exists l. split; [done|]. split; [apply Qle_refl | done].
Qed.

(** ** The result and state monads *)

Lemma safe_float_total `{FloatText} x : ∃ o, safe_float x = Ok o.
Proof.
  unfold safe_float, py_float.
  destruct (negb (isna x) && negb (eq_str x "")); [|by eexists].
  destruct x as [s|z|f|b]; simpl; try (by eexists).
  destruct (float_of_str s); simpl; by eexists.
Qed.

(** ** The loop over the rows of a table *)

Lemma has_pred_elem p (c : list triple) :
  has_pred p c ↔ p ∈ (λ t : triple, t.1.2) <$> c.
Proof.
  rewrite list_elem_of_fmap. split.
  - intros (s & o & Hin). by exists (s, p, o).
  - intros ([[s p'] o] & -> & Hin). by exists s, o.
Qed.


Lemma iterrows_app {R} (body : R → result (list triple)) df1 df2 g :
  iterrows body (df1 ++ df2) g = iterrows body df1 g ≫= iterrows body df2.
Proof.
  revert g. induction df1 as [|r df1 IH]; intros g; simpl; [done|].
  destruct (body r) as [c|e]; simpl; [apply IH | done].
Qed.

(** A row for which nothing is added can be removed from the table. *)
Lemma iterrows_skip {R} (body : R → result (list triple)) pre row post g :
  body row = Ok [] →
  iterrows body (pre ++ row :: post) g = iterrows body (pre ++ post) g.
Proof.
  intros Hrow. rewrite !iterrows_app.
  destruct (iterrows body pre g) as [g'|e]; simpl; [|done].
  rewrite Hrow. simpl. by rewrite app_nil_r.
Qed.

(** The graph returned is the initial one followed by what each row adds. *)
Lemma iterrows_elem {R} (body : R → result (list triple)) df g g' t :
  iterrows body df g = Ok g' →
  t ∈ g' ↔ t ∈ g ∨ ∃ row c, row ∈ df ∧ body row = Ok c ∧ t ∈ c.
Proof.
  revert g. induction df as [|r df IH]; intros g; simpl.
  - intros [= <-]. split; [auto|]. intros [?|(row & c & Hin & _)]; [done|].
    by apply elem_of_nil in Hin.
  - destruct (body r) as [c|e] eqn:Hr; simpl; [|done].
    intros Hg'. rewrite (IH _ Hg'), elem_of_app. split.
    + intros [[?|?]|(row & c' & Hin & Hb & Ht)]; [by left| |].
      * right. exists r, c. by rewrite elem_of_cons; auto.
      * right. exists row, c'. rewrite elem_of_cons; auto.
    + intros [?|(row & c' & Hin & Hb & Ht)]; [by left; left|].
      apply elem_of_cons in Hin as [->|Hin].
      * rewrite Hr in Hb. injection Hb as <-. by left; right.
      * right. by exists row, c'.
Qed.

Lemma iterrows_rows_ok {R} (body : R → result (list triple)) df g g' row :
  iterrows body df g = Ok g' → row ∈ df → ∃ c, body row = Ok c.
Proof.
  revert g. induction df as [|r df IH]; intros g Hg Hin; simpl in *.
  - by apply elem_of_nil in Hin.
  - destruct (body r) as [c|e] eqn:Hr; simpl in *; [|done].
    apply elem_of_cons in Hin as [->|Hin]; [eauto | by eapply IH].
Qed.

(** ** The semantic mapper *)

Section mapper.
Context `{FloatText}.

Lemma to_uri_None base v : to_uri base v = None ↔ isna v || eq_str v "" = true.
Proof. unfold to_uri. destruct (isna v || eq_str v ""); naive_solver. Qed.

Lemma to_uri_str base s : s ≠ "" → is_Some (to_uri base (VStr s)).
Proof.
  intros Hs. unfold to_uri. simpl. rewrite bool_decide_eq_false_2 by done. eauto.
Qed.

Lemma to_uri_str_inv base s u : to_uri base (VStr s) = Some u → s ≠ "".
Proof.
  unfold to_uri. simpl. case_bool_decide; [discriminate | done].
Qed.

Local Ltac none_among_some Hin :=
  try reflexivity; exfalso; set_unfold in Hin;
  repeat (destruct Hin as [Hin|Hin]; [discriminate|]); try discriminate; done.

(** When the required identifier URIs of a row are all computed and one of
    them does not resolve, the row adds no triple at all: the iteration of
    its table reaches [continue] before the first [g.add]. The rows for
    which they are not computed are those of [bus_row_without_time_raises]. *)
Lemma unresolved_row_adds_nothing (r : mapper_row) (uris : list (option node)) :
  required_uris r = Ok uris → None ∈ uris → row_triples r = Ok [].
Proof.
  destruct r as [row|row|row|row|row]; unfold required_uris, row_triples.
  - intros [= <-] Hin. unfold zone_mapping_body.
    apply list_elem_of_singleton in Hin as <-. reflexivity.
  - unfold planning_body. destruct (planning_uris row) as [[s l] z].
    intros [= <-] Hin. destruct s, l, z; none_among_some Hin.
  - unfold traffic_body. destruct (traffic_uris row) as [o z].
    intros [= <-] Hin. destruct o, z; none_among_some Hin.
  - unfold bus_gps_body. destruct (bus_trip_id row) as [ids|e]; [|done].
    change (Ok ids ≫= ?k) with (k ids). cbv beta.
    destruct (bus_uris row ids.2) as [[[t v] l] z].
    intros [= <-] Hin. destruct t, v, l, z; none_among_some Hin.
  - unfold bus_perf_body. destruct (bus_perf_uris row) as [[p l] z].
    intros [= <-] Hin. destruct p, l, z; none_among_some Hin.
Qed.

End mapper.

Section mapper_fields.
Context `{FloatText}.

(** [int(float(x))] of an infinite value raises [OverflowError], which the
    handler of [safe_int] does not catch. *)
Lemma safe_int_inf neg : safe_int (VFloat (FInf neg)) = Raise OverflowError.
Proof. reflexivity. Qed.

(** The triples of an observation: which rows add an [averageSpeed] triple. *)
Lemma traffic_body_averageSpeed row c s o :
  traffic_body row = Ok c →
  (s, term MOB "averageSpeed", o) ∈ c →
  (traffic_uris row).1 = Some s
  ∧ ∃ v, safe_float (Traffic.AVERAGE_SPEED_KMH row) = Ok (Some v).
Proof.
  unfold traffic_body.
  destruct (traffic_uris row) as [[obs|] [zone|]];
    try (intros [= <-] Hin; by apply elem_of_nil in Hin).
  destruct (safe_float (Traffic.AVERAGE_SPEED_KMH row)) as [speed|]; [|done].
  destruct (safe_int (Traffic.TRAFFIC_VOLUME row)) as [vol|]; [|done].
  destruct (safe_float (Traffic.OCCUPANCY_RATE row)) as [occ|]; [|done].
  simpl. intros [= <-] Hin.
  destruct speed as [v|]; [|exfalso].
  - split; [|by eauto]. f_equal.
    destruct vol, occ, (present _), (safe_bool _); simpl in Hin; set_unfold in Hin;
      repeat (destruct Hin as [Hin|Hin]); by inversion Hin.
  - destruct vol, occ, (present _), (safe_bool _); simpl in Hin; set_unfold in Hin;
      repeat (destruct Hin as [Hin|Hin]); by inversion Hin.
Qed.

Lemma traffic_body_type row c obs zone :
  traffic_body row = Ok c →
  traffic_uris row = (Some obs, Some zone) →
  (obs, RDF_type, term MOB "TrafficObservation") ∈ c.
Proof.
  unfold traffic_body. intros Hc Hu. rewrite Hu in Hc.
  destruct (safe_float (Traffic.AVERAGE_SPEED_KMH row)) as [speed|]; [|done].
  destruct (safe_int (Traffic.TRAFFIC_VOLUME row)) as [vol|]; [|done].
  destruct (safe_float (Traffic.OCCUPANCY_RATE row)) as [occ|]; [|done].
  simpl in Hc. injection Hc as <-.
  destruct (present _); rewrite !elem_of_app; repeat left; apply elem_of_cons; by left.
Qed.

(** C5 (as amended): when the mapper returns a graph for a TRAFFIC_CLEAN
    table, a row whose URIs resolve and whose AVERAGE_SPEED_KMH does not
    parse has its [TrafficObservation] type triple in the graph, adds no
    [averageSpeed] triple itself, and its observation has no [averageSpeed]
    triple in the graph provided no row of the table resolving to the same
    observation URI has a parseable AVERAGE_SPEED_KMH. *)
Theorem unparseable_speed_omitted (df : list Traffic.row) (g : graph)
    (row : Traffic.row) (obs zone : node) :
  process_traffic_clean df = Ok g →
  row ∈ df →
  traffic_uris row = (Some obs, Some zone) →
  safe_float (Traffic.AVERAGE_SPEED_KMH row) = Ok None →
  (obs, RDF_type, term MOB "TrafficObservation") ∈ g
  ∧ (∃ c, traffic_body row = Ok c ∧ ¬ has_pred (term MOB "averageSpeed") c)
  ∧ ((∀ row', row' ∈ df → (traffic_uris row').1 = Some obs →
        safe_float (Traffic.AVERAGE_SPEED_KMH row') = Ok None) →
     ∀ o, (obs, term MOB "averageSpeed", o) ∉ g).
Proof.
  intros Hg Hin Hu Hspeed. unfold process_traffic_clean in Hg.
  destruct (iterrows_rows_ok _ _ _ _ _ Hg Hin) as [c Hc].
  split; [|split].
  - apply (iterrows_elem _ _ _ _ _ Hg). right. exists row, c.
    eauto using traffic_body_type.
  - exists c. split; [done|]. intros (s & o & Ht).
    destruct (traffic_body_averageSpeed _ _ _ _ Hc Ht) as (_ & v & Hv). congruence.
  - intros Hothers o Ht.
    apply (iterrows_elem _ _ _ _ _ Hg) in Ht as [Ht|(row' & c' & Hin' & Hc' & Ht)].
    + by apply elem_of_nil in Ht.
    + destruct (traffic_body_averageSpeed _ _ _ _ Hc' Ht) as (Hobs & v & Hv).
      rewrite (Hothers row' Hin' Hobs) in Hv. discriminate.
Qed.

End mapper_fields.

Section mapper_delay.
Context `{FloatText}.

Local Ltac in_list Hin :=
  simpl in Hin; set_unfold in Hin;
  repeat (destruct Hin as [Hin|Hin]); try done; subst.

Lemma bus_trip_triples_total row ids trip vehicle route zone :
  ∃ g, bus_trip_triples row ids trip vehicle route zone = Ok g.
Proof.
  unfold bus_trip_triples.
  destruct (safe_float_total (BusGps.LATITUDE row)) as [lat ->].
  destruct (safe_float_total (BusGps.LONGITUDE row)) as [lon ->].
  destruct (safe_float_total (BusGps.SPEED_KMH row)) as [speed ->].
  simpl. eauto.
Qed.

(** A closed decidable proposition, settled by evaluation. *)
Local Ltac by_evaluation := simpl; apply (bool_decide_unpack _); vm_compute; exact I.

Local Ltac closed_implication :=
  first [ intros _; by_evaluation
        | let E := fresh in intros E; exfalso; revert E; by_evaluation ].

Local Ltac trip_triple := split; [by_evaluation | split; closed_implication].

(** The triples added for a trip before its delay: the [isDelayed] triple,
    when there is one, comes last, and no other has a predicate or a type
    of a delay event. *)
Lemma bus_trip_triples_shape row ids trip vehicle route zone g :
  bus_trip_triples row ids trip vehicle route zone = Ok g →
  ∃ g0,
    g = (g0 ++ add_if (safe_bool (BusGps.IS_DELAYED row)) (λ b,
           [(trip, term MOB "isDelayed", Literal (VBool b) (datatype XSD "boolean"))]))%list
    ∧ Forall (λ t : triple,
                t.1.2 ∈ trip_predicates
                ∧ (t.1.2 = term MOB "isDelayed" → False)
                ∧ (t.1.2 = RDF_type → t.2 ≠ term MOB "DelayEvent")) g0.
Proof.
  unfold bus_trip_triples.
  destruct (safe_float_total (BusGps.LATITUDE row)) as [lat ->].
  destruct (safe_float_total (BusGps.LONGITUDE row)) as [lon ->].
  destruct (safe_float_total (BusGps.SPEED_KMH row)) as [speed ->].
  cbn [mbind result_bind mret result_ret]. intros [= <-].
  eexists (_ :: _ :: _ :: _ :: _ :: _ :: _ :: (_ ++ _))%list.
  split; [reflexivity|].
  repeat (apply Forall_cons; split; [trip_triple|]).
  rewrite Forall_app. split.
  - unfold bus_location_triples.
    destruct lat, lon, (to_uri "point" (VStr ids.2));
      repeat (apply Forall_cons; split; [trip_triple|]); apply Forall_nil_2.
  - destruct speed; simpl;
      repeat (apply Forall_cons; split; [trip_triple|]); apply Forall_nil_2.
Qed.

Lemma not_delay_predicate p : p ∈ trip_predicates → p ∉ delay_predicates.
Proof.
  revert p. apply Forall_forall. by_evaluation.
Qed.

Lemma bus_trip_triples_no_delay row ids trip vehicle route zone g s p o :
  bus_trip_triples row ids trip vehicle route zone = Ok g →
  (s, p, o) ∈ g →
  (p ∉ delay_predicates) ∧ (p = RDF_type → o ≠ term MOB "DelayEvent").
Proof.
  intros Hg Hin. apply bus_trip_triples_shape in Hg as (g0 & -> & Hg0).
  apply elem_of_app in Hin as [Hin|Hin].
  - rewrite Forall_forall in Hg0. destruct (Hg0 _ Hin) as (Hp & _ & Ho).
    split; [by apply not_delay_predicate | done].
  - destruct (safe_bool _); simpl in Hin; [|by apply elem_of_nil in Hin].
    apply list_elem_of_singleton in Hin. injection Hin as -> -> ->.
    split; [by_evaluation | closed_implication].
Qed.

Lemma bus_trip_triples_isDelayed row ids trip vehicle route zone g :
  bus_trip_triples row ids trip vehicle route zone = Ok g →
  has_pred (term MOB "isDelayed") g ↔ is_Some (safe_bool (BusGps.IS_DELAYED row)).
Proof.
  intros Hg. apply bus_trip_triples_shape in Hg as (g0 & -> & Hg0). split.
  - intros (s & o & Hin). apply elem_of_app in Hin as [Hin|Hin].
    + rewrite Forall_forall in Hg0. destruct (Hg0 _ Hin) as (_ & Hp & _).
      by destruct Hp.
    + destruct (safe_bool _); [eauto | by apply elem_of_nil in Hin].
  - intros [b ->]. eexists _, _. apply elem_of_app. right. simpl.
    apply list_elem_of_singleton. reflexivity.
Qed.
(** The triples of the delay of a row: those of the event when the delay
    is positive, none otherwise. *)
Lemma bus_delay_triples_elem row trip trip_id delay event t :
  to_uri "delay_event" (VStr trip_id) = Some event →
  t ∈ bus_delay_triples row trip trip_id delay ↔
  ∃ d, delay = Some d ∧ float_ltb (FNum 0) d = true
       ∧ (t = (trip, term MOB "hasDelayEvent", event)
          ∨ t = (event, RDF_type, term MOB "DelayEvent")
          ∨ t = (event, term MOB "delayMinutes", Literal (VFloat d) (datatype XSD "float"))
          ∨ t = (event, term MOB "delayUnit", term UNIT "MIN")
          ∨ (present (BusGps.DELAY_CATEGORY row) = true
             ∧ t = (event, term MOB "delayCategory",
                     term_of_cell MOB (BusGps.DELAY_CATEGORY row)))).
Proof.
  intros Hev. unfold bus_delay_triples, delay_event_triples. rewrite Hev.
  destruct delay as [d|]; [|split; [by intros ?%elem_of_nil | by intros (? & ? & _)]].
  destruct (float_ltb (FNum 0) d) eqn:Hd.
  - rewrite elem_of_app, !elem_of_cons, elem_of_nil. split.
    + intros Hin. exists d. split; [done|]. split; [done|].
      destruct (present _); [rewrite list_elem_of_singleton in Hin|rewrite elem_of_nil in Hin];
        tauto.
    + intros (d' & [= <-] & _ & Hin).
      destruct (present _); [rewrite list_elem_of_singleton|rewrite elem_of_nil];
        intuition congruence.
  - split; [by intros ?%elem_of_nil|]. intros (d' & [= <-] & Hd' & _). congruence.
Qed.

(** A triple equation between two triples whose predicates differ. *)
Local Ltac other_predicate E :=
  exfalso; apply (f_equal (λ t : triple, t.1.2)) in E; revert E; by_evaluation.

(** C9 (as amended): for a BUS_GPS_CLEAN row that is not skipped, the
    iteration returns; the [hasDelayEvent] link, the [DelayEvent] node and
    its [delayMinutes] and [delayUnit] triples are added exactly when
    DELAY_MINUTES parses to a float greater than 0; the [delayCategory]
    triple is added exactly when moreover DELAY_CATEGORY is not blank; no
    other triple with one of these predicates or of type [DelayEvent] is
    added; and the [isDelayed] triple is added exactly when IS_DELAYED is
    not NA, also when the delay is 0. *)
Theorem delay_event_iff_positive (row : BusGps.row) (ids : string * string)
    (trip vehicle route zone : node) :
  bus_trip_id row = Ok ids →
  bus_uris row ids.2 = (Some trip, Some vehicle, Some route, Some zone) →
  ∃ c delay event,
    bus_gps_body row = Ok c
    ∧ safe_float (BusGps.DELAY_MINUTES row) = Ok delay
    ∧ to_uri "delay_event" (VStr ids.2) = Some event
    ∧ ((trip, term MOB "hasDelayEvent", event) ∈ c ↔ delay_positive delay)
    ∧ ((event, RDF_type, term MOB "DelayEvent") ∈ c ↔ delay_positive delay)
    ∧ ((event, term MOB "delayUnit", term UNIT "MIN") ∈ c ↔ delay_positive delay)
    ∧ (∀ d, (event, term MOB "delayMinutes", Literal (VFloat d) (datatype XSD "float")) ∈ c
            ↔ delay = Some d ∧ float_ltb (FNum 0) d = true)
    ∧ ((event, term MOB "delayCategory", term_of_cell MOB (BusGps.DELAY_CATEGORY row)) ∈ c
       ↔ delay_positive delay ∧ present (BusGps.DELAY_CATEGORY row) = true)
    ∧ (∀ p, p ∈ delay_predicates → has_pred p c → delay_positive delay)
    ∧ (∀ s, (s, RDF_type, term MOB "DelayEvent") ∈ c → delay_positive delay)
    ∧ (has_pred (term MOB "delayCategory") c → present (BusGps.DELAY_CATEGORY row) = true)
    ∧ (has_pred (term MOB "isDelayed") c ↔ is_Some (safe_bool (BusGps.IS_DELAYED row))).
Proof.
  intros Hids Hu.
  assert (Hev : is_Some (to_uri "delay_event" (VStr ids.2))).
  { apply to_uri_str. unfold bus_uris in Hu. injection Hu as Ht _ _ _.
    by apply to_uri_str_inv in Ht. }
  destruct Hev as [event Hev].
  destruct (bus_trip_triples_total row ids trip vehicle route zone) as [g Hg].
  destruct (safe_float_total (BusGps.DELAY_MINUTES row)) as [delay Hdelay].
  exists (g ++ bus_delay_triples row trip ids.2 delay)%list, delay, event.
  split.
  { unfold bus_gps_body. rewrite Hids. change (Ok ids ≫= ?k) with (k ids).
    cbv beta zeta. rewrite Hu, Hg. change (Ok g ≫= ?k) with (k g).
    cbv beta. rewrite Hdelay. reflexivity. }
  split; [done|]. split; [done|].
  pose proof (λ s p o, bus_trip_triples_no_delay _ _ _ _ _ _ _ s p o Hg) as Hno.
  pose proof (bus_delay_triples_elem row trip ids.2 delay event) as Hin_delay.
  assert (Hpos : ∀ t, t ∈ bus_delay_triples row trip ids.2 delay → delay_positive delay).
  { intros t (d & -> & Hd & _)%Hin_delay; [|done]. by exists d. }
  assert (Hadd : ∀ t d, delay = Some d → float_ltb (FNum 0) d = true →
            t ∈ bus_delay_triples row trip ids.2 (Some d) →
            t ∈ (g ++ bus_delay_triples row trip ids.2 delay)%list).
  { intros t d -> _ Hin. apply elem_of_app. by right. }
  assert (Hnot : ∀ s p o, p ∈ delay_predicates → (s, p, o) ∈ g → False).
  { intros s p o Hp Hin. apply Hno in Hin as [Hp' _]. by destruct Hp'. }
  split; [split|].
  { intros [Hin|Hin]%elem_of_app; [|by eapply Hpos].
    exfalso. eapply Hnot; [|done]. by_evaluation. }
  { intros (d & Hd1 & Hd2). eapply Hadd; [done..|]. subst delay.
    apply Hin_delay; [done|]. exists d. tauto. }
  split; [split|].
  { intros [Hin|Hin]%elem_of_app; [|by eapply Hpos].
    apply Hno in Hin as [_ Ho]. by destruct Ho. }
  { intros (d & Hd1 & Hd2). eapply Hadd; [done..|]. subst delay.
    apply Hin_delay; [done|]. exists d. tauto. }
  split; [split|].
  { intros [Hin|Hin]%elem_of_app; [|by eapply Hpos].
    exfalso. eapply Hnot; [|done]. by_evaluation. }
  { intros (d & Hd1 & Hd2). eapply Hadd; [done..|]. subst delay.
    apply Hin_delay; [done|]. exists d. tauto. }
  split; [intros d; split|].
  { intros [Hin|Hin]%elem_of_app.
    - exfalso. eapply Hnot; [|done]. by_evaluation.
    - apply Hin_delay in Hin as (d' & -> & Hd & Ht); [|done].
      destruct Ht as [E|[E|[E|[E|[_ E]]]]]; try by other_predicate E.
      by injection E as ->. }
  { intros [Hd1 Hd2]. eapply Hadd; [done..|]. subst delay.
    apply Hin_delay; [done|]. exists d. tauto. }
  split; [split|].
  { intros [Hin|Hin]%elem_of_app.
    - exfalso. eapply Hnot; [|done]. by_evaluation.
    - split; [by eapply Hpos|].
      apply Hin_delay in Hin as (d' & -> & Hd & Ht); [|done].
      destruct Ht as [E|[E|[E|[E|[Hc E]]]]]; try by other_predicate E. done. }
  { intros [(d & Hd1 & Hd2) Hc]. eapply Hadd; [done..|]. subst delay.
    apply Hin_delay; [done|]. exists d. tauto. }
  split.
  { intros p Hp (s & o & [Hin|Hin]%elem_of_app); [|by eapply Hpos].
    exfalso. by eapply Hnot. }
  split.
  { intros s [Hin|Hin]%elem_of_app; [|by eapply Hpos].
    apply Hno in Hin as [_ Ho]. by destruct Ho. }
  split.
  { intros (s & o & [Hin|Hin]%elem_of_app).
    - exfalso. eapply Hnot; [|done]. by_evaluation.
    - apply Hin_delay in Hin as (d' & -> & Hd & Ht); [|done].
      destruct Ht as [E|[E|[E|[E|[Hc E]]]]]; try by other_predicate E. done. }
  split.
  { intros (s & o & [Hin|Hin]%elem_of_app).
    - apply (bus_trip_triples_isDelayed _ _ _ _ _ _ _ Hg). by exists s, o.
    - apply Hin_delay in Hin as (d' & -> & Hd & Ht); [|done].
      destruct Ht as [E|[E|[E|[E|[Hc E]]]]]; by other_predicate E. }
  { intros Hb. apply (bus_trip_triples_isDelayed _ _ _ _ _ _ _ Hg) in Hb
      as (s & o & Hin). exists s, o. apply elem_of_app. by left. }
Qed.

End mapper_delay.

Lemma clamp_float_range (x l h : Q) :
  (l <= h)%Q →
  ∃ q, clamp (VFloat (FNum x)) (VFloat (FNum l)) (VFloat (FNum h)) = VFloat (FNum q)
       ∧ (l <= q <= h)%Q.
Proof.
  intros Hlh.
  destruct (clamp_range x (VFloat (FNum l)) (VFloat (FNum h)) l h)
    as [Hin (q & Hq & Hr)]; [done..|].
  exists q. split; [|done]. revert Hin Hq.
  generalize (clamp (VFloat (FNum x)) (VFloat (FNum l)) (VFloat (FNum h))).
  intros v Hin Hq. set_unfold in Hin.
  destruct Hin as [->|[->|[->|[]]]]; simpl in Hq; congruence.
Qed.

Section rounding.

Lemma Qround_half_even_range (s : Q) (a b : Z) :
  (inject_Z a <= s <= inject_Z b)%Q → (a ≤ Qround_half_even s ≤ b)%Z.
Proof.
  intros [Ha Hb]. unfold Qround_half_even.
  assert (Hfa : (a ≤ Qfloor s)%Z) by (rewrite <- (Qfloor_Z a); by apply Qfloor_resp_le).
  assert (Hfb : (Qfloor s ≤ b)%Z) by (rewrite <- (Qfloor_Z b); by apply Qfloor_resp_le).
  destruct (Qltb (s - inject_Z (Qfloor s)) (1 # 2)) eqn:Hr; [lia|].
  apply Qltb_ge in Hr.
  assert (Hlt : (Qfloor s < b)%Z).
  { rewrite Zlt_Qlt. eapply Qlt_le_trans; [|exact Hb].
    apply Qlt_minus_iff. eapply Qlt_le_trans; [|exact Hr]. reflexivity. }
  destruct (Qltb _ _); [lia|]. destruct (Z.even _); lia.
Qed.

Lemma Qround_range (q lo hi : Q) (n : nat) (a b : Z) :
  (lo * inject_Z (10 ^ Z.of_nat n) == inject_Z a)%Q →
  (hi * inject_Z (10 ^ Z.of_nat n) == inject_Z b)%Q →
  (lo <= q <= hi)%Q → (lo <= Qround q n <= hi)%Q.
Proof.
  intros Hlo Hhi [Hq1 Hq2]. unfold Qround.
  set (scale := inject_Z (10 ^ Z.of_nat n)) in *.
  assert (Hs : (0 < scale)%Q).
  { unfold scale. rewrite <- (Zlt_Qlt 0). apply Z.pow_pos_nonneg; lia. }
  destruct (Qround_half_even_range (q * scale) a b) as [Hra Hrb].
  { rewrite <- Hlo, <- Hhi. split; apply Qmult_le_compat_r; auto using Qlt_le_weak. }
  split.
  - apply Qle_shift_div_l; [done|]. rewrite Hlo. by rewrite <- Zle_Qle.
  - apply Qle_shift_div_r; [done|]. rewrite Hhi. by rewrite <- Zle_Qle.
Qed.

Lemma py_round_range (v : pyval) (lo hi : Q) (n : nat) (a b : Z) :
  (lo * inject_Z (10 ^ Z.of_nat n) == inject_Z a)%Q →
  (hi * inject_Z (10 ^ Z.of_nat n) == inject_Z b)%Q →
  in_range lo hi v → in_range lo hi (py_round v n).
Proof.
  intros Hlo Hhi (q & Hv & Hq).
  destruct v as [s|z|[| |x]|[|]]; simpl in *; try discriminate;
    try (by exists q).
  injection Hv as ->. eexists. split; [done|]. by eapply Qround_range.
Qed.

End rounding.

(** ** Weakest preconditions *)

Section wp_rules.

Lemma wp_ret {A} (a : A) g post : wp (mret a) g post ↔ post a g.
Proof. reflexivity. Qed.

Lemma wp_bind {A B} (m : M A) (k : A → M B) g post :
  wp (m ≫= k) g post ↔ wp m g (λ a g', wp (k a) g' post).
Proof.
  unfold wp, mbind, M_bind. destruct (m g) as [[a g']|e]; reflexivity.
Qed.

Lemma wp_mono {A} (m : M A) g (post post' : A → rng → Prop) :
  wp m g post → (∀ a g', post a g' → post' a g') → wp m g post'.
Proof.
  unfold wp. destruct (m g) as [[a g']|e]; [|done]. intros Hp Himp. by apply Himp.
Qed.

Lemma wp_returns {A} (m : M A) g post :
  wp m g post ↔ ∃ a g', m g = Ok (a, g') ∧ post a g'.
Proof.
  unfold wp. destruct (m g) as [[a g']|e].
  - split; [eauto|]. by intros (? & ? & [= <- <-] & ?).
  - split; [done|]. by intros (? & ? & ? & _).
Qed.

Lemma wp_lift {A} (r : result A) a g post :
  r = Ok a → post a g → wp (lift r) g post.
Proof. intros -> Hp. exact Hp. Qed.

Lemma wp_dict_get {V} (d : gmap string V) k v g post :
  d !! k = Some v → post v g → wp (dict_get d k) g post.
Proof. unfold wp, dict_get. intros -> Hp. exact Hp. Qed.

Lemma wp_list_get {A} (l : list A) i x g post :
  l !! i = Some x → post x g → wp (list_get l i) g post.
Proof. unfold wp, list_get. intros -> Hp. exact Hp. Qed.

(** The loop rule: [inv done s] holds of the state after the items [done]. *)
Lemma wp_for {A S} (l : list A) (body : A → S → M S) (inv : list A → S → Prop) s g :
  inv [] s →
  (∀ done x rest s g, l = (done ++ x :: rest)%list → inv done s →
     wp (body x s) g (λ s' _, inv (done ++ [x])%list s')) →
  wp (for_ l body s) g (λ s' _, inv l s').
Proof.
  intros Hinit Hstep.
  enough (Hgen : ∀ rest done s g, l = (done ++ rest)%list → inv done s →
            wp (for_ rest body s) g (λ s' _, inv l s')) by by apply (Hgen l []).
  clear s g Hinit. induction rest as [|x rest IH]; intros done s g Hl Hinv.
  - simpl. apply wp_ret. by rewrite Hl, app_nil_r.
  - simpl. apply wp_bind. eapply wp_mono; [by eapply Hstep|].
    intros s' g' Hinv'. apply (IH (done ++ [x])%list); [|done].
    by rewrite <- app_assoc.
Qed.

(** *** The draws *)

Lemma wp_next_raw g post : (∀ k g', post k g') → wp next_raw g post.
Proof. intros Hp. apply Hp. Qed.

Lemma wp_random_random g post :
  (∀ u g', (0 <= u)%Q → (u < 1)%Q → post u g') → wp random_random g post.
Proof.
  intros Hp. unfold random_random. apply wp_bind, wp_next_raw. intros k g'.
  apply wp_ret, Hp.
  - unfold Qle. cbn [Qnum Qden]. rewrite Z.mul_0_l, Z.mul_1_r. apply N2Z.is_nonneg.
  - unfold Qlt. cbn [Qnum Qden]. rewrite Z.mul_1_r, Z.mul_1_l.
    change (Z.pos (2 ^ 53)) with (Z.of_N (2 ^ 53)%N).
    apply N2Z.inj_lt, N.mod_upper_bound. done.
Qed.

Lemma wp_random_uniform (a b : Q) g post :
  (a <= b)%Q →
  (∀ x g', (a <= x <= b)%Q → post x g') → wp (random_uniform a b) g post.
Proof.
  intros Hab Hp. unfold random_uniform. apply wp_bind, wp_random_random.
  intros u g' Hu0 Hu1. apply wp_ret, Hp.
  assert (Hd : (0 <= b - a)%Q) by (unfold Qminus; by rewrite <- Qle_minus_iff).
  split.
  - rewrite <- (Qplus_0_r a) at 1. apply Qplus_le_r. by apply Qmult_le_0_compat.
  - apply Qle_trans with (a + (b - a) * 1)%Q.
    + apply Qplus_le_r, Qmult_le_compat_nonneg.
      * split; [done | apply Qle_refl].
      * split; [done | by apply Qlt_le_weak].
    + apply Qle_lteq. right. ring.
Qed.

Lemma wp_randbelow (n : nat) g post :
  (0 < n)%nat → (∀ j g', (j < n)%nat → post j g') → wp (randbelow n) g post.
Proof.
  intros Hn Hp. unfold randbelow. apply wp_bind, wp_next_raw. intros k g'.
  apply wp_ret, Hp.
  pose proof (N.mod_upper_bound k (N.of_nat n) ltac:(lia)). lia.
Qed.

Lemma wp_random_choice {A} (seq : list A) g post :
  seq ≠ [] → (∀ x g', x ∈ seq → post x g') → wp (random_choice seq) g post.
Proof.
  intros Hne Hp. unfold random_choice. destruct seq as [|y seq']; [done|].
  set (seq := y :: seq') in *. apply wp_bind, wp_randbelow; [simpl; lia|].
  intros j g' Hj. destruct (lookup_lt_is_Some_2 seq j Hj) as [x Hx].
  rewrite Hx. apply wp_ret, Hp. by eapply list_elem_of_lookup_2.
Qed.

Lemma wp_random_randint (a b : Z) g post :
  a ≤ b → (∀ r g', a ≤ r ≤ b → post r g') → wp (random_randint a b) g post.
Proof.
  intros Hab Hp. unfold random_randint. case_decide; [|lia].
  apply wp_bind, wp_randbelow; [lia|]. intros j g' Hj. apply wp_ret, Hp. lia.
Qed.

End wp_rules.

(** ** Sampling without replacement *)

Section sampling.
Local Open Scope nat_scope.
Context {A : Type}.
Implicit Types (pool res : list A).

(** One step of the selection keeps the unselected items distinct and drops
    the selected one from them. *)
Lemma sample_pool_step pool n j x y :
  0 < n → n ≤ length pool → j < n → NoDup (take n pool) →
  pool !! j = Some x → pool !! (n - 1) = Some y →
  NoDup (take (n - 1) (<[j := y]> pool))
  ∧ (x ∉ take (n - 1) (<[j := y]> pool))
  ∧ take (n - 1) (<[j := y]> pool) ⊆ take n pool.
Proof.
  intros Hn Hlen Hj Hnd Hx Hy.
  assert (Hinj : ∀ i1 i2 z, i1 < n → i2 < n →
            pool !! i1 = Some z → pool !! i2 = Some z → i1 = i2).
  { intros i1 i2 z H1 H2 Hz1 Hz2. rewrite NoDup_alt in Hnd.
    apply (Hnd i1 i2 z); by rewrite lookup_take_lt. }
  assert (Hlk : ∀ i z, take (n - 1) (<[j := y]> pool) !! i = Some z →
            i < n - 1 ∧ ((i = j ∧ z = y) ∨ (i ≠ j ∧ pool !! i = Some z))).
  { intros i z Hz. apply lookup_take_Some in Hz as [Hz Hi]. split; [done|].
    apply list_lookup_insert_Some in Hz as [(-> & -> & _)|[Hne Hz]]; auto. }
  repeat split.
  - apply NoDup_alt. intros i1 i2 z H1 H2.
    apply Hlk in H1 as [Hi1 [[-> ->]|[Hne1 Hz1]]];
      apply Hlk in H2 as [Hi2 [[-> Hz2]|[Hne2 Hz2]]]; try done.
    + assert (n - 1 = i2) by (apply (Hinj _ _ y); [lia..|done|done]). lia.
    + subst z. assert (i1 = n - 1) by (apply (Hinj _ _ y); [lia..|done|done]). lia.
    + apply (Hinj _ _ z); [lia..|done|done].
  - intros (i & Hi)%list_elem_of_lookup_1.
    apply Hlk in Hi as [Hi [[-> ->]|[Hne Hz]]].
    + assert (j = n - 1) by (apply (Hinj _ _ y); [lia..|done|done]). lia.
    + apply Hne. apply (Hinj _ _ x); [lia..|done|done].
  - intros z (i & Hi)%list_elem_of_lookup_1.
    apply Hlk in Hi as [Hi [[-> ->]|[Hne Hz]]]; apply elem_of_take.
    + exists (n - 1). split; [done|lia].
    + exists i. split; [done|lia].
Qed.

Lemma wp_sample_pool (k : nat) pool n g (post : list A → rng → Prop) :
  k ≤ n → n ≤ length pool → NoDup (take n pool) →
  (∀ res g', length res = k → NoDup res → res ⊆ take n pool → post res g') →
  wp (sample_pool pool n k) g post.
Proof.
  revert pool n g post. induction k as [|k IH]; intros pool n g post Hk Hn Hnd Hpost.
  - apply wp_ret, Hpost; [done | constructor | by intros ? ?%elem_of_nil].
  - simpl. apply wp_bind, wp_randbelow; [lia|]. intros j g1 Hj.
    destruct (lookup_lt_is_Some_2 pool j) as [x Hx]; [lia|].
    destruct (lookup_lt_is_Some_2 pool (n - 1)) as [y Hy]; [lia|].
    rewrite Hx, Hy.
    destruct (sample_pool_step pool n j x y) as (Hnd' & Hx' & Hsub); [lia..|done|done|done|].
    apply wp_bind, IH; [lia | rewrite length_insert; lia | done |].
    intros rest g2 Hlen Hndr Hrest. apply wp_ret, Hpost.
    + simpl. lia.
    + constructor; [|done]. intros Hin. by apply Hx', Hrest.
    + intros z [->|Hz]%elem_of_cons.
      * apply elem_of_take. exists j. split; [done|lia].
      * by apply Hsub, Hrest.
Qed.

(** [random.sample] returns [k] items at distinct positions of a
    population without repetition. *)
Lemma wp_random_sample (population : list A) (k : nat) g (post : list A → rng → Prop) :
  k ≤ length population → NoDup population →
  (∀ res g', length res = k → NoDup res → res ⊆ population → post res g') →
  wp (random_sample population k) g post.
Proof.
  intros Hk Hnd Hpost. unfold random_sample. case_decide; [|lia].
  apply wp_sample_pool; [done..| by rewrite firstn_all |].
  intros res g' Hlen Hndr Hsub. apply Hpost; [done..|].
  by rewrite firstn_all in Hsub.
Qed.

End sampling.

(** ** The traffic table *)

Section traffic.
Context `{PyMath}.
Local Open Scope nat_scope.

Local Ltac Qcompare := unfold Qle, Qlt, Qeq; simpl; lia.

Lemma ZONES_profiles :
  Forall (λ z, z ≠ "" ∧ is_Some (zone_profile !! z)) ZONES.
Proof. apply (bool_decide_unpack _). vm_compute. exact I. Qed.

(** The body of the inner loop returns a normal row of its zone. *)
Lemma wp_traffic_row z prof ts g (post : list pyval → rng → Prop) :
  z ≠ "" →
  (∀ row g', normal_row row → post row g') →
  wp (traffic_row z prof ts) g post.
Proof.
  intros Hz Hpost. unfold traffic_row.
  apply wp_bind, wp_random_uniform; [Qcompare|]. intros n1 g1 _.
  apply wp_bind, wp_random_uniform; [Qcompare|]. intros n2 g2 _.
  match goal with |- context [clamp (VFloat (FNum ?x)) (VInt 8) (VInt 80)] =>
    destruct (clamp_range x (VInt 8) (VInt 80) 8 80) as [_ Hspeed];
      [done..|Qcompare|] end.
  match goal with |- context [clamp (VFloat (FNum ?x)) (VInt 20) (VInt 450)] =>
    destruct (clamp_range x (VInt 20) (VInt 450) 20 450) as [Hvol _];
      [done..|Qcompare|];
    assert (Hint : ∃ vol, py_int (clamp (VFloat (FNum x)) (VInt 20) (VInt 450)) = Ok vol)
      by (set_unfold in Hvol; destruct Hvol as [->|[->|[->|[]]]]; simpl; eauto) end.
  destruct Hint as [vol Hint]. apply wp_bind. eapply wp_lift; [exact Hint|].
  apply wp_bind, wp_random_uniform; [Qcompare|]. intros n3 g3 _.
  apply wp_ret, Hpost.
  match goal with |- context [clamp (VFloat (FNum ?x)) (VFloat (FNum 0.05)) _] =>
    destruct (clamp_float_range x 0.05 0.99) as (q & Hocc & Hrange); [Qcompare|] end.
  rewrite Hocc. simpl py_round at 2.
  eexists z, _, _, vol, _. split; [reflexivity|].
  split; [done|]. split; [done|]. split.
  - eapply (py_round_range _ 8 80 1 80 800); [Qcompare..|done].
  - eapply (Qround_range _ 0.05 0.99 2 5 99); [Qcompare..|done].
Qed.

Lemma length_timestamps :
  length (dt_range TRAFFIC_START TRAFFIC_END
            (Z.to_pos (timedelta_minutes (Z.pos TRAFFIC_STEP_MIN)))) = 69.
Proof. vm_compute. reflexivity. Qed.

Lemma wp_traffic_base_rows g (post : list (list pyval) → rng → Prop) :
  (∀ rows g', length rows = 552 → Forall normal_row rows → post rows g') →
  wp traffic_base_rows g post.
Proof.
  intros Hpost. unfold traffic_base_rows.
  eapply wp_mono.
  - apply (wp_for _ _ (λ done rows,
             length rows = 69 * length done ∧ Forall normal_row rows)); [done|].
    intros done z rest rows g1 Hl [Hlen Hrows].
    assert (Hz : z ∈ ZONES) by (rewrite Hl; set_solver).
    pose proof ZONES_profiles as Hprof. rewrite Forall_forall in Hprof.
    destruct (Hprof z Hz) as [Hne [prof Hp]].
    apply wp_bind. eapply wp_dict_get; [exact Hp|].
    eapply wp_mono.
    + apply (wp_for _ _ (λ done' rows',
               length rows' = length rows + length done'
               ∧ Forall normal_row rows')); [by rewrite Nat.add_0_r|].
      intros done' ts rest' rows' g2 _ [Hlen' Hrows'].
      apply wp_bind, wp_traffic_row; [done|]. intros row g3 Hrow.
      apply wp_ret. rewrite !length_app, Forall_app, Forall_singleton. simpl.
      split; [lia|done].
    + cbv beta. intros rows' _ [Hlen' Hrows']. rewrite length_timestamps in Hlen'.
      rewrite length_app. simpl. split; [lia|done].
  - cbv beta. intros rows g' [Hlen Hrows]. apply Hpost; [|done].
    rewrite Hlen. reflexivity.
Qed.

End traffic.

(** ** The injection of missing values and outliers *)

Section injection.
Local Open Scope nat_scope.
Implicit Types (rows : list (list pyval)) (row : list pyval).

Local Ltac Qcompare := unfold Qle, Qlt, Qeq; simpl; lia.

Lemma wp_set_cell rows i j v row g (post : list (list pyval) → rng → Prop) :
  rows !! i = Some row → j < length row →
  post (<[i := <[j := v]> row]> rows) g →
  wp (set_cell rows i j v) g post.
Proof.
  intros Hrow Hj Hpost. unfold wp, set_cell. rewrite Hrow.
  by rewrite decide_True.
Qed.

Lemma wp_blank_one_field i rows row g (post : list (list pyval) → rng → Prop) :
  rows !! i = Some row → length row = 5 →
  (∀ row' g', blank_edit row row' → post (<[i := row']> rows) g') →
  wp (blank_one_field i rows) g post.
Proof.
  intros Hrow Hlen Hpost. unfold blank_one_field.
  apply wp_bind, wp_random_random. intros u g' _ _.
  destruct (Qltb u 0.6); (eapply wp_set_cell; [done | rewrite Hlen; compute; lia |]);
    apply Hpost; [by left | by right].
Qed.

Lemma wp_outlier_one_field i rows row g (post : list (list pyval) → rng → Prop) :
  rows !! i = Some row → length row = 5 →
  (∀ row' g', outlier_edit row row' → post (<[i := row']> rows) g') →
  wp (outlier_one_field i rows) g post.
Proof.
  intros Hrow Hlen Hpost. unfold outlier_one_field.
  apply wp_bind, wp_random_random. intros u g' _ _.
  destruct (Qltb u 0.5).
  - apply wp_bind, wp_random_choice; [done|]. intros v g1 Hv.
    eapply wp_set_cell; [done | rewrite Hlen; compute; lia |].
    apply Hpost. left. by exists v.
  - apply wp_bind, wp_random_uniform; [Qcompare|]. intros x g1 Hx.
    eapply wp_set_cell; [done | rewrite Hlen; compute; lia |].
    apply Hpost. right. eexists. split; [|reflexivity].
    eapply (Qround_range _ 1.01 1.10 2 101 110); [Qcompare..|done].
Qed.

Lemma blank_edit_length old new : blank_edit old new → length new = length old.
Proof. intros [->| ->]; apply length_insert. Qed.

Lemma outlier_edit_length old new : outlier_edit old new → length new = length old.
Proof. intros [(v & _ & ->)|(q & _ & ->)]; apply length_insert. Qed.

(** A loop that edits the row of each index of a list without repetition:
    the rows of the list are edited once, the others are left alone. *)
Lemma wp_for_edit (body : nat → list (list pyval) → M (list (list pyval)))
    (edit : list pyval → list pyval → Prop) idxs rows g
    (post : list (list pyval) → rng → Prop) :
  (∀ old new, edit old new → length new = length old) →
  (∀ i rows row g post', rows !! i = Some row → length row = 5 →
     (∀ row' g', edit row row' → post' (<[i := row']> rows) g') →
     wp (body i rows) g post') →
  NoDup idxs → (∀ i, i ∈ idxs → i < length rows) →
  Forall (λ row, length row = 5) rows →
  (∀ rows' g',
     length rows' = length rows →
     Forall (λ row, length row = 5) rows' →
     (∀ i, i ∈ idxs → ∃ old new,
        rows !! i = Some old ∧ rows' !! i = Some new ∧ edit old new) →
     (∀ i, i ∉ idxs → rows' !! i = rows !! i) →
     post rows' g') →
  wp (for_ idxs body rows) g post.
Proof.
  intros Hedit Hbody Hnd Hlt Hfive Hpost.
  eapply wp_mono.
  - apply (wp_for _ _ (λ done rows',
      length rows' = length rows
      ∧ Forall (λ row, length row = 5) rows'
      ∧ (∀ i, i ∈ done → ∃ old new,
            rows !! i = Some old ∧ rows' !! i = Some new ∧ edit old new)
      ∧ (∀ i, i ∉ done → rows' !! i = rows !! i))).
    { repeat split; try done. by intros i ?%elem_of_nil. }
    intros done x rest rows' g1 Hl (Hlen & Hfive' & Hdone & Hother).
    assert (Hx : x ∉ done).
    { rewrite Hl in Hnd. apply NoDup_app in Hnd as (_ & Hnd & _).
      intros Hin. apply (Hnd x Hin). by left. }
    assert (Hxlt : x < length rows) by (apply Hlt; rewrite Hl; set_solver).
    destruct (lookup_lt_is_Some_2 rows x Hxlt) as [old Hold].
    assert (Hold' : rows' !! x = Some old) by (by rewrite Hother).
    assert (Hfive_old : length old = 5).
    { rewrite Forall_forall in Hfive. apply Hfive. by eapply list_elem_of_lookup_2. }
    eapply Hbody; [done..|]. intros new g2 Hnew.
    split; [by rewrite length_insert|]. split; [|split].
    + apply Forall_insert; [done|]. by rewrite (Hedit _ _ Hnew).
    + intros i [Hi|Hi%list_elem_of_singleton]%elem_of_app; [|subst i].
      * destruct (Hdone i Hi) as (o & n & Ho & Hn & He). exists o, n.
        split; [done|]. split; [|done].
        rewrite list_lookup_insert_ne; [done|]. by intros ->.
      * exists old, new. split; [done|]. split; [|done].
        apply list_lookup_insert_eq. by rewrite Hlen.
    + intros i Hi. rewrite not_elem_of_app, list_elem_of_singleton in Hi.
      destruct Hi as [Hi Hne]. rewrite list_lookup_insert_ne by done. by apply Hother.
  - cbv beta. intros rows' g' (Hlen & Hfive' & Hdone & Hother). by apply Hpost.
Qed.

End injection.

Section traffic_table.
Context `{PyMath}.
Local Open Scope nat_scope.

Lemma normal_row_length row : normal_row row → length row = 5.
Proof. by intros (z & ts & speed & vol & occ & -> & _). Qed.

Lemma rate_count_missing : rate_count 552 TRAFFIC_MISSING_RATE = 16.
Proof. reflexivity. Qed.

Lemma rate_count_outlier : rate_count 552 TRAFFIC_OUTLIER_RATE = 5.
Proof. reflexivity. Qed.

(** The table is generated on every tape, and its local variables are as
    [traffic_run_ok] says. *)
Lemma traffic_table_ok g : wp traffic_table g (λ run _, traffic_run_ok run).
Proof.
  unfold traffic_table.
  apply wp_bind, wp_traffic_base_rows. intros base g1 Hlen Hbase.
  rewrite Hlen.
  assert (Hfive : Forall (λ row, length row = 5) base)
    by (eapply Forall_impl; [done | apply normal_row_length]).
  apply wp_bind, wp_random_sample;
    [rewrite length_seq, rate_count_missing; lia | apply NoDup_seq |].
  intros miss g2 Hmlen Hmnd Hmsub.
  assert (Hmlt : ∀ i, i ∈ miss → i < 552).
  { intros i Hi. apply Hmsub, elem_of_seq in Hi. lia. }
  apply wp_bind.
  apply (wp_for_edit blank_one_field blank_edit);
    [apply blank_edit_length | intros; by eapply wp_blank_one_field
    | done | by rewrite Hlen | done |].
  intros rows1 g3 Hlen1 Hfive1 Hmiss1 Hother1.
  set (pop := filter (λ i, i ∉ miss) (seq 0 552)).
  assert (Hpop : 5 ≤ length pop).
  { pose proof (filter_app_complement (λ i, i ∈ miss) (seq 0 552)) as Hc.
    apply Permutation_length in Hc. rewrite length_app, length_seq in Hc.
    assert (length (filter (λ i, i ∈ miss) (seq 0 552)) ≤ length miss).
    { apply submseteq_length, NoDup_submseteq; [apply NoDup_filter, NoDup_seq|].
      by intros i [Hi _]%list_elem_of_filter. }
    pose proof rate_count_missing as Hcount. rewrite <- Hmlen in Hcount.
    unfold pop. lia. }
  apply wp_bind, wp_random_sample;
    [by rewrite rate_count_outlier | apply NoDup_filter, NoDup_seq |].
  intros out g4 Holen Hond Hosub.
  assert (Hout : ∀ i, i ∈ out → i < 552 ∧ i ∉ miss).
  { intros i Hi. apply Hosub, list_elem_of_filter in Hi as [Hi1 Hi2].
    apply elem_of_seq in Hi2. split; [lia|done]. }
  apply wp_bind.
  apply (wp_for_edit outlier_one_field outlier_edit);
    [apply outlier_edit_length | intros; by eapply wp_outlier_one_field
    | done | intros i Hi; rewrite Hlen1, Hlen; by apply Hout | done |].
  intros rows2 g5 Hlen2 Hfive2 Hout2 Hother2.
  apply wp_ret. unfold traffic_run_ok. simpl.
  split; [done|]. split; [done|]. split; [by rewrite Hlen2, Hlen1|].
  split; [done|]. split; [done|]. split; [done|]. split; [done|]. split; [done|].
  split; [done|]. split; [done|]. split; [|split].
  - intros i Hi. destruct (Hmiss1 i Hi) as (old & new & Ho & Hn & He).
    exists old, new. split; [done|]. split; [|done].
    rewrite Hother2; [done|]. intros Hio. by destruct (Hout i Hio).
  - intros i Hi. destruct (Hout2 i Hi) as (old & new & Ho & Hn & He).
    exists old, new. split; [|done]. rewrite <- Hother1; [done|]. by apply Hout.
  - intros i Him Hio. by rewrite Hother2, Hother1.
Qed.

End traffic_table.

(** ** Counting the rows of a table by their indices *)

Section counting.
Local Open Scope nat_scope.
Local Open Scope list_scope.
Context {A : Type} (P : A → Prop) `{!∀ x, Decision (P x)}.

Lemma filter_indices (l : list A) :
  ∃ J : list nat,
    NoDup J ∧ length J = length (filter P l)
    ∧ ∀ i, i ∈ J ↔ ∃ x, l !! i = Some x ∧ P x.
Proof.
  induction l as [|x l (J & Hnd & Hlen & HJ)] using rev_ind.
  - exists []. repeat split; [constructor|by intros ?%elem_of_nil|].
    by intros (x & Hx & _).
  - assert (Hbound : ∀ i, i ∈ J → i < length l).
    { intros i (y & Hy & _)%HJ. by eapply lookup_lt_Some. }
    rewrite filter_app. destruct (decide (P x)) as [Hx|Hx].
    + exists (J ++ [length l]). rewrite filter_cons_True by done.
      split; [|split].
      * apply NoDup_app. split; [done|]. split; [|apply NoDup_singleton].
        intros i Hi ->%list_elem_of_singleton. apply Hbound in Hi. lia.
      * rewrite !length_app. simpl. lia.
      * intros i. rewrite elem_of_app, list_elem_of_singleton, HJ. split.
        -- intros [(y & Hy & HP)| ->].
           ++ exists y. split; [by apply lookup_app_l_Some|done].
           ++ exists x. split; [|done]. by rewrite lookup_app_r, Nat.sub_diag.
        -- intros (y & Hy & HP). apply lookup_app_Some in Hy as [Hy|[Hge Hy]].
           ++ left. eauto.
           ++ right. apply list_lookup_singleton_Some in Hy as [Hy _]. lia.
    + exists J. rewrite filter_cons_False by done.
      rewrite filter_nil, app_nil_r. split; [done|]. split; [done|].
      intros i. rewrite HJ. split.
      * intros (y & Hy & HP). exists y. split; [by apply lookup_app_l_Some|done].
      * intros (y & Hy & HP). apply lookup_app_Some in Hy as [Hy|[Hge Hy]]; [eauto|].
        apply list_lookup_singleton_Some in Hy as [_ <-]. done.
Qed.

(** The rows that satisfy [P] are as many as their indices. *)
Lemma length_filter_indices (l : list A) (I : list nat) :
  NoDup I →
  (∀ i, i ∈ I ↔ ∃ x, l !! i = Some x ∧ P x) →
  length (filter P l) = length I.
Proof.
  intros Hnd HI. destruct (filter_indices l) as (J & HndJ & <- & HJ).
  apply Permutation_length, NoDup_Permutation; [done..|].
  intros i. by rewrite HI, HJ.
Qed.

End counting.

(** ** The rows of the traffic table after the injection *)

Section traffic_rows.
Local Open Scope nat_scope.
Implicit Types (old new row : list pyval).

Local Ltac Qcompare := unfold Qle, Qlt, Qeq; simpl; lia.

Lemma blank_count_cons v row :
  blank_count (v :: row) = (if decide (v = VStr "") then 1 else 0) + blank_count row.
Proof. unfold blank_count. rewrite filter_cons. by destruct (decide _). Qed.

Lemma in_range_not_blank lo hi v : in_range lo hi v → v ≠ VStr "".
Proof. by intros (q & Hq & _) ->. Qed.

Lemma in_range_not_speed_outlier v : in_range 8 80 v → speed_outlier v = false.
Proof.
  intros (q & Hq & Hlo & Hhi). unfold speed_outlier, below, above. rewrite Hq. simpl.
  apply orb_false_iff. split; by apply Qltb_ge.
Qed.

Lemma normal_occupancy_not_outlier occ :
  (0.05 <= occ <= 0.99)%Q → occupancy_outlier (VFloat (FNum occ)) = false.
Proof.
  intros [_ Hhi]. unfold occupancy_outlier, above. simpl. apply Qltb_ge.
  eapply Qle_trans; [exact Hhi|Qcompare].
Qed.

Lemma speed_outlier_values v :
  v ∈ [VFloat (FNum 2.0); VFloat (FNum 4.5); VFloat (FNum 120.0)] →
  speed_outlier v = true ∧ v ≠ VStr "" ∧ ¬ in_range 8 80 v.
Proof.
  intros Hv. assert (Hout : speed_outlier v = true).
  { set_unfold in Hv. by destruct Hv as [->|[->|[->|[]]]]. }
  split; [done|]. split.
  - set_unfold in Hv. by destruct Hv as [->|[->|[->|[]]]].
  - intros Hr%in_range_not_speed_outlier. congruence.
Qed.

Lemma occupancy_outlier_values q :
  (1.01 <= q <= 1.10)%Q → occupancy_outlier (VFloat (FNum q)) = true ∧ (1 < q)%Q.
Proof.
  intros [Hlo _]. assert (Hq : (1 < q)%Q) by (eapply Qlt_le_trans; [|exact Hlo]; Qcompare).
  split; [|done]. unfold occupancy_outlier, above. simpl. by apply Qltb_lt.
Qed.

Local Ltac count_blanks :=
  rewrite !blank_count_cons;
  repeat (first [ rewrite decide_True by done | rewrite decide_False by congruence ]);
  reflexivity.

Lemma normal_row_counts old :
  normal_row old → blank_count old = 0 ∧ outlier_count old = 0.
Proof.
  intros (z & ts & speed & vol & occ & -> & Hz & Hts & Hspeed & Hocc).
  pose proof (in_range_not_blank _ _ _ Hspeed). split.
  - count_blanks.
  - unfold outlier_count, cell_is. simpl.
    by rewrite in_range_not_speed_outlier, normal_occupancy_not_outlier.
Qed.

Lemma blank_edit_counts old new :
  normal_row old → blank_edit old new → blank_count new = 1 ∧ outlier_count new = 0.
Proof.
  intros (z & ts & speed & vol & occ & -> & Hz & Hts & Hspeed & Hocc) [->| ->];
    pose proof (in_range_not_blank _ _ _ Hspeed); simpl; split; try count_blanks;
    unfold outlier_count, cell_is; simpl.
  - by rewrite normal_occupancy_not_outlier.
  - by rewrite in_range_not_speed_outlier.
Qed.

Lemma outlier_edit_counts old new :
  normal_row old → outlier_edit old new → blank_count new = 0 ∧ outlier_count new = 1.
Proof.
  intros (z & ts & speed & vol & occ & -> & Hz & Hts & Hspeed & Hocc)
    [(v & Hv & ->)|(q & Hq & ->)]; simpl.
  - destruct (speed_outlier_values v Hv) as (Hout & Hnb & _). split; [count_blanks|].
    unfold outlier_count, cell_is. simpl.
    by rewrite Hout, normal_occupancy_not_outlier.
  - pose proof (in_range_not_blank _ _ _ Hspeed).
    destruct (occupancy_outlier_values q Hq) as [Hout _]. split; [count_blanks|].
    unfold outlier_count, cell_is. simpl.
    by rewrite Hout, in_range_not_speed_outlier.
Qed.

(** Every index of the table is in exactly one of three cases. *)
Lemma run_index_cases run i old :
  traffic_run_ok run → t_base run !! i = Some old →
  normal_row old
  ∧ ∃ new, t_rows run !! i = Some new
      ∧ ((i ∈ t_miss_indices run ∧ (i ∉ t_out_indices run) ∧ blank_edit old new)
         ∨ ((i ∉ t_miss_indices run) ∧ i ∈ t_out_indices run ∧ outlier_edit old new)
         ∨ ((i ∉ t_miss_indices run) ∧ (i ∉ t_out_indices run) ∧ new = old)).
Proof.
  intros (Hn & Hlb & Hlr & Hbase & Hml & Hol & Hmnd & Hond & Hmlt & Hout & Hmiss
          & Houtl & Hother) Hold.
  split. { rewrite Forall_forall in Hbase. by eapply Hbase, list_elem_of_lookup_2. }
  destruct (decide (i ∈ t_miss_indices run)) as [Him|Him].
  - destruct (Hmiss i Him) as (old' & new & Ho & Hnew & He).
    assert (old' = old) as -> by congruence.
    exists new. split; [done|]. left. split; [done|]. split; [|done].
    intros Hio. by destruct (Hout i Hio).
  - destruct (decide (i ∈ t_out_indices run)) as [Hio|Hio].
    + destruct (Houtl i Hio) as (old' & new & Ho & Hnew & He).
      assert (old' = old) as -> by congruence.
      exists new. split; [done|]. right. left. done.
    + exists old. split; [by rewrite Hother|]. right. right. done.
Qed.

Lemma run_rows_base run i new :
  traffic_run_ok run → t_rows run !! i = Some new →
  ∃ old, t_base run !! i = Some old.
Proof.
  intros (Hn & Hlb & Hlr & _) Hnew. apply lookup_lt_is_Some_2.
  rewrite Hlb, <- Hlr. by eapply lookup_lt_Some.
Qed.

End traffic_rows.

(** ** The injected imperfections *)

Section traffic_counts.
Context `{PyMath}.
Local Open Scope nat_scope.

Local Ltac Qcompare := unfold Qle, Qlt, Qeq; simpl; lia.

Lemma traffic_table_returns g :
  ∃ run g', traffic_table g = Ok (run, g') ∧ traffic_run_ok run.
Proof. apply wp_returns, traffic_table_ok. Qed.

(** [floor(total * rate)] for the two rates. *)
Lemma floor_rate_missing : Z.to_nat (Qfloor (inject_Z (Z.of_nat 552) * 0.03)) = 16.
Proof. reflexivity. Qed.

Lemma floor_rate_outlier : Z.to_nat (Qfloor (inject_Z (Z.of_nat 552) * 0.01)) = 5.
Proof. reflexivity. Qed.

(** C2: on every tape the traffic table is generated; exactly
    [floor(total * 0.03)] of its rows have a blank field, and one only;
    exactly [floor(total * 0.01)] have an outlier field, and one only; the
    missing indices and the outlier indices are without repetition and
    disjoint, the outlier indices being indices of rows not chosen as
    missing. *)
Theorem injected_counts (g : rng) :
  ∃ run g',
    traffic_table g = Ok (run, g')
    ∧ let total := inject_Z (Z.of_nat (t_total run)) in
      let rows := t_rows run in
      let miss := t_miss_indices run in
      let out := t_out_indices run in
      length rows = t_total run
      ∧ length (filter (λ row, blank_count row = 1) rows)
        = Z.to_nat (Qfloor (total * 0.03))
      ∧ Forall (λ row, blank_count row ≤ 1) rows
      ∧ length (filter (λ row, outlier_count row = 1) rows)
        = Z.to_nat (Qfloor (total * 0.01))
      ∧ Forall (λ row, outlier_count row ≤ 1) rows
      ∧ length miss = Z.to_nat (Qfloor (total * 0.03))
      ∧ length out = Z.to_nat (Qfloor (total * 0.01))
      ∧ NoDup miss ∧ NoDup out
      ∧ (∀ i, i ∈ miss → i < t_total run)
      ∧ (∀ i, i ∈ out → i < t_total run ∧ i ∉ miss)
      ∧ (∀ i row, rows !! i = Some row → (blank_count row = 1 ↔ i ∈ miss))
      ∧ (∀ i row, rows !! i = Some row → (outlier_count row = 1 ↔ i ∈ out)).
Proof.
  destruct (traffic_table_returns g) as (run & g' & Hrun & Hok).
  exists run, g'. split; [done|]. cbv zeta.
  pose proof Hok as (Hn & Hlb & Hlr & Hbase & Hml & Hol & Hmnd & Hond & Hmlt & Hout
                     & _).
  assert (Hcases : ∀ i row, t_rows run !! i = Some row →
    (i ∈ t_miss_indices run ∧ blank_count row = 1 ∧ outlier_count row = 0)
    ∨ (i ∈ t_out_indices run ∧ blank_count row = 0 ∧ outlier_count row = 1)
    ∨ ((i ∉ t_miss_indices run) ∧ (i ∉ t_out_indices run)
       ∧ blank_count row = 0 ∧ outlier_count row = 0)).
  { intros i row Hrow. destruct (run_rows_base run i row Hok Hrow) as [old Hold].
    destruct (run_index_cases run i old Hok Hold) as (Hnorm & new & Hnew & Hc).
    assert (new = row) as -> by congruence.
    destruct Hc as [(Him & _ & He)|[(_ & Hio & He)|(Him & Hio & ->)]].
    - left. split; [done|]. by apply (blank_edit_counts old).
    - right. left. split; [done|]. by apply (outlier_edit_counts old).
    - right. right. split; [done|]. split; [done|]. by apply normal_row_counts. }
  assert (Hblank : ∀ i row, t_rows run !! i = Some row →
            (blank_count row = 1 ↔ i ∈ t_miss_indices run)).
  { intros i row Hrow. destruct (Hcases i row Hrow) as [(?&?&?)|[(Hio&?&?)|(?&?&?&?)]].
    - tauto.
    - split; [lia|]. intros Him. by destruct (Hout i Hio).
    - split; [lia|done]. }
  assert (Houtl : ∀ i row, t_rows run !! i = Some row →
            (outlier_count row = 1 ↔ i ∈ t_out_indices run)).
  { intros i row Hrow. destruct (Hcases i row Hrow) as [(Him&?&?)|[(?&?&?)|(?&?&?&?)]].
    - split; [lia|]. intros Hio. by destruct (Hout i Hio).
    - tauto.
    - split; [lia|done]. }
  assert (Hlookup : ∀ i, i < t_total run → is_Some (t_rows run !! i)).
  { intros i Hi. apply lookup_lt_is_Some_2. by rewrite Hlr. }
  rewrite Hn in *. rewrite floor_rate_missing, floor_rate_outlier.
  rewrite rate_count_missing in Hml. rewrite rate_count_outlier in Hol.
  split; [done|]. split; [|split; [|split; [|split]]].
  - rewrite <- Hml. apply length_filter_indices; [done|]. intros i. split.
    + intros Hi. destruct (Hlookup i (Hmlt i Hi)) as [row Hrow].
      exists row. split; [done|]. by apply (Hblank i).
    + intros (row & Hrow & Hb). by apply (Hblank i row).
  - apply Forall_lookup. intros i row Hrow.
    destruct (Hcases i row Hrow) as [(?&?&?)|[(?&?&?)|(?&?&?&?)]]; lia.
  - rewrite <- Hol. apply length_filter_indices; [done|]. intros i. split.
    + intros Hi. destruct (Hlookup i (proj1 (Hout i Hi))) as [row Hrow].
      exists row. split; [done|]. by apply (Houtl i).
    + intros (row & Hrow & Hb). by apply (Houtl i row).
  - apply Forall_lookup. intros i row Hrow.
    destruct (Hcases i row Hrow) as [(?&?&?)|[(?&?&?)|(?&?&?&?)]]; lia.
  - by repeat (split; [done|]).
Qed.

End traffic_counts.

Section traffic_cells.
Context `{PyMath}.
Local Open Scope nat_scope.

Local Ltac Qcompare := unfold Qle, Qlt, Qeq; simpl; lia.

(** C3: on every tape the traffic table is generated, and the
    [occupancy_rate] cell of each row is blank, at a missing index only, or
    a float in [0.05, 0.99], or a float above 1.0, at an outlier index
    only; these are exclusive, and no index is both missing and outlier. *)
Theorem occupancy_cells (g : rng) :
  ∃ run g',
    traffic_table g = Ok (run, g')
    ∧ ∀ i row, t_rows run !! i = Some row →
        ¬ (i ∈ t_miss_indices run ∧ i ∈ t_out_indices run)
        ∧ ∃ v, row !! col_occupancy_rate = Some v
          ∧ ((v = VStr "" ∧ i ∈ t_miss_indices run)
             ∨ (∃ q, v = VFloat (FNum q) ∧ (0.05 <= q <= 0.99)%Q)
             ∨ (∃ q, v = VFloat (FNum q) ∧ (1 < q)%Q ∧ i ∈ t_out_indices run))
          ∧ ¬ (v = VStr "" ∧ occupancy_outlier v = true)
          ∧ ¬ (in_range 0.05 0.99 v ∧ occupancy_outlier v = true).
Proof.
  destruct (traffic_table_returns g) as (run & g' & Hrun & Hok).
  exists run, g'. split; [done|]. intros i row Hrow.
  destruct (run_rows_base run i row Hok Hrow) as [old Hold].
  destruct (run_index_cases run i old Hok Hold) as (Hnorm & new & Hnew & Hc).
  assert (new = row) as -> by congruence.
  split. { intros [Him Hio]. destruct Hc as [(_&?&_)|[(?&_&_)|(?&_&_)]]; done. }
  assert (Hexcl : ∀ v, ¬ (v = VStr "" ∧ occupancy_outlier v = true)
                       ∧ ¬ (in_range 0.05 0.99 v ∧ occupancy_outlier v = true)).
  { intros v. split; [by intros [-> ?]|]. intros [(q & Hq & _ & Hhi) Ho].
    unfold occupancy_outlier, above in Ho. rewrite Hq in Ho. simpl in Ho.
    apply Qltb_lt in Ho. apply (Qlt_irrefl 1).
    eapply Qlt_le_trans; [exact Ho|]. eapply Qle_trans; [exact Hhi|Qcompare]. }
  destruct Hnorm as (z & ts & speed & vol & occ & -> & Hz & Hts & Hspeed & Hocc).
  destruct Hc as [(Him & _ & [->| ->])|[(_ & Hio & [(v & Hv & ->)|(q & Hq & ->)])
                                       |(_ & _ & ->)]];
    (eexists; split; [reflexivity|]; split; [|apply Hexcl]).
  - right. left. by exists occ.
  - left. done.
  - right. left. by exists occ.
  - right. right. exists q. split; [done|]. split; [|done].
    by apply occupancy_outlier_values.
  - right. left. by exists occ.
Qed.

(** C10: on every tape the traffic table is generated; the injection leaves
    the number of rows and, in every row, the fields [zone_id], [timestamp]
    and [traffic_volume] as the nested loops produced them; a row at an
    index that is neither missing nor outlier is unchanged; a row at a
    missing or an outlier index differs from the produced one in exactly
    one of [average_speed_kmh] and [occupancy_rate]. *)
Theorem injection_frame (g : rng) :
  ∃ run g',
    traffic_table g = Ok (run, g')
    ∧ length (t_rows run) = length (t_base run)
    ∧ ∀ i old, t_base run !! i = Some old →
        ∃ new, t_rows run !! i = Some new
          ∧ length new = length old
          ∧ new !! col_zone_id = old !! col_zone_id
          ∧ new !! col_timestamp = old !! col_timestamp
          ∧ new !! col_traffic_volume = old !! col_traffic_volume
          ∧ ((i ∉ t_miss_indices run) → (i ∉ t_out_indices run) → new = old)
          ∧ (i ∈ t_miss_indices run ∨ i ∈ t_out_indices run →
             (new !! col_average_speed_kmh ≠ old !! col_average_speed_kmh
              ∧ new !! col_occupancy_rate = old !! col_occupancy_rate)
             ∨ (new !! col_average_speed_kmh = old !! col_average_speed_kmh
                ∧ new !! col_occupancy_rate ≠ old !! col_occupancy_rate)).
Proof.
  destruct (traffic_table_returns g) as (run & g' & Hrun & Hok).
  exists run, g'. split; [done|].
  split. { destruct Hok as (_ & -> & -> & _). done. }
  intros i old Hold.
  destruct (run_index_cases run i old Hok Hold) as (Hnorm & new & Hnew & Hc).
  exists new. split; [done|].
  destruct Hnorm as (z & ts & speed & vol & occ & -> & Hz & Hts & Hspeed & Hocc).
  destruct Hc as [(Him & Hio & [->| ->])|[(Him & Hio & [(v & Hv & ->)|(q & Hq & ->)])
                                         |(Him & Hio & ->)]];
    (split; [reflexivity|]); (split; [reflexivity|]); (split; [reflexivity|]);
    (split; [reflexivity|]); (split; [done|]); intros Hsel.
  - left. split; [|reflexivity]. simpl. intros [= E].
    by apply (in_range_not_blank _ _ _ Hspeed).
  - right. split; [reflexivity|]. simpl. discriminate.
  - left. split; [|reflexivity]. simpl. intros [= ->].
    by destruct (speed_outlier_values speed Hv) as (_ & _ & Hr).
  - right. split; [reflexivity|]. simpl. intros [= ->].
    destruct (occupancy_outlier_values occ Hq) as [Ho _].
    by rewrite normal_occupancy_not_outlier in Ho.
  - by destruct Hsel.
Qed.

End traffic_cells.

(** ** The planning records *)

Section planning.
Local Open Scope nat_scope.

Lemma ZONES_service_zones : Forall (λ z, is_Some (ZONE_TO_SERVICE_ZONE !! z)) ZONES.
Proof. apply (bool_decide_unpack _). vm_compute. exact I. Qed.

(** The hour of every candidate time is read back. *)
Lemma times_hours : Forall (λ t, ∃ hh, int_of_str (split_head ":" t) = Ok hh) times.
Proof.
  let l := eval vm_compute in times in change times with l.
  repeat (apply Forall_cons; split; [eexists; vm_compute; reflexivity|]).
  apply Forall_nil_2.
Qed.

(** The body of the loop returns a line on every tape. *)
Lemma wp_planning_record g (post : string → rng → Prop) :
  (∀ line g', post line g') → wp planning_record g post.
Proof.
  intros Hpost. unfold planning_record.
  apply wp_bind, wp_random_choice; [done|]. intros l g1 _.
  apply wp_bind, wp_random_choice; [done|]. intros z g2 Hz.
  pose proof ZONES_service_zones as Hs. rewrite Forall_forall in Hs.
  destruct (Hs z Hz) as [service_zone Hsz].
  apply wp_bind. eapply wp_dict_get; [exact Hsz|].
  apply wp_bind, wp_random_choice; [done|]. intros day_type g3 _.
  apply wp_bind, wp_random_choice; [done|]. intros t g4 Ht.
  pose proof times_hours as Hh. rewrite Forall_forall in Hh.
  destruct (Hh t Ht) as [hh Hhh].
  apply wp_bind. eapply wp_lift; [exact Hhh|].
  apply wp_bind.
  destruct (_ && _); (apply wp_random_choice; [done|]); intros frequency g5 _;
    apply wp_bind, wp_random_random; intros u g6 _ _; apply wp_ret, Hpost.
Qed.

Lemma planning_while_done records g :
  ¬ (length records < PLANNING_LINES) →
  planning_while records g = Ok (records, g).
Proof.
  intros Hdone. rewrite planning_while_equation_1.
  by destruct (decide (length records < PLANNING_LINES)).
Qed.

Lemma planning_while_step records g line g' :
  length records < PLANNING_LINES →
  planning_record g = Ok (line, g') →
  planning_while records g = planning_while (records ++ [line])%list g'.
Proof.
  intros Hlt Hrec. rewrite planning_while_equation_1.
  destruct (decide (length records < PLANNING_LINES)); [|done].
  simpl. rewrite Hrec. reflexivity.
Qed.

(** The loop ends on every tape, with the target number of records. *)
Lemma planning_while_returns (n : nat) records g :
  length records + n = PLANNING_LINES →
  ∃ records' g', planning_while records g = Ok (records', g')
                 ∧ length records' = PLANNING_LINES.
Proof.
  revert records g. induction n as [|n IH]; intros records g Hlen.
  - exists records, g. split; [apply planning_while_done; lia | lia].
  - destruct (proj1 (wp_returns planning_record g (λ _ _, True))) as (line & g' & Hrec & _).
    { by apply wp_planning_record. }
    rewrite (planning_while_step records g line g'); [|lia|done].
    apply IH. rewrite length_app. simpl. lia.
Qed.

(** C7: on every tape, from every position, the planning loop ends with
    exactly [PLANNING_LINES] (180) records; so whatever tape the seed
    selects, the file has 180 lines, which is also the count returned. *)
Theorem planning_line_count `{PyRandom} (outdir : string) (g : rng) :
  PLANNING_LINES = 180
  ∧ (∀ g0, ∃ records g1,
       planning_while [] g0 = Ok (records, g1) ∧ length records = PLANNING_LINES)
  ∧ ∃ file path count g',
      generate_planning_txt outdir g = Ok ((file, (path, count)), g')
      ∧ length file = PLANNING_LINES
      ∧ count = PLANNING_LINES.
Proof.
  split; [done|]. split.
  { intros g0. by apply (planning_while_returns PLANNING_LINES). }
  unfold generate_planning_txt.
  set (g0 := {| tape := seeded_tape (SEED + 2); pos := 0 |}).
  destruct (planning_while_returns PLANNING_LINES [] g0) as (records & g' & Hw & Hlen);
    [done|].
  eexists _, _, _, g'. split.
  - unfold mbind, M_bind, random_seed. fold g0. rewrite Hw. reflexivity.
  - rewrite length_fmap. done.
Qed.

End planning.

(** ** Reproducibility of the traffic table *)

Section determinism.
Context `{PyRandom} `{PyMath} `{FloatText}.

(** The generator state a run starts in is replaced by the seeded one. *)
Lemma generate_traffic_csv_seeded (outdir : string) (g1 g2 : rng) :
  generate_traffic_csv outdir g1 = generate_traffic_csv outdir g2.
Proof. reflexivity. Qed.

(** A run returns, and the rows it writes are those of the table generated
    on the seeded tape. *)
Lemma generate_traffic_csv_run (outdir : string) (g : rng) :
  ∃ run g',
    traffic_table {| tape := seeded_tape SEED; pos := 0 |} = Ok (run, g')
    ∧ traffic_run_ok run
    ∧ generate_traffic_csv outdir g
      = Ok ((write_csv (path_join outdir "traffic_data.csv") traffic_header
               (t_rows run),
             (path_join outdir "traffic_data.csv", t_total run)), g').
Proof.
  set (g0 := {| tape := seeded_tape SEED; pos := 0 |}).
  destruct (traffic_table_returns g0) as (run & g' & Hrun & Hok).
  exists run, g'. split; [done|]. split; [done|].
  unfold generate_traffic_csv, mbind, M_bind, random_seed. fold g0.
  by rewrite Hrun.
Qed.

(** C8: two runs of the traffic generator, whatever the state of the
    generator of random numbers before each, both return; they write the
    same rows, hence the same text, return the same value and leave the
    generator in the same state. *)
Theorem traffic_generation_deterministic (outdir : string) (g1 g2 : rng) :
  ∃ file1 ret1 g1' file2 ret2 g2',
    generate_traffic_csv outdir g1 = Ok ((file1, ret1), g1')
    ∧ generate_traffic_csv outdir g2 = Ok ((file2, ret2), g2')
    ∧ csv_rows file1 = csv_rows file2
    ∧ csv_text file1 = csv_text file2
    ∧ file1 = file2 ∧ ret1 = ret2 ∧ g1' = g2'.
Proof.
  destruct (generate_traffic_csv_run outdir g1) as (run1 & g1' & Hrun1 & _ & Hgen1).
  destruct (generate_traffic_csv_run outdir g2) as (run2 & g2' & Hrun2 & _ & Hgen2).
  rewrite Hrun1 in Hrun2. injection Hrun2 as <- <-.
  eexists _, _, _, _, _, _. split; [exact Hgen1|]. split; [exact Hgen2|]. done.
Qed.

End determinism.

(** ** The bus GPS points *)

Section bus.
Local Open Scope nat_scope.

Local Ltac Qcompare := unfold Qle, Qlt, Qeq; simpl; lia.

(** Every zone has a center and an area code that stands for it alone. *)
Lemma ZONES_codes :
  Forall (λ z, is_Some (zone_center !! z)
               ∧ ∃ code, ZONE_TO_AREA_CODE !! z = Some code
                         ∧ zone_of_area_code code = Some z) ZONES.
Proof.
  assert (Hc : Forall (λ z, is_Some (zone_center !! z)
                            ∧ ZONE_TO_AREA_CODE !! z ≫= zone_of_area_code = Some z)
                 ZONES)
    by (apply (bool_decide_unpack _); vm_compute; exact I).
  eapply Forall_impl; [exact Hc|]. intros z [Hcenter Hcode]. split; [done|].
  by apply bind_Some in Hcode.
Qed.

(** Every line has a path of three zones. *)
Lemma lines_paths :
  Forall (λ l, ∃ zones_path, line_zones !! l = Some zones_path
                             ∧ length zones_path = 3
                             ∧ Forall (λ z, z ∈ ZONES) zones_path) lines.
Proof.
  let l := eval vm_compute in lines in change lines with l.
  repeat (apply Forall_cons; split;
          [eexists; split; [vm_compute; reflexivity|];
           split; [reflexivity | apply (bool_decide_unpack _); vm_compute; exact I]|]).
  apply Forall_nil_2.
Qed.

Lemma py_int_clamp_int d lo hi :
  ∃ z, py_int (clamp (VInt d) (VInt lo) (VInt hi)) = Ok z.
Proof.
  unfold clamp, py_max, py_min.
  destruct (py_ltb _ (VInt hi)); destruct (py_ltb (VInt lo) _); simpl; eauto.
Qed.

(** The body of the loop over [k] returns a feature of the bus and its
    line, in a zone of the path of the line. *)
Lemma wp_bus_point bus line zones_path t0 base_delay k g
    (post : bus_feature → rng → Prop) :
  line_zones !! line = Some zones_path →
  length zones_path = 3 →
  Forall (λ z, z ∈ ZONES) zones_path →
  (∀ f g', bus_id f = bus → line_id f = line → on_line_path f → post f g') →
  wp (bus_point bus line zones_path t0 base_delay k) g post.
Proof.
  intros Hline Hlen Hzones Hpost. unfold bus_point.
  rewrite decide_False by (rewrite Hlen; lia).
  set (seg := (k / Nat.max 1 (BUS_POINTS_PER_BUS / length zones_path))
              mod length zones_path).
  assert (Hseg : seg < length zones_path) by (apply Nat.mod_upper_bound; lia).
  destruct (lookup_lt_is_Some_2 zones_path seg Hseg) as [z Hz].
  apply wp_bind. eapply wp_list_get; [exact Hz|].
  assert (Hin : z ∈ zones_path) by (by eapply list_elem_of_lookup_2).
  assert (HZ : z ∈ ZONES) by (rewrite Forall_forall in Hzones; by apply Hzones).
  pose proof ZONES_codes as Hcodes. rewrite Forall_forall in Hcodes.
  destruct (Hcodes z HZ) as ([center Hcenter] & code & Hcode & Hback).
  apply wp_bind. eapply wp_dict_get; [exact Hcenter|].
  apply wp_bind, wp_random_uniform; [Qcompare|]. intros d1 g1 _.
  apply wp_bind, wp_random_uniform; [Qcompare|]. intros d2 g2 _.
  apply wp_bind, wp_random_uniform; [Qcompare|]. intros s1 g3 _.
  apply wp_bind.
  apply (wp_mono _ _ (λ _ _, True)).
  { destruct (congested z); [by apply wp_random_uniform; [Qcompare|]|by apply wp_ret]. }
  intros speed g4 _.
  apply wp_bind.
  apply (wp_mono _ _ (λ _ _, True)).
  { destruct (congested z); by apply wp_random_randint; [lia|]. }
  intros r g5 _.
  match goal with |- context [py_int (clamp (VInt ?d) _ _)] =>
    destruct (py_int_clamp_int d 0 35) as [delay Hdelay] end.
  apply wp_bind. eapply wp_lift; [exact Hdelay|].
  apply wp_bind, wp_random_random. intros u g6 _ _.
  apply wp_bind. eapply wp_dict_get; [exact Hcode|].
  apply wp_ret, Hpost; [done..|]. exists zones_path, z. done.
Qed.

(** The body of the loop over the buses adds 120 features of the bus. *)
Lemma wp_bus_trajectory (inv : bus_feature → Prop) b features g
    (post : list bus_feature → rng → Prop) :
  b.2 ∈ lines →
  Forall inv features →
  (∀ f, bus_id f = b.1 → line_id f = b.2 → on_line_path f → inv f) →
  (∀ features' g', length features' = length features + BUS_POINTS_PER_BUS →
                   Forall inv features' → post features' g') →
  wp (bus_trajectory b features) g post.
Proof.
  intros Hb Hfs Hinv Hpost. unfold bus_trajectory.
  pose proof lines_paths as Hpaths. rewrite Forall_forall in Hpaths.
  destruct (Hpaths _ Hb) as (zones_path & Hline & Hlen & Hzones).
  apply wp_bind. eapply wp_dict_get; [exact Hline|].
  apply wp_bind, wp_random_randint; [lia|]. intros r g1 _.
  eapply wp_mono.
  - apply (wp_for _ _ (λ done fs,
             length fs = length features + length done ∧ Forall inv fs));
      [by rewrite Nat.add_0_r|].
    intros done k rest fs g2 _ [Hlen' Hfs'].
    apply wp_bind, wp_bus_point; [done..|]. intros f g3 Hbus Hl Hpath.
    apply wp_ret. rewrite !length_app, Forall_app, Forall_singleton. simpl.
    split; [lia|]. split; [done|]. by apply Hinv.
  - cbv beta. intros fs g' [Hlen' Hfs']. apply Hpost; [|done].
    by rewrite Hlen', length_seq.
Qed.

Lemma wp_bus_assignments g (post : list (string * string) → rng → Prop) :
  (∀ buses g', buses.*1 = (λ b, "BUS-" +:+ fmt_02d b) <$> seq 1 BUS_COUNT →
               Forall (λ b, b.2 ∈ lines) buses → post buses g') →
  wp bus_assignments g post.
Proof.
  intros Hpost. unfold bus_assignments. eapply wp_mono.
  - apply (wp_for _ _ (λ done buses,
             buses.*1 = (λ b, "BUS-" +:+ fmt_02d b) <$> done
             ∧ Forall (λ b, b.2 ∈ lines) buses)); [done|].
    intros done b rest buses g1 _ [Hids Hlines].
    apply wp_bind, wp_random_choice; [done|]. intros l g2 Hl.
    apply wp_ret. rewrite !fmap_app, Forall_app, Forall_singleton, Hids. done.
  - cbv beta. intros buses g' [Hids Hlines]. by apply Hpost.
Qed.

Lemma bus_ids_NoDup : NoDup ((λ b, "BUS-" +:+ fmt_02d b) <$> seq 1 BUS_COUNT).
Proof. apply (bool_decide_unpack _). vm_compute. exact I. Qed.

Lemma bus_features_ok (g : rng) :
  ∃ buses g1 features g2,
    bus_assignments g = Ok (buses, g1)
    ∧ for_ buses bus_trajectory [] g1 = Ok (features, g2)
    ∧ bus_features g = Ok (features, g2)
    ∧ NoDup buses.*1
    ∧ length features = BUS_COUNT * BUS_POINTS_PER_BUS
    ∧ Forall (λ f, (bus_id f, line_id f) ∈ buses ∧ on_line_path f) features.
Proof.
  destruct (proj1 (wp_returns bus_assignments g
              (λ buses _, buses.*1 = (λ b, "BUS-" +:+ fmt_02d b) <$> seq 1 BUS_COUNT
                          ∧ Forall (λ b, b.2 ∈ lines) buses)))
    as (buses & g1 & Hb & Hids & Hlines).
  { apply wp_bus_assignments. by intros buses g' ? ?. }
  set (ok := λ f, (bus_id f, line_id f) ∈ buses ∧ on_line_path f).
  destruct (proj1 (wp_returns (for_ buses bus_trajectory []) g1
              (λ fs _, length fs = length buses * BUS_POINTS_PER_BUS ∧ Forall ok fs)))
    as (features & g2 & Hf & Hlen & Hok).
  { eapply wp_mono.
    - apply (wp_for _ _ (λ done fs,
               length fs = length done * BUS_POINTS_PER_BUS ∧ Forall ok fs)); [done|].
      intros done b rest fs g3 Hl [Hlen Hfs].
      assert (Hin : b ∈ buses) by (rewrite Hl; set_solver).
      apply (wp_bus_trajectory ok); [|done|..].
      + rewrite Forall_forall in Hlines. by apply Hlines.
      + intros f Hbus Hline Hpath. split; [|done].
        rewrite Hbus, Hline. by destruct b.
      + intros fs' g4 Hlen' Hfs'. split; [|done].
        rewrite Hlen', Hlen, length_app. simpl. lia.
    - cbv beta. done. }
  exists buses, g1, features, g2. split; [done|]. split; [done|]. split.
  { unfold bus_features, mbind, M_bind. by rewrite Hb. }
  split; [rewrite Hids; apply bus_ids_NoDup|]. split; [|done].
  rewrite Hlen. f_equal.
  rewrite <- (length_fmap fst), Hids, length_fmap, length_seq. done.
Qed.

(** C6: on every tape, from every position, the buses are assigned a line
    each and the features are generated, 120 for each bus; every feature
    carries the identifier of a bus and the line assigned to that bus, and
    the zone its [area_code] stands for is a member of the zone list of
    that line; so it is for the features [generate_bus_geojson] dumps,
    whatever tape the seed selects. *)
Theorem area_code_on_line_path `{PyRandom} (outdir : string) (g : rng) :
  (∀ g0, ∃ buses g1 features g2,
     bus_assignments g0 = Ok (buses, g1)
     ∧ for_ buses bus_trajectory [] g1 = Ok (features, g2)
     ∧ NoDup buses.*1
     ∧ length features = BUS_COUNT * BUS_POINTS_PER_BUS
     ∧ Forall (λ f, (bus_id f, line_id f) ∈ buses ∧ on_line_path f) features)
  ∧ ∃ features path count g',
      generate_bus_geojson outdir g = Ok ((features, (path, count)), g')
      ∧ count = BUS_COUNT * BUS_POINTS_PER_BUS
      ∧ Forall on_line_path features.
Proof.
  split.
  - intros g0.
    destruct (bus_features_ok g0) as (buses & g1 & fs & g2 & Hb & Hf & _ & Hnd & Hlen & Hok).
    by exists buses, g1, fs, g2.
  - set (g0 := {| tape := seeded_tape (SEED + 1); pos := 0 |}).
    destruct (bus_features_ok g0) as (buses & g1 & fs & g2 & _ & _ & Hf & _ & Hlen & Hok).
    exists fs, (path_join outdir "bus_gps.geojson"), (length fs), g2. split.
    + unfold generate_bus_geojson, mbind, M_bind, random_seed. fold g0.
      by rewrite Hf.
    + split; [done|]. eapply Forall_impl; [exact Hok|]. by intros f [_ ?].
Qed.

End bus.

(** ** Parse failures of integer fields *)

Section mapper_overflow.
Context `{FloatText}.

(** A BUS_GPS_CLEAN row whose EVENT_TIME is not a string has no trip
    identifier: the iteration raises before any URI is built, and adds
    nothing. *)
Lemma bus_row_without_time_raises (row : BusGps.row) :
  (∀ s, BusGps.EVENT_TIME row ≠ VStr s) →
  required_uris (BusGpsRow row) = Raise AttributeError
  ∧ bus_gps_body row = Raise AttributeError.
Proof.
  intros Htime. unfold required_uris, bus_gps_body, bus_trip_id, method_replace.
  destruct (BusGps.EVENT_TIME row) as [s| | |]; [by destruct (Htime s)|done..].
Qed.

(** When the mapper returns for a PLANNING_CLEAN row, its
    [frequencyMinutes] and [isPeakSchedule] triples are there exactly when
    the parse of the field gave a value. *)
Lemma planning_fields_omitted (row : Planning.row) (c : list triple) :
  planning_body row = Ok c →
  (has_pred (term MOB "frequencyMinutes") c →
     ∃ freq, safe_int (Planning.FREQUENCY_MIN row) = Ok (Some freq))
  ∧ (has_pred (term MOB "isPeakSchedule") c →
       is_Some (safe_bool (Planning.IS_PEAK_SCHEDULE row))).
Proof.
  unfold planning_body.
  destruct (planning_uris row) as [[[s|] [l|]] [z|]];
    try (intros [= <-]; split; intros (? & ? & []%elem_of_nil)).
  destruct (safe_int (Planning.FREQUENCY_MIN row)) as [freq|e]; [|done].
  cbn [mbind result_bind mret result_ret]. intros [= <-]. split.
  - destruct freq as [freq|]; [by eauto|]. rewrite has_pred_elem.
    intros Hin. exfalso. revert Hin.
    destruct (safe_bool _); simpl; apply (bool_decide_unpack _); vm_compute; exact I.
  - destruct (safe_bool _) as [b|]; [by eauto|]. rewrite has_pred_elem.
    intros Hin. exfalso. revert Hin.
    destruct freq; simpl; apply (bool_decide_unpack _); vm_compute; exact I.
Qed.

(** C4: the handler of [safe_int] lets the [OverflowError] of
    [int(float(x))] through: for a PLANNING_CLEAN row whose FREQUENCY_MIN
    is infinite, the parse, the iteration and the whole table raise. *)
Theorem infinite_frequency_raises :
  safe_int (Planning.FREQUENCY_MIN planning_row_infinite_frequency)
    = Raise OverflowError
  ∧ planning_body planning_row_infinite_frequency = Raise OverflowError
  ∧ process_planning_clean [planning_row_infinite_frequency] = Raise OverflowError.
Proof. repeat split; vm_compute; reflexivity. Qed.

End mapper_overflow.

(** ** The helpers of the synthesizer *)

Section helpers.

Local Ltac Qltb_cases :=
  repeat match goal with
         | |- context [Qltb ?a ?b] =>
             let E := fresh "E" in
             destruct (Qltb a b) eqn:E; [apply Qltb_lt in E | apply Qltb_ge in E]
         end.

Lemma clamp_value (x lo hi : pyval) (fx : pyfloat) (l h : Q) :
  float_of_num x = Some fx →
  float_of_num lo = Some (FNum l) →
  float_of_num hi = Some (FNum h) →
  clamp x lo hi =
    match fx with
    | FNaN | FInf false => if Qltb l h then hi else lo
    | FInf true => lo
    | FNum q =>
        if Qltb q h then (if Qltb l q then x else lo)
        else (if Qltb l h then hi else lo)
    end.
Proof.
  intros Hx Hlo Hhi. unfold clamp, py_max, py_min, py_ltb. rewrite Hx, Hhi, Hlo.
  destruct fx as [|[|]|q]; simpl; rewrite ?Hx, ?Hhi, ?Hlo; simpl; try done.
  destruct (Qltb q h); rewrite ?Hx, ?Hhi; done.
Qed.

(** X1: [clamp(x, lo, hi)] on numbers, for finite bounds: the result is one
    of its three arguments; when [lo <= hi] it is a finite number between
    the bounds, [x] itself when [x] lies strictly between them, [lo] when
    [x <= lo], [hi] when [x >= hi], [hi] also when [x] is NaN or +inf, and
    [lo] when [x] is -inf; when the bounds are inverted it is [lo] whatever
    [x] is. *)
Theorem clamp_bounds (x lo hi : pyval) (fx : pyfloat) (l h : Q) :
  float_of_num x = Some fx →
  float_of_num lo = Some (FNum l) →
  float_of_num hi = Some (FNum h) →
  clamp x lo hi ∈ [x; lo; hi]
  ∧ ((l <= h)%Q →
       (∃ q, float_of_num (clamp x lo hi) = Some (FNum q) ∧ (l <= q <= h)%Q)
       ∧ (∀ q, fx = FNum q → (l < q < h)%Q → clamp x lo hi = x)
       ∧ (∀ q, fx = FNum q → (q <= l)%Q → clamp x lo hi = lo)
       ∧ (∀ q, fx = FNum q → (h <= q)%Q → (l < h)%Q → clamp x lo hi = hi)
       ∧ (fx = FNaN ∨ fx = FInf false → (l < h)%Q → clamp x lo hi = hi)
       ∧ (fx = FInf true → clamp x lo hi = lo))
  ∧ ((h < l)%Q → clamp x lo hi = lo).
Proof.
  intros Hx Hlo Hhi. rewrite (clamp_value x lo hi fx l h Hx Hlo Hhi).
  split; [|split].
  - destruct fx as [|[|]|q]; Qltb_cases; rewrite !elem_of_cons; auto.
  - intros Hlh. split; [|split; [|split; [|split; [|split]]]].
    + destruct fx as [|[|]|q]; Qltb_cases; eexists; (split; [eassumption|lra]).
    + intros q -> [H1 H2]. Qltb_cases; try done; lra.
    + intros q -> H1. Qltb_cases; try done; lra.
    + intros q -> H1 H2. Qltb_cases; try done; lra.
    + intros [-> | ->] H1; Qltb_cases; try done; lra.
    + intros ->. done.
  - intros Hlh. destruct fx as [|[|]|q]; Qltb_cases; try done; lra.
Qed.


Lemma dt_range_nil cur end_ step : end_ < cur → dt_range cur end_ step = [].
Proof.
  intros Hlt. rewrite dt_range_equation_1.
  destruct (decide (cur <= end_)); [lia|done].
Qed.

Lemma dt_range_cons cur end_ step :
  cur ≤ end_ → dt_range cur end_ step = cur :: dt_range (cur + Z.pos step) end_ step.
Proof.
  intros Hle. rewrite dt_range_equation_1.
  destruct (decide (cur <= end_)); [done|lia].
Qed.

(** The number of instants [dt_range] yields. *)
Lemma dt_range_seq (n : nat) cur end_ step :
  n = Z.to_nat ((end_ - cur) `div` Z.pos step + 1) →
  dt_range cur end_ step = (λ k : nat, cur + Z.of_nat k * Z.pos step) <$> seq 0 n.
Proof.
  revert cur. induction n as [|n IH]; intros cur Hn.
  - apply dt_range_nil. destruct (decide (end_ < cur)); [done|].
    pose proof (Z.div_pos (end_ - cur) (Z.pos step)). lia.
  - assert (Hle : cur ≤ end_).
    { destruct (decide (cur ≤ end_)); [done|].
      assert ((end_ - cur) `div` Z.pos step < 0) by (apply Z.div_lt_upper_bound; lia).
      lia. }
    rewrite dt_range_cons by done. simpl. f_equal; [lia|].
    rewrite <- fmap_S_seq, <- list_fmap_compose.
    rewrite (IH (cur + Z.pos step)).
    + apply list_fmap_ext. intros i k _. simpl. lia.
    + replace (end_ - (cur + Z.pos step)) with (end_ - cur + (-1) * Z.pos step) by lia.
      rewrite Z.div_add by lia. lia.
Qed.

(** X2: [dt_range(start, end, step)] for a positive step yields exactly the
    instants [start + k * step] for [k] below [(end - start) // step + 1]:
    all of them lie between [start] and [end]; nothing is yielded exactly
    when [end < start]; otherwise the first instant is [start] and the last
    one is less than a step before [end]. *)
Theorem dt_range_grid (start end_ : datetime) (step : positive) :
  let n := Z.to_nat ((end_ - start) `div` Z.pos step + 1) in
  dt_range start end_ step = (λ k : nat, start + Z.of_nat k * Z.pos step) <$> seq 0 n
  ∧ length (dt_range start end_ step) = n
  ∧ Forall (λ t, start ≤ t ≤ end_) (dt_range start end_ step)
  ∧ (end_ < start ↔ dt_range start end_ step = [])
  ∧ (start ≤ end_ →
       head (dt_range start end_ step) = Some start
       ∧ ∃ t, last (dt_range start end_ step) = Some t ∧ end_ - Z.pos step < t ≤ end_).
Proof.
  intros n. pose proof (dt_range_seq n start end_ step eq_refl) as Hseq.
  split; [done|]. rewrite Hseq. clear Hseq.
  assert (Hn : start ≤ end_ → Z.of_nat n = (end_ - start) `div` Z.pos step + 1).
  { intros Hle. pose proof (Z.div_pos (end_ - start) (Z.pos step)). lia. }
  assert (H0 : end_ < start → n = 0%nat).
  { intros Hlt.
    assert ((end_ - start) `div` Z.pos step < 0) by (apply Z.div_lt_upper_bound; lia).
    lia. }
  split; [by rewrite length_fmap, length_seq|]. split; [|split].
  - apply Forall_fmap, Forall_forall. intros k [_ Hk]%elem_of_seq. simpl.
    destruct (decide (start ≤ end_)) as [Hle|Hlt]; [|rewrite H0 in Hk; lia].
    pose proof (Z.mul_div_le (end_ - start) (Z.pos step)). nia.
  - split; [by intros ->%H0|]. intros Hnil.
    destruct (decide (end_ < start)); [done|].
    apply fmap_nil_inv in Hnil. apply (f_equal length) in Hnil.
    rewrite length_seq in Hnil. simpl in Hnil.
    pose proof (Hn ltac:(lia)). pose proof (Z.div_pos (end_ - start) (Z.pos step)). lia.
  - intros Hle. specialize (Hn Hle).
    pose proof (Z.div_pos (end_ - start) (Z.pos step)).
    destruct n as [|n]; [lia|]. split; [simpl; f_equal; lia|].
    rewrite seq_S, fmap_app. cbn [fmap list_fmap]. rewrite last_snoc.
    eexists. split; [done|]. simpl.
    pose proof (Z.mul_div_le (end_ - start) (Z.pos step)).
    pose proof (Z.mul_succ_div_gt (end_ - start) (Z.pos step)). nia.
Qed.

End helpers.

(** ** URIs and parsers of the mapper *)

Local Ltac each_ascii c := destruct c as [[] [] [] [] [] [] [] []].

Lemma percent_decode_cons c s :
  percent_decode (quote (String c s)) = String c (percent_decode (quote s)).
Proof. each_ascii c; reflexivity. Qed.

Lemma percent_decode_quote s : percent_decode (quote s) = s.
Proof. induction s as [|c s IH]; [done|]. by rewrite percent_decode_cons, IH. Qed.

Lemma quote_inj s1 s2 : quote s1 = quote s2 → s1 = s2.
Proof. intros E. by rewrite <- (percent_decode_quote s1), E, percent_decode_quote. Qed.

Lemma str_forall_app p s t :
  str_forall p (s +:+ t) = str_forall p s && str_forall p t.
Proof. induction s as [|c s IH]; simpl; [done|]. by rewrite IH, andb_assoc. Qed.

Lemma append_inj_l s t1 t2 : s +:+ t1 = s +:+ t2 → t1 = t2.
Proof. induction s as [|c s IH]; simpl; [done|]. intros [= E]. by apply IH. Qed.

(** Two strings cut at their first slash are cut at the same place. *)
Lemma split_at_slash b1 b2 q1 q2 :
  no_slash b1 = true → no_slash b2 = true →
  b1 +:+ "/" +:+ q1 = b2 +:+ "/" +:+ q2 → b1 = b2 ∧ q1 = q2.
Proof.
  revert b2. induction b1 as [|c b1 IH]; intros [|c2 b2]; simpl.
  - intros _ _ [= E]. by subst.
  - intros _ [Hc _]%andb_prop [= E _]. subst c2. done.
  - intros [Hc _]%andb_prop _ [= E _]. subst c. done.
  - intros [_ H1]%andb_prop [_ H2]%andb_prop [= E1 E].
    destruct (IH b2 H1 H2 E) as [E2 E3]. by subst.
Qed.

Lemma slugify_length s : String.length (slugify s) = String.length s.
Proof.
  unfold slugify, replace_char. induction s as [|c s IH]; simpl; [done|]. by rewrite IH.
Qed.

Lemma slugify_nonempty s : s ≠ "" → slugify s ≠ "".
Proof. intros Hs E. apply Hs. by destruct s. Qed.

Lemma slugify_empty s : slugify s = "" → s = "".
Proof. by destruct s. Qed.

Lemma slugify_chars s :
  str_forall (λ c, negb (bool_decide (c ∈ [" "; ":"; "."]%char))) (slugify s) = true.
Proof.
  unfold slugify, replace_char. induction s as [|c s IH]; simpl; [done|].
  rewrite IH, andb_true_r. each_ascii c; reflexivity.
Qed.

Lemma quote_cons_chars c s :
  negb (bool_decide (c ∈ [" "; ":"; "."]%char)) = true →
  ∃ q, quote (String c s) = q +:+ quote s ∧ str_forall slug_char q = true
       ∧ (1 ≤ String.length q ≤ 3)%nat.
Proof.
  intros Hc. exists (quote (String c "")).
  each_ascii c; try discriminate Hc;
    (split; [reflexivity|]); (split; [reflexivity | simpl; lia]).
Qed.

Lemma length_append s t : String.length (s +:+ t) = (String.length s + String.length t)%nat.
Proof. induction s as [|c s IH]; simpl; [done|]. by rewrite IH. Qed.

Lemma quote_chars s :
  str_forall (λ c, negb (bool_decide (c ∈ [" "; ":"; "."]%char))) s = true →
  str_forall slug_char (quote s) = true
  ∧ (String.length s ≤ String.length (quote s) ≤ 3 * String.length s)%nat.
Proof.
  induction s as [|c s IH]; [done|].
  intros [Hc Hs]%andb_prop. destruct (IH Hs) as [Hq Hlen].
  destruct (quote_cons_chars c s Hc) as (q & -> & Hqc & Hql).
  rewrite str_forall_app, Hqc, Hq, length_append. simpl. split; [done|lia].
Qed.

Section uris.
Context `{FloatText}.

Lemma to_uri_Some base v :
  isna v || eq_str v "" = false →
  to_uri base v
  = Some (URIRef (EX +:+ base +:+ "/" +:+ quote (slugify (str_of_val v)))).
Proof. intros Hv. unfold to_uri. rewrite Hv. reflexivity. Qed.

Lemma to_uri_Some_inv base v u :
  to_uri base v = Some u →
  isna v = false ∧ v ≠ VStr ""
  ∧ u = URIRef (EX +:+ base +:+ "/" +:+ quote (slugify (str_of_val v))).
Proof.
  unfold to_uri. destruct (isna v || eq_str v "") eqn:Hv; [done|].
  apply orb_false_iff in Hv as [Hna Hempty]. intros [= <-].
  split; [done|]. split; [|done]. intros ->. discriminate Hempty.
Qed.

(** X11: when [to_uri] resolves, the value is neither NA nor the empty
    string, and the URI is the data namespace, the base, a slash and a
    slug; the slug is made of letters, digits, [_], [-], [~] and [%] only
    (no space, colon, period or slash survives), it is at least as long as
    the text of the value and at most three times longer, and decoding
    its escapes gives back the text with its spaces, colons and periods
    replaced. *)
Theorem to_uri_resolved (base : string) (v : pyval) (u : node) :
  to_uri base v = Some u →
  isna v = false ∧ v ≠ VStr ""
  ∧ ∃ slug,
      u = URIRef (EX +:+ base +:+ "/" +:+ slug)
      ∧ str_forall slug_char slug = true
      ∧ (String.length (str_of_val v) ≤ String.length slug
         ≤ 3 * String.length (str_of_val v))%nat
      ∧ percent_decode slug = slugify (str_of_val v).
Proof.
  intros (Hna & Hv & ->)%to_uri_Some_inv. split; [done|]. split; [done|].
  eexists. split; [reflexivity|].
  destruct (quote_chars _ (slugify_chars (str_of_val v))) as [Hq Hlen].
  rewrite slugify_length in Hlen. split; [done|]. split; [done|].
  apply percent_decode_quote.
Qed.

(** X12: for bases without a slash, a key that is not empty and another
    key get the same URI exactly when the bases are equal and the keys
    agree once spaces are replaced by [_] and colons and periods by [-]:
    the percent-encoding itself never merges two keys, and URIs of
    different bases never coincide. *)
Theorem to_uri_same_node (base1 base2 s1 s2 : string) :
  no_slash base1 = true → no_slash base2 = true → s1 ≠ "" →
  to_uri base1 (VStr s1) = to_uri base2 (VStr s2)
  ↔ base1 = base2 ∧ slugify s1 = slugify s2.
Proof.
  intros Hb1 Hb2 Hs1. split.
  - rewrite (to_uri_Some base1 (VStr s1))
      by (simpl; by rewrite bool_decide_eq_false_2).
    intros E. symmetry in E. apply to_uri_Some_inv in E as (_ & _ & [= E]).
    apply append_inj_l, split_at_slash in E as [-> E]; [|done..].
    split; [done|]. simpl in E. by apply quote_inj in E.
  - intros [-> E]. assert (Hs2 : s2 ≠ "").
    { intros ->. by apply (slugify_nonempty s1). }
    rewrite !to_uri_Some by (simpl; by rewrite bool_decide_eq_false_2).
    simpl. by rewrite E.
Qed.

End uris.

Section nodes.
Context `{FloatText}.

Lemma uri_base_inj b1 b2 q1 q2 :
  no_slash b1 = true → no_slash b2 = true →
  URIRef (EX +:+ b1 +:+ "/" +:+ q1) = URIRef (EX +:+ b2 +:+ "/" +:+ q2) → b1 = b2.
Proof.
  intros H1 H2 [= E]. by apply append_inj_l, split_at_slash in E as [-> _].
Qed.

Local Ltac other_base E :=
  apply uri_base_inj in E; [discriminate E | reflexivity | reflexivity].

(** X13: for a BUS_GPS_CLEAN row that is not skipped the point and the
    delay event of the trip always resolve, and the trip, the vehicle, the
    route, the zone, the point and the delay event are six different
    nodes. *)
Theorem bus_nodes_distinct (row : BusGps.row) (trip_id : string)
    (trip vehicle route zone : node) :
  bus_uris row trip_id = (Some trip, Some vehicle, Some route, Some zone) →
  ∃ point event,
    to_uri "point" (VStr trip_id) = Some point
    ∧ to_uri "delay_event" (VStr trip_id) = Some event
    ∧ NoDup [trip; vehicle; route; zone; point; event].
Proof.
  unfold bus_uris. intros [= Ht Hv Hr Hz].
  assert (Hid : isna (VStr trip_id) || eq_str (VStr trip_id) "" = false).
  { apply to_uri_str_inv in Ht. simpl. by rewrite bool_decide_eq_false_2. }
  apply to_uri_Some_inv in Ht as (_ & _ & ->), Hv as (_ & _ & ->),
    Hr as (_ & _ & ->), Hz as (_ & _ & ->).
  eexists _, _. split; [by apply to_uri_Some|]. split; [by apply to_uri_Some|].
  repeat (apply NoDup_cons; split;
          [rewrite ?elem_of_cons, elem_of_nil;
           intros Hin; repeat (destruct Hin as [Hin|Hin]; [other_base Hin|]); done|]).
  apply NoDup_nil_2.
Qed.

End nodes.

Section parsers.
Context `{FloatText}.

Local Ltac settle := intuition (try discriminate; try congruence; eauto).

(** X14: [safe_float] never raises; it returns [None] exactly for NA, for
    the empty string and for a text [float] rejects, and otherwise the
    float of the value (which can be NaN or infinite when the text spells
    it). *)
Theorem safe_float_cases (x : pyval) :
  ∃ o, safe_float x = Ok o
       ∧ (o = None ↔ isna x = true ∨ x = VStr "" ∨ py_float x = Raise ValueError)
       ∧ (∀ f, o = Some f ↔ isna x = false ∧ x ≠ VStr "" ∧ py_float x = Ok f).
Proof.
  unfold safe_float, py_float.
  destruct x as [s|z|[| |q]|b]; simpl; try (eexists; split; [reflexivity|]; by settle).
  case_bool_decide as Hs; simpl.
  - subst s. eexists. split; [reflexivity|]. by settle.
  - destruct (float_of_str s) as [f|]; simpl; (eexists; split; [reflexivity|]);
      by settle.
Qed.


Lemma Qtrunc_toward_zero q :
  ((0 <= q)%Q →
     0 ≤ Qtrunc q ∧ (inject_Z (Qtrunc q) <= q)%Q ∧ (q < inject_Z (Qtrunc q) + 1)%Q)
  ∧ ((q <= 0)%Q →
       Qtrunc q ≤ 0 ∧ (q <= inject_Z (Qtrunc q))%Q ∧ (inject_Z (Qtrunc q) - 1 < q)%Q).
Proof.
  destruct q as [n d]. unfold Qtrunc, Qle, Qlt. cbn [Qnum Qden Qplus Qminus Qopp inject_Z].
  rewrite !Z.mul_1_r.
  pose proof (Z.quot_rem' n (Z.pos d)) as Hn.
  split; intros Hsign; simpl in Hsign.
  - pose proof (Z.rem_bound_pos n (Z.pos d) ltac:(lia) ltac:(lia)) as Hr.
    pose proof (Z.quot_pos n (Z.pos d) ltac:(lia) ltac:(lia)) as Hq.
    revert Hn Hr Hq. generalize (n `quot` Z.pos d), (n `rem` Z.pos d). intros q r Hn Hr Hq.
    nia.
  - pose proof (Z.rem_bound_pos_neg n (Z.pos d) ltac:(lia) ltac:(lia)) as Hr.
    revert Hn Hr. generalize (n `quot` Z.pos d), (n `rem` Z.pos d). intros q r Hn Hr.
    simpl. nia.
Qed.

(** X15: [safe_int] raises exactly when the value is not blank and its
    float is infinite, and then [OverflowError]; it returns [None] exactly
    for the empty string, for a text [float] rejects and for a NaN, NA
    included; and
    otherwise it returns the float truncated toward zero: for a float [q]
    the integer [z] has [z <= q < z + 1] when [q >= 0] and
    [z - 1 < q <= z] when [q <= 0]. *)
Theorem safe_int_cases (x : pyval) :
  (∀ e, safe_int x = Raise e
        ↔ e = OverflowError ∧ x ≠ VStr "" ∧ ∃ neg, py_float x = Ok (FInf neg))
  ∧ (safe_int x = Ok None
     ↔ x = VStr "" ∨ py_float x = Raise ValueError ∨ py_float x = Ok FNaN)
  ∧ (∀ z, safe_int x = Ok (Some z)
          ↔ x ≠ VStr "" ∧ ∃ q, py_float x = Ok (FNum q) ∧ z = Qtrunc q)
  ∧ (∀ z, safe_int x = Ok (Some z) →
          ∃ q, py_float x = Ok (FNum q)
               ∧ ((0 <= q)%Q → 0 ≤ z ∧ (inject_Z z <= q < inject_Z z + 1)%Q)
               ∧ ((q <= 0)%Q → z ≤ 0 ∧ (inject_Z z - 1 < q <= inject_Z z)%Q)).
Proof.
  assert (Hcases :
    (x = VStr "" ∧ safe_int x = Ok None)
    ∨ (x ≠ VStr ""
       ∧ ((py_float x = Raise ValueError ∧ safe_int x = Ok None)
          ∨ (py_float x = Ok FNaN ∧ safe_int x = Ok None)
          ∨ (∃ neg, py_float x = Ok (FInf neg) ∧ safe_int x = Raise OverflowError)
          ∨ (∃ q, py_float x = Ok (FNum q) ∧ safe_int x = Ok (Some (Qtrunc q)))))).
  { unfold safe_int, py_float.
    destruct x as [s|z|[|neg|q]|b]; simpl; try (right; split; [done|]; by eauto 8).
    case_bool_decide as Hs; simpl; [left; by subst|]. right.
    split; [congruence|].
    destruct (float_of_str s) as [[|neg|q]|]; simpl; by eauto 8. }
  split; [|split; [|split]].
  - intros e.
    destruct Hcases as [[-> Hi]|(Hx & [[Hf Hi]|[[Hf Hi]|[(neg & Hf & Hi)|(q & Hf & Hi)]]])];
      rewrite Hi; (split; [intros E|intros (E1 & E2 & neg' & E3)]);
      first [done | congruence | injection E as <-; by eauto].
  - destruct Hcases as [[-> Hi]|(Hx & [[Hf Hi]|[[Hf Hi]|[(neg & Hf & Hi)|(q & Hf & Hi)]]])];
      rewrite Hi; (split; [intros E|intros [E|[E|E]]]);
      first [done | congruence | by auto].
  - intros z.
    destruct Hcases as [[-> Hi]|(Hx & [[Hf Hi]|[[Hf Hi]|[(neg & Hf & Hi)|(q & Hf & Hi)]]])];
      rewrite Hi; (split; [intros E|intros (E1 & q' & E2 & E3)]);
      first [done | congruence | injection E as <-; by eauto].
  - intros z.
    destruct Hcases as [[-> Hi]|(Hx & [[Hf Hi]|[[Hf Hi]|[(neg & Hf & Hi)|(q & Hf & Hi)]]])];
      rewrite Hi; intros E; try discriminate E.
    injection E as <-. exists q. split; [done|].
    destruct (Qtrunc_toward_zero q) as [Hpos Hneg]. split; intros Hq.
    + destruct (Hpos Hq) as (? & ? & ?). done.
    + destruct (Hneg Hq) as (? & ? & ?). done.
Qed.

Lemma is_space_lower c : is_space c = true → ascii_lower c = c.
Proof. each_ascii c; intros Hc; try discriminate Hc; reflexivity. Qed.

Lemma ascii_lower_idemp c : ascii_lower (ascii_lower c) = ascii_lower c.
Proof. each_ascii c; reflexivity. Qed.

Lemma str_lower_app s t : str_lower (s +:+ t) = str_lower s +:+ str_lower t.
Proof. unfold str_lower. induction s as [|c s IH]; simpl; [done|]. by rewrite IH. Qed.

Lemma str_lower_idemp s : str_lower (str_lower s) = str_lower s.
Proof.
  unfold str_lower. induction s as [|c s IH]; simpl; [done|].
  by rewrite ascii_lower_idemp, IH.
Qed.

Lemma str_lower_spaces ws : str_forall is_space ws = true → str_lower ws = ws.
Proof.
  unfold str_lower. induction ws as [|c ws IH]; simpl; [done|].
  intros [Hc Hws]%andb_prop. by rewrite is_space_lower, IH.
Qed.

Lemma rstrip_all_spaces ws : str_forall is_space ws = true → rstrip ws = "".
Proof.
  induction ws as [|c ws IH]; simpl; [done|].
  intros [Hc Hws]%andb_prop. by rewrite IH, Hc.
Qed.

Lemma rstrip_spaces t ws : str_forall is_space ws = true → rstrip (t +:+ ws) = rstrip t.
Proof.
  intros Hws. induction t as [|c t IH]; simpl; [by apply rstrip_all_spaces|].
  by rewrite IH.
Qed.

Lemma lstrip_spaces ws t : str_forall is_space ws = true → lstrip (ws +:+ t) = lstrip t.
Proof.
  induction ws as [|c ws IH]; simpl; [done|].
  intros [Hc Hws]%andb_prop. rewrite Hc. by apply IH.
Qed.

Lemma lstrip_all_spaces ws : str_forall is_space ws = true → lstrip ws = "".
Proof.
  induction ws as [|c ws IH]; simpl; [done|].
  intros [Hc Hws]%andb_prop. rewrite Hc. by apply IH.
Qed.

Lemma strip_right_spaces t ws :
  str_forall is_space ws = true → rstrip (lstrip (t +:+ ws)) = rstrip (lstrip t).
Proof.
  intros Hws. induction t as [|c t IH]; simpl.
  - by rewrite lstrip_all_spaces.
  - destruct (is_space c); [done|].
    change (String c (t +:+ ws)) with (String c t +:+ ws). by apply rstrip_spaces.
Qed.

Lemma str_strip_spaces pre s post :
  str_forall is_space pre = true → str_forall is_space post = true →
  str_strip (pre +:+ s +:+ post) = str_strip s.
Proof.
  intros Hpre Hpost. unfold str_strip.
  by rewrite lstrip_spaces, strip_right_spaces.
Qed.

(** X16: [safe_bool] of a text ignores surrounding ASCII white space and
    the case of ASCII letters, and always returns a boolean for a text:
    an unrecognised word is [False], not [None]. *)
Theorem safe_bool_insensitive (pre s post : string) :
  str_forall is_space pre = true → str_forall is_space post = true →
  safe_bool (VStr (pre +:+ s +:+ post)) = safe_bool (VStr s)
  ∧ safe_bool (VStr (str_lower s)) = safe_bool (VStr s)
  ∧ is_Some (safe_bool (VStr s)).
Proof.
  intros Hpre Hpost. unfold safe_bool. simpl. split; [|split; [|by eauto]].
  - rewrite !str_lower_app, (str_lower_spaces pre), (str_lower_spaces post) by done.
    by rewrite str_strip_spaces.
  - by rewrite str_lower_idemp.
Qed.

End parsers.

(** ** The tables of the mapper *)

Lemma iterrows_init {R} (body : R → result (list triple)) df g :
  iterrows body df g = (g' ← iterrows body df []; mret (g ++ g')%list).
Proof.
  revert g. induction df as [|r df IH]; intros g; simpl.
  - by rewrite app_nil_r.
  - destruct (body r) as [c|e]; simpl; [|done].
    rewrite (IH (g ++ c)%list), (IH c).
    destruct (iterrows body df []) as [g'|e]; simpl; [|done].
    by rewrite app_assoc.
Qed.

Lemma iterrows_Ok {R} (body : R → result (list triple)) df g :
  (∃ g', iterrows body df g = Ok g') ↔ Forall (λ r, ∃ c, body r = Ok c) df.
Proof.
  split.
  - intros [g' Hg]. apply Forall_forall. intros row Hin. by eapply iterrows_rows_ok.
  - revert g. induction df as [|r df IH]; intros g Hall; simpl; [by eauto|].
    apply Forall_cons in Hall as [[c ->] Hall]. simpl. by apply IH.
Qed.

Lemma iterrows_Raise {R} (body : R → result (list triple)) df g e :
  iterrows body df g = Raise e ↔
  ∃ pre row post, df = (pre ++ row :: post)%list ∧ body row = Raise e
                  ∧ Forall (λ r, ∃ c, body r = Ok c) pre.
Proof.
  revert g. induction df as [|r df IH]; intros g; simpl.
  - split; [done|]. intros (pre & row & post & E & _). by destruct pre.
  - destruct (body r) as [c|e'] eqn:Hr; simpl.
    + rewrite IH. split.
      * intros (pre & row & post & -> & Hrow & Hpre).
        exists (r :: pre), row, post. split; [done|]. split; [done|].
        apply Forall_cons. eauto.
      * intros ([|r' pre] & row & post & E & Hrow & Hpre); injection E as <- ->.
        { congruence. }
        apply Forall_cons in Hpre as [_ Hpre]. by exists pre, row, post.
    + split.
      * intros [= <-]. by exists [], r, df.
      * intros ([|r' pre] & row & post & E & Hrow & Hpre); injection E as <- ->.
        { congruence. }
        apply Forall_cons in Hpre as [[c Hc] _]. congruence.
Qed.

Lemma iterrows_same_rows {R} (body : R → result (list triple)) df df' :
  (∀ row, row ∈ df ↔ row ∈ df') →
  same_outcome (iterrows body df init_graph) (iterrows body df' init_graph).
Proof.
  intros Hrows. unfold same_outcome.
  destruct (iterrows body df init_graph) as [g|e] eqn:Hg;
    destruct (iterrows body df' init_graph) as [g'|e'] eqn:Hg'; [|..|done].
  - intros t. rewrite (iterrows_elem _ _ _ _ t Hg), (iterrows_elem _ _ _ _ t Hg').
    by setoid_rewrite Hrows.
  - apply iterrows_Raise in Hg' as (pre & row & post & -> & Hrow & _).
    assert (Hin : row ∈ df).
    { apply Hrows, elem_of_app. right. apply elem_of_cons. by left. }
    destruct (iterrows_rows_ok _ _ _ _ _ Hg Hin). congruence.
  - apply iterrows_Raise in Hg as (pre & row & post & -> & Hrow & _).
    assert (Hin : row ∈ df').
    { apply Hrows, elem_of_app. right. apply elem_of_cons. by left. }
    destruct (iterrows_rows_ok _ _ _ _ _ Hg' Hin). congruence.
Qed.

Lemma iterrows_concat {R} (body : R → result (list triple)) df1 df2 :
  iterrows body (df1 ++ df2) init_graph
  = (g1 ← iterrows body df1 init_graph;
     g2 ← iterrows body df2 init_graph;
     mret (g1 ++ g2)%list).
Proof.
  rewrite iterrows_app. destruct (iterrows body df1 init_graph) as [g1|e]; simpl; [|done].
  apply iterrows_init.
Qed.

Section tables.
Context `{FloatText}.

(** X19: the graph of a table depends on the set of its rows only: two
    tables with the same rows, in any order and with any repetitions,
    both raise or give graphs with the same triples. *)
Theorem graph_of_row_set :
  (∀ df df', (∀ row, row ∈ df ↔ row ∈ df') →
     same_outcome (process_zone_mapping df) (process_zone_mapping df'))
  ∧ (∀ df df', (∀ row, row ∈ df ↔ row ∈ df') →
       same_outcome (process_planning_clean df) (process_planning_clean df'))
  ∧ (∀ df df', (∀ row, row ∈ df ↔ row ∈ df') →
       same_outcome (process_traffic_clean df) (process_traffic_clean df'))
  ∧ (∀ df df', (∀ row, row ∈ df ↔ row ∈ df') →
       same_outcome (process_bus_gps_clean df) (process_bus_gps_clean df'))
  ∧ (∀ df df', (∀ row, row ∈ df ↔ row ∈ df') →
       same_outcome (process_bus_performance_hourly df)
         (process_bus_performance_hourly df')).
Proof. repeat split; intros df df'; apply iterrows_same_rows. Qed.

(** X20: mapping two tables one after the other is mapping their
    concatenation: the triples are those of the first table followed by
    those of the second, and the concatenation raises as soon as one of
    them does. *)
Theorem graph_of_concatenation :
  (∀ df1 df2, process_zone_mapping (df1 ++ df2)
     = (g1 ← process_zone_mapping df1; g2 ← process_zone_mapping df2;
        mret (g1 ++ g2)%list))
  ∧ (∀ df1 df2, process_planning_clean (df1 ++ df2)
       = (g1 ← process_planning_clean df1; g2 ← process_planning_clean df2;
          mret (g1 ++ g2)%list))
  ∧ (∀ df1 df2, process_traffic_clean (df1 ++ df2)
       = (g1 ← process_traffic_clean df1; g2 ← process_traffic_clean df2;
          mret (g1 ++ g2)%list))
  ∧ (∀ df1 df2, process_bus_gps_clean (df1 ++ df2)
       = (g1 ← process_bus_gps_clean df1; g2 ← process_bus_gps_clean df2;
          mret (g1 ++ g2)%list))
  ∧ (∀ df1 df2, process_bus_performance_hourly (df1 ++ df2)
       = (g1 ← process_bus_performance_hourly df1;
          g2 ← process_bus_performance_hourly df2;
          mret (g1 ++ g2)%list)).
Proof. repeat split; intros df1 df2; apply iterrows_concat. Qed.


Lemma safe_int_raises x e : safe_int x = Raise e ↔ e = OverflowError ∧ overflows x.
Proof.
  unfold overflows. unfold safe_int, py_float.
  destruct x as [s|z|[|neg|q]|b]; simpl;
    try (split; [done | by intros (_ & _ & ? & ?)]).
  - case_bool_decide as Hs; simpl.
    + subst s. split; [done | by intros (_ & ? & _)].
    + destruct (float_of_str s) as [[|neg|q]|]; simpl;
        try (split; [done | by intros (_ & _ & ? & ?)]).
      split; [intros [= <-]; split; [done|]; split; [congruence | by eauto]|].
      by intros [-> _].
  - split; [intros [= <-]; split; [done|]; split; [done | by eauto]|].
    by intros [-> _].
Qed.

(** A row one of whose URIs is [None] is skipped. *)
Local Ltac skipped Hu :=
  let Hreq := fresh in let Hnone := fresh in
  split; [done|];
  intros [(_ & ? & ? & _)|(_ & (? & Hreq & Hnone) & _)]; [done|];
  unfold required_uris in Hreq; rewrite Hu in Hreq; injection Hreq as <-;
  destruct Hnone; rewrite !elem_of_cons; tauto.

Local Ltac all_some :=
  rewrite !elem_of_cons, elem_of_nil; intros Hin;
  repeat (destruct Hin as [Hin|Hin]; [discriminate Hin|]); done.

Lemma row_triples_Raise (r : mapper_row) (e : exn) :
  row_triples r = Raise e ↔
    (e = AttributeError
     ∧ ∃ row, r = BusGpsRow row ∧ ∀ s, BusGps.EVENT_TIME row ≠ VStr s)
    ∨ (e = OverflowError ∧ resolves r ∧ ∃ x, int_field r = Some x ∧ overflows x).
Proof.
  assert (Hint : ∀ (x : pyval) (k : option Z → list triple) (r' : mapper_row) uris,
            required_uris r' = Ok uris → None ∉ uris → int_field r' = Some x →
            (∀ row, r' ≠ BusGpsRow row) →
            (safe_int x ≫= λ v, mret (k v)) = Raise e
            ↔ (e = AttributeError
               ∧ ∃ row, r' = BusGpsRow row ∧ ∀ s, BusGps.EVENT_TIME row ≠ VStr s)
              ∨ (e = OverflowError ∧ resolves r'
                 ∧ ∃ x, int_field r' = Some x ∧ overflows x)).
  { intros x k r' uris Hu Hnone Hx Hbus. split.
    - destruct (safe_int x) as [v|e'] eqn:Hv; [done|]. simpl. intros [= ->].
      apply safe_int_raises in Hv as [-> Hv]. right. split; [done|].
      split; [by exists uris|]. by exists x.
    - intros [(_ & row & -> & _)|(-> & _ & x' & Hx' & Hover)]; [by destruct (Hbus row)|].
      assert (x' = x) as -> by congruence.
      by rewrite (proj2 (safe_int_raises x OverflowError)). }
  destruct r as [row|row|row|row|row]; unfold row_triples.
  - unfold zone_mapping_body. destruct (to_uri "zone" _); simpl.
    + split; [done|]. by intros [(_ & ? & ? & _)|(_ & _ & ? & ? & _)].
    + split; [done|]. by intros [(_ & ? & ? & _)|(_ & _ & ? & ? & _)].
  - unfold planning_body. destruct (planning_uris row) as [[[s|] [l|]] [z|]] eqn:Hu;
      try skipped Hu.
    apply (Hint _ (λ freq, _) (PlanningRow row) [Some s; Some l; Some z]);
      [unfold required_uris; by rewrite Hu | all_some | done | done].
  - unfold traffic_body. destruct (traffic_uris row) as [[o|] [z|]] eqn:Hu;
      try skipped Hu.
    destruct (safe_float_total (Traffic.AVERAGE_SPEED_KMH row)) as [speed ->].
    cbn [mbind result_bind].
    destruct (safe_float_total (Traffic.OCCUPANCY_RATE row)) as [occ Hocc].
    etransitivity;
      [|apply (Hint (Traffic.TRAFFIC_VOLUME row) (λ vol, []) (TrafficRow row) [Some o; Some z]);
        [unfold required_uris; by rewrite Hu | all_some | done | done]].
    destruct (safe_int (Traffic.TRAFFIC_VOLUME row)) as [vol|e']; simpl; [|done].
    rewrite Hocc. simpl. done.
  - unfold bus_gps_body, bus_trip_id, method_replace.
    destruct (BusGps.EVENT_TIME row) as [t| | |] eqn:Ht; simpl;
      try (split; [intros [= <-]; left; split; [done|]; exists row;
                   split; [done|]; intros s; by rewrite Ht
                  | intros [[-> _]|(_ & _ & ? & ? & _)]; done]).
    split; [|intros [(_ & row' & [= <-] & Hs)|(_ & _ & ? & ? & _)];
             [by destruct (Hs t) | done]].
    destruct (to_uri "trip" _) as [trip|]; [|done].
    destruct (to_uri "vehicle" _) as [v|]; [|done].
    destruct (to_uri "route" _) as [l|]; [|done].
    destruct (to_uri "zone" _) as [z|]; [|done].
    match goal with |- context [bus_trip_triples row ?ids trip v l z] =>
      destruct (bus_trip_triples_total row ids trip v l z) as [g ->] end.
    destruct (safe_float_total (BusGps.DELAY_MINUTES row)) as [d ->]. done.
  - unfold bus_perf_body. destruct (bus_perf_uris row) as [[[s|] [l|]] [z|]] eqn:Hu;
      try skipped Hu.
    destruct (safe_float_total (BusPerf.AVG_DELAY_MINUTES row)) as [d1 H1].
    destruct (safe_float_total (BusPerf.MAX_DELAY_MINUTES row)) as [d2 H2].
    destruct (safe_float_total (BusPerf.AVG_SPEED_KMH row)) as [d3 H3].
    destruct (safe_float_total (BusPerf.DELAY_RATE_PCT row)) as [d4 H4].
    etransitivity;
      [|apply (Hint (BusPerf.EVENT_HOUR row) (λ hour, []) (BusPerfRow row)
                [Some s; Some l; Some z]);
        [unfold required_uris; by rewrite Hu | all_some | done | done]].
    destruct (safe_int (BusPerf.EVENT_HOUR row)) as [hour|e']; simpl; [|done].
    rewrite H1. simpl. rewrite H2. simpl. rewrite H3. simpl. rewrite H4. simpl. done.
Qed.


Lemma row_triples_Ok (r : mapper_row) :
  (∃ c, row_triples r = Ok c)
  ↔ ¬ ((∃ row, r = BusGpsRow row ∧ ∀ s, BusGps.EVENT_TIME row ≠ VStr s)
       ∨ (resolves r ∧ ∃ x, int_field r = Some x ∧ overflows x)).
Proof.
  split.
  - intros [c Hc] [Hbus|Hint].
    + pose proof (proj2 (row_triples_Raise r AttributeError)) as Hr.
      rewrite Hr in Hc; [done | by left].
    + pose proof (proj2 (row_triples_Raise r OverflowError)) as Hr.
      rewrite Hr in Hc; [done | by right].
  - intros Hnot. destruct (row_triples r) as [c|e] eqn:Hr; [by eauto|].
    apply row_triples_Raise in Hr as [[_ Hbus]|[_ Hint]]; destruct Hnot; auto.
Qed.

(** C1: a BUS_GPS_CLEAN row whose EVENT_TIME is blank (any value that is
    not a string) is not skipped. [row["EVENT_TIME"].replace] raises
    [AttributeError] before any of the four URIs is built and before the
    test that leads to [continue]: the iteration of the row raises, and so
    does [process_bus_gps_clean] on every table that holds such a row,
    whatever its other rows, so that no graph is returned. *)
Theorem blank_event_time_aborts_table (df : list BusGps.row) (row : BusGps.row) :
  row ∈ df → (∀ s, BusGps.EVENT_TIME row ≠ VStr s) →
  required_uris (BusGpsRow row) = Raise AttributeError
  ∧ row_triples (BusGpsRow row) = Raise AttributeError
  ∧ process_bus_gps_clean df = Raise AttributeError.
Proof.
  intros Hin Htime.
  destruct (bus_row_without_time_raises row Htime) as [Huris Hbody].
  split; [done|]. split; [done|]. unfold process_bus_gps_clean.
  destruct (iterrows bus_gps_body df init_graph) as [g|e] eqn:Hg.
  - destruct (iterrows_rows_ok _ _ _ _ _ Hg Hin) as [c Hc]. congruence.
  - apply iterrows_Raise in Hg as (pre & row' & post & _ & Hrow' & _).
    apply (row_triples_Raise (BusGpsRow row') e) in Hrow'
      as [[-> _]|(_ & _ & x & Hx & _)]; [done | discriminate Hx].
Qed.

(** X17: the only exceptions of the mapper. An iteration raises
    [AttributeError] exactly for a BUS_GPS_CLEAN row whose EVENT_TIME is
    not a string, and [OverflowError] exactly for a row that is not
    skipped and whose integer field (FREQUENCY_MIN, TRAFFIC_VOLUME,
    EVENT_HOUR) is infinite; so [process_zone_mapping] always returns a
    graph, [process_bus_gps_clean] returns one exactly when every
    EVENT_TIME is a string, and the three other tables exactly when no
    row that is not skipped has an infinite integer field. *)
Theorem mapper_exceptions :
  (∀ r e, row_triples r = Raise e ↔
     (e = AttributeError
      ∧ ∃ row, r = BusGpsRow row ∧ ∀ s, BusGps.EVENT_TIME row ≠ VStr s)
     ∨ (e = OverflowError ∧ resolves r ∧ ∃ x, int_field r = Some x ∧ overflows x))
  ∧ (∀ df, ∃ g, process_zone_mapping df = Ok g)
  ∧ (∀ df, (∃ g, process_bus_gps_clean df = Ok g)
           ↔ Forall (λ row, ∃ s, BusGps.EVENT_TIME row = VStr s) df)
  ∧ (∀ df, (∃ g, process_planning_clean df = Ok g)
           ↔ Forall (λ row, ¬ (resolves (PlanningRow row)
                               ∧ overflows (Planning.FREQUENCY_MIN row))) df)
  ∧ (∀ df, (∃ g, process_traffic_clean df = Ok g)
           ↔ Forall (λ row, ¬ (resolves (TrafficRow row)
                               ∧ overflows (Traffic.TRAFFIC_VOLUME row))) df)
  ∧ (∀ df, (∃ g, process_bus_performance_hourly df = Ok g)
           ↔ Forall (λ row, ¬ (resolves (BusPerfRow row)
                               ∧ overflows (BusPerf.EVENT_HOUR row))) df)
  ∧ (∀ df e, process_bus_gps_clean df = Raise e → e = AttributeError)
  ∧ (∀ df e, process_planning_clean df = Raise e → e = OverflowError)
  ∧ (∀ df e, process_traffic_clean df = Raise e → e = OverflowError)
  ∧ (∀ df e, process_bus_performance_hourly df = Raise e → e = OverflowError).
Proof.
  split; [exact row_triples_Raise|].
  split.
  { intros df. apply iterrows_Ok, Forall_forall. intros row _.
    apply (row_triples_Ok (ZoneMappingRow row)).
    by intros [(? & ? & _)|(_ & ? & ? & _)]. }
  split.
  { intros df. unfold process_bus_gps_clean. rewrite iterrows_Ok.
    apply Forall_iff. intros row. rewrite (row_triples_Ok (BusGpsRow row)). split.
    - intros Hnot. destruct (BusGps.EVENT_TIME row) as [s| | |] eqn:Ht; [by eauto|..];
        destruct Hnot; left; exists row; (split; [done|]); intros s; by rewrite Ht.
    - intros [s Hs] [(row' & [= <-] & Hne)|(_ & ? & ? & _)]; [|done]. by destruct (Hne s). }
  split.
  { intros df. unfold process_planning_clean. rewrite iterrows_Ok.
    apply Forall_iff. intros row. rewrite (row_triples_Ok (PlanningRow row)). split.
    - intros Hnot [Hres Hover]. apply Hnot. right. split; [done|]. by eexists.
    - intros Hnot [(? & ? & _)|(Hres & x & [= <-] & Hover)]; [done|]. by apply Hnot. }
  split.
  { intros df. unfold process_traffic_clean. rewrite iterrows_Ok.
    apply Forall_iff. intros row. rewrite (row_triples_Ok (TrafficRow row)). split.
    - intros Hnot [Hres Hover]. apply Hnot. right. split; [done|]. by eexists.
    - intros Hnot [(? & ? & _)|(Hres & x & [= <-] & Hover)]; [done|]. by apply Hnot. }
  split.
  { intros df. unfold process_bus_performance_hourly. rewrite iterrows_Ok.
    apply Forall_iff. intros row. rewrite (row_triples_Ok (BusPerfRow row)). split.
    - intros Hnot [Hres Hover]. apply Hnot. right. split; [done|]. by eexists.
    - intros Hnot [(? & ? & _)|(Hres & x & [= <-] & Hover)]; [done|]. by apply Hnot. }
  split.
  { intros df e (pre & row & post & _ & Hrow & _)%iterrows_Raise.
    apply (row_triples_Raise (BusGpsRow row)) in Hrow as [[-> _]|(_ & _ & ? & ? & _)];
      done. }
  repeat split; intros df e (pre & row & post & _ & Hrow & _)%iterrows_Raise.
  - by apply (row_triples_Raise (PlanningRow row)) in Hrow as [(_ & ? & ? & _)|[-> _]].
  - by apply (row_triples_Raise (TrafficRow row)) in Hrow as [(_ & ? & ? & _)|[-> _]].
  - by apply (row_triples_Raise (BusPerfRow row)) in Hrow as [(_ & ? & ? & _)|[-> _]].
Qed.

Local Ltac by_evaluation := simpl; apply (bool_decide_unpack _); vm_compute; exact I.

Local Ltac wf_triple :=
  split;
  [eexists; reflexivity
  |first [left; eexists; reflexivity | right; by_evaluation]].

Local Ltac wf_list :=
  repeat first [ apply Forall_nil_2
               | apply Forall_cons; split; [wf_triple|]
               | apply Forall_app; split
               | match goal with
                 | |- Forall _ (add_if ?v _) => destruct v; simpl
                 | |- Forall _ (if ?b then _ else _) => destruct b
                 | |- Forall _ (match ?o with Some _ => _ | None => _ end) => destruct o
                 end ].

Local Ltac expose_uri Hu := apply to_uri_Some_inv in Hu as (_ & _ & ->).

(** X18: every triple the mapper adds for a row of any table has a subject
    in the data namespace and a predicate that is a term of the ontology,
    [rdf:type], [rdfs:label] or [geo:asWKT]: no literal is ever a subject
    or a predicate. *)
Theorem row_triples_wellformed (r : mapper_row) (c : list triple) :
  row_triples r = Ok c →
  Forall (λ t : triple,
            in_namespace EX t.1.1
            ∧ (in_namespace MOB t.1.2
               ∨ t.1.2 ∈ [RDF_type; term RDFS "label"; term GEO_NS "asWKT"])) c.
Proof.
  destruct r as [row|row|row|row|row]; unfold row_triples.
  - unfold zone_mapping_body. destruct (to_uri "zone" _) as [z|] eqn:Hz;
      intros [= <-]; [|wf_list]. expose_uri Hz. wf_list.
  - unfold planning_body, planning_uris.
    destruct (to_uri "schedule" _) as [s|] eqn:Hs; [|intros [= <-]; wf_list].
    destruct (to_uri "route" _) as [l|] eqn:Hl; [|intros [= <-]; wf_list].
    destruct (to_uri "zone" _) as [z|] eqn:Hz; [|intros [= <-]; wf_list].
    destruct (safe_int _) as [freq|]; [|done]. intros [= <-].
    expose_uri Hs. wf_list.
  - unfold traffic_body, traffic_uris.
    destruct (to_uri "traffic_obs" _) as [o|] eqn:Ho; [|intros [= <-]; wf_list].
    destruct (to_uri "zone" _) as [z|] eqn:Hz; [|intros [= <-]; wf_list].
    destruct (safe_float (Traffic.AVERAGE_SPEED_KMH row)) as [speed|]; [|done].
    destruct (safe_int _) as [vol|]; [|done].
    destruct (safe_float (Traffic.OCCUPANCY_RATE row)) as [occ|]; [|done].
    intros [= <-]. expose_uri Ho.
    wf_list.
  - unfold bus_gps_body. destruct (bus_trip_id row) as [ids|]; [|done].
    cbn [mbind result_bind]. unfold bus_uris.
    destruct (to_uri "trip" _) as [t|] eqn:Ht; [|intros [= <-]; wf_list].
    destruct (to_uri "vehicle" _) as [v|] eqn:Hv; [|intros [= <-]; wf_list].
    destruct (to_uri "route" _) as [l|] eqn:Hl; [|intros [= <-]; wf_list].
    destruct (to_uri "zone" _) as [z|] eqn:Hz; [|intros [= <-]; wf_list].
    unfold bus_trip_triples.
    destruct (safe_float (BusGps.LATITUDE row)) as [lat|]; [|done].
    destruct (safe_float (BusGps.LONGITUDE row)) as [lon|]; [|done].
    destruct (safe_float (BusGps.SPEED_KMH row)) as [speed|]; [|done].
    cbn [mbind result_bind mret result_ret].
    destruct (safe_float (BusGps.DELAY_MINUTES row)) as [delay|]; [|done].
    intros [= <-]. pose proof Ht as Hid%to_uri_str_inv.
    expose_uri Ht. expose_uri Hv.
    unfold bus_location_triples, bus_delay_triples, delay_event_triples.
    rewrite !(to_uri_Some _ (VStr ids.2)) by (simpl; by rewrite bool_decide_eq_false_2).
    wf_list.
  - unfold bus_perf_body, bus_perf_uris.
    destruct (to_uri "performance" _) as [p|] eqn:Hp; [|intros [= <-]; wf_list].
    destruct (to_uri "route" _) as [l|] eqn:Hl; [|intros [= <-]; wf_list].
    destruct (to_uri "zone" _) as [z|] eqn:Hz; [|intros [= <-]; wf_list].
    destruct (safe_int _) as [hour|]; [|done].
    destruct (safe_float (BusPerf.AVG_DELAY_MINUTES row)) as [d1|]; [|done].
    destruct (safe_float (BusPerf.MAX_DELAY_MINUTES row)) as [d2|]; [|done].
    destruct (safe_float (BusPerf.AVG_SPEED_KMH row)) as [d3|]; [|done].
    destruct (safe_float (BusPerf.DELAY_RATE_PCT row)) as [d4|]; [|done].
    intros [= <-]. expose_uri Hp. wf_list.
Qed.

End tables.

(** ** The predicates of a row *)

Section predicates.
Context `{FloatText}.

Local Ltac by_evaluation := simpl; apply (bool_decide_unpack _); vm_compute; exact I.

(** A triple equation between two triples whose predicates differ. *)
Local Ltac other_predicate E :=
  exfalso; apply (f_equal (λ t : triple, t.1.2)) in E; revert E; by_evaluation.

(** The cases of a membership in the triples of an iteration. *)
Local Ltac pieces Hin tac :=
  lazymatch type of Hin with
  | _ ∈ (_ ++ _)%list => apply elem_of_app in Hin as [Hin|Hin]; pieces Hin tac
  | _ ∈ add_if ?v _ => destruct v; simpl in Hin; pieces Hin tac
  | _ ∈ (if ?b then _ else _) => destruct b eqn:?; pieces Hin tac
  | _ ∈ match ?o with Some _ => _ | None => _ end => destruct o eqn:?; pieces Hin tac
  | _ ∈ (_ :: _) => apply elem_of_cons in Hin as [Hin|Hin]; [tac Hin | pieces Hin tac]
  | _ ∈ [] => by apply elem_of_nil in Hin
  end.

Local Ltac find_elem :=
  solve [ apply elem_of_cons; left; reflexivity
        | apply elem_of_cons; right; find_elem
        | apply elem_of_app; left; find_elem
        | apply elem_of_app; right; find_elem ].

Local Ltac other_object E :=
  exfalso; apply (f_equal (λ t : triple, t.2)) in E; revert E; by_evaluation.

Local Ltac other E := first [other_predicate E | other_object E].

Local Ltac subjects :=
  repeat first [ apply Forall_nil_2 | apply Forall_cons; split; [done|]
               | apply Forall_app; split
               | match goal with
                 | |- Forall _ (add_if ?v _) => destruct v; simpl
                 | |- Forall _ (if ?b then _ else _) => destruct b
                 end ].

(** X21: the triples of a TRAFFIC_CLEAN row that is not skipped all have
    the observation as subject; the type, the zone and the instant are
    always there; [averageSpeed], [trafficVolume] and [occupancyRate] are
    there exactly when the field parses, with the parsed value;
    [speedUnit] exactly with [averageSpeed]; [congestionLevel] exactly
    when the field is not blank; [isCongested] exactly when the field is
    not NA. *)
Theorem traffic_predicates (row : Traffic.row) (obs zone : node) (c : list triple) :
  traffic_uris row = (Some obs, Some zone) →
  traffic_body row = Ok c →
  Forall (λ t : triple, t.1.1 = obs) c
  ∧ (obs, RDF_type, term MOB "TrafficObservation") ∈ c
  ∧ (obs, term MOB "observedInZone", zone) ∈ c
  ∧ (obs, term MOB "observedAt",
      Literal (Traffic.TIMESTAMP row) (datatype XSD "dateTime")) ∈ c
  ∧ (∀ o, (obs, term MOB "averageSpeed", o) ∈ c
          ↔ ∃ v, safe_float (Traffic.AVERAGE_SPEED_KMH row) = Ok (Some v)
                 ∧ o = Literal (VFloat v) (datatype XSD "float"))
  ∧ ((obs, term MOB "speedUnit", term UNIT "KiloM-PER-HR") ∈ c
     ↔ has_pred (term MOB "averageSpeed") c)
  ∧ (∀ o, (obs, term MOB "trafficVolume", o) ∈ c
          ↔ ∃ n, safe_int (Traffic.TRAFFIC_VOLUME row) = Ok (Some n)
                 ∧ o = Literal (VInt n) (datatype XSD "integer"))
  ∧ (∀ o, (obs, term MOB "occupancyRate", o) ∈ c
          ↔ ∃ v, safe_float (Traffic.OCCUPANCY_RATE row) = Ok (Some v)
                 ∧ o = Literal (VFloat v) (datatype XSD "float"))
  ∧ (∀ o, (obs, term MOB "congestionLevel", o) ∈ c
          ↔ present (Traffic.CONGESTION_LEVEL row) = true
            ∧ o = term_of_cell MOB (Traffic.CONGESTION_LEVEL row))
  ∧ (∀ o, (obs, term MOB "isCongested", o) ∈ c
          ↔ ∃ b, safe_bool (Traffic.IS_CONGESTED row) = Some b
                 ∧ o = Literal (VBool b) (datatype XSD "boolean")).
Proof.
  intros Hu. unfold traffic_body. rewrite Hu.
  destruct (safe_float (Traffic.AVERAGE_SPEED_KMH row)) as [speed|]; [|done].
  destruct (safe_int _) as [vol|]; [|done].
  destruct (safe_float (Traffic.OCCUPANCY_RATE row)) as [occ|]; [|done].
  cbn [mbind result_bind mret result_ret]. intros [= <-].
  split.
  { repeat first [ apply Forall_nil_2 | apply Forall_cons; split; [done|]
                 | apply Forall_app; split
                 | match goal with
                   | |- Forall _ (add_if ?v _) => destruct v; simpl
                   | |- Forall _ (if ?b then _ else _) => destruct b
                   end ]. }
  split. { destruct (present _); find_elem. }
  split. { destruct (present _); find_elem. }
  split. { destruct (present _); find_elem. }
  split; [intros o; split|].
  { intros Hin.
    pieces Hin ltac:(fun E => first [other_predicate E | injection E as ->; by eauto]). }
  { intros (v & [= ->] & ->). destruct (present _); find_elem. }
  split; [split|].
  { intros Hin.
    pieces Hin ltac:(fun E => first [other_predicate E | eexists _, _; find_elem]). }
  { intros (s & o & Hin).
    pieces Hin ltac:(fun E => first [other_predicate E | find_elem]). }
  split; [intros o; split|].
  { intros Hin.
    pieces Hin ltac:(fun E => first [other_predicate E | injection E as ->; by eauto]). }
  { intros (v & [= ->] & ->). destruct speed, (present _); find_elem. }
  split; [intros o; split|].
  { intros Hin.
    pieces Hin ltac:(fun E => first [other_predicate E | injection E as ->; by eauto]). }
  { intros (v & [= ->] & ->). destruct speed, vol, (present _); find_elem. }
  split; [intros o; split|].
  { intros Hin.
    pieces Hin ltac:(fun E => first [other_predicate E | by injection E as ->]). }
  { intros [-> ->]. destruct speed, vol, occ; find_elem. }
  intros o; split.
  { intros Hin.
    pieces Hin ltac:(fun E => first [other_predicate E | injection E as ->; by eauto]). }
  { intros (b & -> & ->). destruct speed, vol, occ, (present _); find_elem. }
Qed.


(** X25: a ZONE_MAPPING row whose ZONE_ID resolves always gets exactly
    three triples, all about the zone: its type, its area code and its
    label; the two literals are the cells as they are, with no guard: a
    blank AREA_CODE gives a [hasAreaCode] literal that is NaN. *)
Theorem zone_mapping_predicates (row : ZoneMapping.row) (zone : node) :
  to_uri "zone" (ZoneMapping.ZONE_ID row) = Some zone →
  ∃ c, zone_mapping_body row = Ok c
       ∧ length c = 3%nat
       ∧ Forall (λ t : triple, t.1.1 = zone) c
       ∧ (∀ o, (zone, RDF_type, o) ∈ c ↔ o = term MOB "ServiceZone")
       ∧ (∀ o, (zone, term MOB "hasAreaCode", o) ∈ c
               ↔ o = Literal (ZoneMapping.AREA_CODE row) None)
       ∧ (∀ o, (zone, term RDFS "label", o) ∈ c
               ↔ o = Literal (ZoneMapping.SERVICE_ZONE row) None)
       ∧ (isna (ZoneMapping.AREA_CODE row) = true →
            (zone, term MOB "hasAreaCode", Literal (VFloat FNaN) None) ∈ c).
Proof.
  intros Hu. unfold zone_mapping_body. rewrite Hu. eexists. split; [reflexivity|].
  split; [reflexivity|]. split; [subjects|].
  split; [intros o; split|].
  { intros Hin. pieces Hin ltac:(fun E => first [other E | by injection E as ->]). }
  { intros ->. find_elem. }
  split; [intros o; split|].
  { intros Hin. pieces Hin ltac:(fun E => first [other E | by injection E as ->]). }
  { intros ->. find_elem. }
  split; [intros o; split|].
  { intros Hin. pieces Hin ltac:(fun E => first [other E | by injection E as ->]). }
  { intros ->. find_elem. }
  intros Hna. destruct (ZoneMapping.AREA_CODE row) as [| |[| |]|]; try discriminate Hna.
  find_elem.
Qed.

(** X22: the triples of a PLANNING_CLEAN row that is not skipped, when the
    iteration returns: 5 to 7 triples, all about the schedule; the type,
    the route, the zone, the day type and the time are always there;
    [frequencyMinutes] exactly when FREQUENCY_MIN parses, with the parsed
    integer; [isPeakSchedule] exactly when IS_PEAK_SCHEDULE is not NA. *)
Theorem planning_predicates (row : Planning.row) (schedule route zone : node)
    (c : list triple) :
  planning_uris row = (Some schedule, Some route, Some zone) →
  planning_body row = Ok c →
  Forall (λ t : triple, t.1.1 = schedule) c
  ∧ (schedule, RDF_type, term MOB "Schedule") ∈ c
  ∧ (schedule, term MOB "belongsToRoute", route) ∈ c
  ∧ (schedule, term MOB "appliesToZone", zone) ∈ c
  ∧ (schedule, term MOB "dayType", Literal (Planning.DAY_TYPE row) None) ∈ c
  ∧ (schedule, term MOB "scheduledTime",
      Literal (Planning.SCHEDULED_TIME row) (datatype XSD "time")) ∈ c
  ∧ (∀ o, (schedule, term MOB "frequencyMinutes", o) ∈ c
          ↔ ∃ n, safe_int (Planning.FREQUENCY_MIN row) = Ok (Some n)
                 ∧ o = Literal (VInt n) (datatype XSD "integer"))
  ∧ (∀ o, (schedule, term MOB "isPeakSchedule", o) ∈ c
          ↔ ∃ b, safe_bool (Planning.IS_PEAK_SCHEDULE row) = Some b
                 ∧ o = Literal (VBool b) (datatype XSD "boolean"))
  ∧ (5 ≤ length c ≤ 7)%nat.
Proof.
  intros Hu. unfold planning_body. rewrite Hu.
  destruct (safe_int _) as [freq|]; [|done].
  cbn [mbind result_bind mret result_ret]. intros [= <-].
  split; [subjects|].
  do 5 (split; [find_elem|]).
  split; [intros o; split|].
  { intros Hin. pieces Hin ltac:(fun E => first [other E | injection E as ->; by eauto]). }
  { intros (n & [= ->] & ->). find_elem. }
  split; [intros o; split|].
  { intros Hin. pieces Hin ltac:(fun E => first [other E | injection E as ->; by eauto]). }
  { intros (b & -> & ->). destruct freq; find_elem. }
  destruct freq, (safe_bool _); simpl; lia.
Qed.

(** X23: the triples of a BUS_PERFORMANCE_HOURLY row that is not skipped,
    when the iteration returns: 4 to 9 triples, all about the performance
    node; the type, the route, the zone and the date are always there;
    the hour and the four measures are there exactly when their field
    parses, with the parsed value. *)
Theorem bus_perf_predicates (row : BusPerf.row) (perf route zone : node)
    (c : list triple) :
  bus_perf_uris row = (Some perf, Some route, Some zone) →
  bus_perf_body row = Ok c →
  Forall (λ t : triple, t.1.1 = perf) c
  ∧ (perf, RDF_type, term MOB "AggregatedPerformance") ∈ c
  ∧ (perf, term MOB "route", route) ∈ c
  ∧ (perf, term MOB "zone", zone) ∈ c
  ∧ (perf, term MOB "performanceDate",
      Literal (BusPerf.EVENT_DATE row) (datatype XSD "date")) ∈ c
  ∧ (∀ o, (perf, term MOB "performanceHour", o) ∈ c
          ↔ ∃ n, safe_int (BusPerf.EVENT_HOUR row) = Ok (Some n)
                 ∧ o = Literal (VInt n) (datatype XSD "integer"))
  ∧ (∀ o, (perf, term MOB "averageDelayMinutes", o) ∈ c
          ↔ ∃ v, safe_float (BusPerf.AVG_DELAY_MINUTES row) = Ok (Some v)
                 ∧ o = Literal (VFloat v) (datatype XSD "float"))
  ∧ (∀ o, (perf, term MOB "maxDelayMinutes", o) ∈ c
          ↔ ∃ v, safe_float (BusPerf.MAX_DELAY_MINUTES row) = Ok (Some v)
                 ∧ o = Literal (VFloat v) (datatype XSD "float"))
  ∧ (∀ o, (perf, term MOB "averageSpeedKmh", o) ∈ c
          ↔ ∃ v, safe_float (BusPerf.AVG_SPEED_KMH row) = Ok (Some v)
                 ∧ o = Literal (VFloat v) (datatype XSD "float"))
  ∧ (∀ o, (perf, term MOB "delayRatePercent", o) ∈ c
          ↔ ∃ v, safe_float (BusPerf.DELAY_RATE_PCT row) = Ok (Some v)
                 ∧ o = Literal (VFloat v) (datatype XSD "float"))
  ∧ (4 ≤ length c ≤ 9)%nat.
Proof.
  intros Hu. unfold bus_perf_body. rewrite Hu.
  destruct (safe_int _) as [hour|]; [|done].
  destruct (safe_float (BusPerf.AVG_DELAY_MINUTES row)) as [d1|]; [|done].
  destruct (safe_float (BusPerf.MAX_DELAY_MINUTES row)) as [d2|]; [|done].
  destruct (safe_float (BusPerf.AVG_SPEED_KMH row)) as [d3|]; [|done].
  destruct (safe_float (BusPerf.DELAY_RATE_PCT row)) as [d4|]; [|done].
  cbn [mbind result_bind mret result_ret]. intros [= <-].
  split; [subjects|].
  do 4 (split; [find_elem|]).
  split; [intros o; split|].
  { intros Hin. pieces Hin ltac:(fun E => first [other E | injection E as ->; by eauto]). }
  { intros (n & [= ->] & ->). find_elem. }
  split; [intros o; split|].
  { intros Hin. pieces Hin ltac:(fun E => first [other E | injection E as ->; by eauto]). }
  { intros (n & [= ->] & ->). destruct hour; find_elem. }
  split; [intros o; split|].
  { intros Hin. pieces Hin ltac:(fun E => first [other E | injection E as ->; by eauto]). }
  { intros (n & [= ->] & ->). destruct hour, d1; find_elem. }
  split; [intros o; split|].
  { intros Hin. pieces Hin ltac:(fun E => first [other E | injection E as ->; by eauto]). }
  { intros (n & [= ->] & ->). destruct hour, d1, d2; find_elem. }
  split; [intros o; split|].
  { intros Hin. pieces Hin ltac:(fun E => first [other E | injection E as ->; by eauto]). }
  { intros (n & [= ->] & ->). destruct hour, d1, d2, d3; find_elem. }
  destruct hour, d1, d2, d3, d4; simpl; lia.
Qed.


(** X24: a BUS_GPS_CLEAN row that is not skipped always gets its trip and
    vehicle triples; the location of the trip, the point node and its WKT
    literal are added exactly when both LATITUDE and LONGITUDE parse, and
    the literal is [POINT(lon lat)], longitude first; the speed and its
    unit are added exactly when SPEED_KMH parses. *)
Theorem bus_location_predicates (row : BusGps.row) (ids : string * string)
    (trip vehicle route zone : node) :
  bus_trip_id row = Ok ids →
  bus_uris row ids.2 = (Some trip, Some vehicle, Some route, Some zone) →
  ∃ c point,
    bus_gps_body row = Ok c
    ∧ to_uri "point" (VStr ids.2) = Some point
    ∧ (trip, RDF_type, term MOB "Trip") ∈ c
    ∧ (trip, term MOB "hasVehicle", vehicle) ∈ c
    ∧ (trip, term MOB "operatesOnRoute", route) ∈ c
    ∧ (trip, term MOB "observedInZone", zone) ∈ c
    ∧ (trip, term MOB "recordedAt", Literal (VStr ids.1) (datatype XSD "dateTime")) ∈ c
    ∧ (vehicle, RDF_type, term MOB "Vehicle") ∈ c
    ∧ (vehicle, term RDFS "label", Literal (BusGps.BUS_ID row) None) ∈ c
    ∧ (∀ o, (trip, term MOB "hasLocation", o) ∈ c
            ↔ (∃ lat lon, safe_float (BusGps.LATITUDE row) = Ok (Some lat)
                          ∧ safe_float (BusGps.LONGITUDE row) = Ok (Some lon))
              ∧ o = point)
    ∧ ((point, RDF_type, term GEO_NS "Point") ∈ c
       ↔ has_pred (term MOB "hasLocation") c)
    ∧ (∀ s o, (s, term GEO_NS "asWKT", o) ∈ c
              ↔ ∃ lat lon, safe_float (BusGps.LATITUDE row) = Ok (Some lat)
                           ∧ safe_float (BusGps.LONGITUDE row) = Ok (Some lon)
                           ∧ s = point
                           ∧ o = Literal
                                   (VStr ("POINT(" +:+ str_of_float lon +:+ " "
                                          +:+ str_of_float lat +:+ ")"))
                                   (datatype GEO_NS "wktLiteral"))
    ∧ (∀ o, (trip, term MOB "instantaneousSpeed", o) ∈ c
            ↔ ∃ v, safe_float (BusGps.SPEED_KMH row) = Ok (Some v)
                   ∧ o = Literal (VFloat v) (datatype XSD "float"))
    ∧ ((trip, term MOB "speedUnit", term UNIT "KiloM-PER-HR") ∈ c
       ↔ has_pred (term MOB "instantaneousSpeed") c).
Proof.
  intros Hids Hu.
  assert (Hid : isna (VStr ids.2) || eq_str (VStr ids.2) "" = false).
  { unfold bus_uris in Hu. injection Hu as Ht _ _ _.
    apply to_uri_str_inv in Ht. simpl. by rewrite bool_decide_eq_false_2. }
  unfold bus_gps_body. rewrite Hids. cbn [mbind result_bind]. rewrite Hu.
  unfold bus_trip_triples, bus_location_triples, bus_delay_triples, delay_event_triples.
  destruct (to_uri "point" (VStr ids.2)) as [point|] eqn:Hpoint;
    [|by rewrite to_uri_Some in Hpoint].
  destruct (to_uri "delay_event" (VStr ids.2)) as [event|] eqn:Hevent;
    [|by rewrite to_uri_Some in Hevent].
  destruct (safe_float_total (BusGps.LATITUDE row)) as [lat ->].
  destruct (safe_float_total (BusGps.LONGITUDE row)) as [lon ->].
  destruct (safe_float_total (BusGps.SPEED_KMH row)) as [speed ->].
  destruct (safe_float_total (BusGps.DELAY_MINUTES row)) as [delay ->].
  cbn [mbind result_bind mret result_ret].
  eexists _, _. split; [reflexivity|]. split; [reflexivity|].
  do 7 (split; [find_elem|]).
  split; [intros o; split|].
  { intros Hin. pieces Hin ltac:(fun E => first [other E | injection E as ->; by eauto]). }
  { intros [(lat' & lon' & [= ->] & [= ->]) ->]. find_elem. }
  split; [split|].
  { intros Hin. pieces Hin ltac:(fun E => first [other E | eexists _, _; find_elem]). }
  { intros (s & o & Hin). pieces Hin ltac:(fun E => first [other E | find_elem]). }
  split; [intros s o; split|].
  { intros Hin.
    pieces Hin ltac:(fun E => first [other E | injection E as -> ->; by eauto 6]). }
  { intros (lat' & lon' & [= ->] & [= ->] & -> & ->). find_elem. }
  split; [intros o; split|].
  { intros Hin. pieces Hin ltac:(fun E => first [other E | injection E as ->; by eauto]). }
  { intros (v & [= ->] & ->). destruct lat, lon; find_elem. }
  split.
  { intros Hin. pieces Hin ltac:(fun E => first [other E | eexists _, _; find_elem]). }
  { intros (s & o & Hin). pieces Hin ltac:(fun E => first [other E | find_elem]). }
Qed.

End predicates.

(** ** The layout of the traffic table *)

Section loops.
Context {A B : Type}.

(** A loop that appends one item per iteration. *)
Lemma wp_for_collect (f : A → M B) (R : A → B → Prop) (l : list A) (s : list B) g
    (post : list B → rng → Prop) :
  (∀ x g' (post' : B → rng → Prop), x ∈ l →
     (∀ y g'', R x y → post' y g'') → wp (f x) g' post') →
  (∀ ys g', Forall2 R l ys → post (s ++ ys)%list g') →
  wp (for_ l (λ x acc, y ← f x; mret (acc ++ [y])%list) s) g post.
Proof.
  intros Hf Hpost.
  assert (Hwp : wp (for_ l (λ x acc, y ← f x; mret (acc ++ [y])%list) s) g
                  (λ acc _, ∃ ys, acc = (s ++ ys)%list ∧ Forall2 R l ys)).
  { apply (wp_for _ _ (λ done acc, ∃ ys, acc = (s ++ ys)%list ∧ Forall2 R done ys)).
    { exists []. by rewrite app_nil_r. }
    intros done x rest acc g1 Hl (ys & -> & Hys).
    apply wp_bind, Hf; [rewrite Hl; set_solver|]. intros y g2 Hy.
    apply wp_ret. exists (ys ++ [y])%list. split; [by rewrite app_assoc|].
    apply Forall2_app; [done|]. by constructor. }
  eapply wp_mono; [exact Hwp|]. intros acc g' (ys & -> & Hys). by apply Hpost.
Qed.

(** A loop that appends a block of items per iteration. *)
Lemma wp_for_blocks (body : A → list B → M (list B)) (Q : A → list B → Prop)
    (l : list A) (s : list B) g (post : list B → rng → Prop) :
  (∀ x acc g' (post' : list B → rng → Prop), x ∈ l →
     (∀ block g'', Q x block → post' (acc ++ block)%list g'') → wp (body x acc) g' post') →
  (∀ blocks g', Forall2 Q l blocks → post (s ++ concat blocks)%list g') →
  wp (for_ l body s) g post.
Proof.
  intros Hbody Hpost.
  assert (Hwp : wp (for_ l body s) g
                  (λ acc _, ∃ blocks, acc = (s ++ concat blocks)%list ∧ Forall2 Q l blocks)).
  { apply (wp_for _ _ (λ done acc,
             ∃ blocks, acc = (s ++ concat blocks)%list ∧ Forall2 Q done blocks)).
    { exists []. by rewrite app_nil_r. }
    intros done x rest acc g1 Hl (blocks & -> & Hblocks).
    apply Hbody; [rewrite Hl; set_solver|]. intros block g2 Hblock.
    exists (blocks ++ [block])%list. split.
    - rewrite concat_app. simpl. by rewrite app_nil_r, app_assoc.
    - apply Forall2_app; [done|]. by constructor. }
  eapply wp_mono; [exact Hwp|]. intros acc g' (blocks & -> & Hblocks). by apply Hpost.
Qed.

End loops.

Lemma Forall2_bind_concat {A B C} (f : A → list B) (P : B → C → Prop) l blocks :
  Forall2 (λ x block, Forall2 P (f x) block) l blocks →
  Forall2 P (l ≫= f) (concat blocks).
Proof.
  induction 1 as [|x block l blocks Hx _ IH]; simpl; [constructor|].
  by apply Forall2_app.
Qed.

Section traffic_layout.
Context `{PyMath}.

Local Ltac Qcompare := unfold Qle, Qlt, Qeq; simpl; lia.

Lemma py_int_clamp_volume (x : Q) :
  ∃ vol, py_int (clamp (VFloat (FNum x)) (VInt 20) (VInt 450)) = Ok vol ∧ 20 ≤ vol ≤ 450.
Proof.
  destruct (clamp_range x (VInt 20) (VInt 450) 20 450) as [Hin (q & Hq & Hr)];
    [done..|Qcompare|].
  revert Hin Hq. generalize (clamp (VFloat (FNum x)) (VInt 20) (VInt 450)).
  intros v Hin Hq. rewrite !elem_of_cons, elem_of_nil in Hin.
  destruct Hin as [->|[->|[->|[]]]]; simpl in *; [|eexists; split; [done|lia]..].
  injection Hq as ->. exists (Qtrunc q). split; [done|].
  destruct (Qtrunc_toward_zero q) as [Hpos _].
  destruct Hpos as (_ & Hle & Hlt); [lra|].
  destruct Hr as [Hr1 Hr2].
  assert (H1 : (inject_Z 20 < inject_Z (Qtrunc q + 1))%Q).
  { rewrite inject_Z_plus. change (inject_Z 20) with (20%Q). change (inject_Z 1) with 1%Q. lra. }
  assert (H2 : (inject_Z (Qtrunc q) <= inject_Z 450)%Q).
  { change (inject_Z 450) with (450%Q). lra. }
  rewrite <- Zlt_Qlt in H1. rewrite <- Zle_Qle in H2. lia.
Qed.

Lemma wp_traffic_row_cells z prof ts g (post : list pyval → rng → Prop) :
  (∀ row g', base_row_of (z, ts) row → post row g') →
  wp (traffic_row z prof ts) g post.
Proof.
  intros Hpost. unfold traffic_row.
  apply wp_bind, wp_random_uniform; [Qcompare|]. intros n1 g1 _.
  apply wp_bind, wp_random_uniform; [Qcompare|]. intros n2 g2 _.
  match goal with |- context [clamp (VFloat (FNum ?x)) (VInt 8) (VInt 80)] =>
    destruct (clamp_range x (VInt 8) (VInt 80) 8 80) as [_ Hspeed];
      [done..|Qcompare|] end.
  match goal with |- context [clamp (VFloat (FNum ?x)) (VInt 20) (VInt 450)] =>
    destruct (py_int_clamp_volume x) as (vol & Hint & Hvol) end.
  apply wp_bind. eapply wp_lift; [exact Hint|].
  apply wp_bind, wp_random_uniform; [Qcompare|]. intros n3 g3 _.
  apply wp_ret, Hpost.
  match goal with |- context [clamp (VFloat (FNum ?x)) (VFloat (FNum 0.05)) _] =>
    destruct (clamp_float_range x 0.05 0.99) as (q & Hocc & Hrange); [Qcompare|] end.
  rewrite Hocc. simpl py_round at 2.
  eexists _, vol, _. split; [reflexivity|].
  split; [|split; [done|]].
  - eapply (py_round_range _ 8 80 1 80 800); [Qcompare..|done].
  - eapply (Qround_range _ 0.05 0.99 2 5 99); [Qcompare..|done].
Qed.

Lemma wp_traffic_base_rows_layout g (post : list (list pyval) → rng → Prop) :
  (∀ rows g', Forall2 base_row_of traffic_keys rows → post rows g') →
  wp traffic_base_rows g post.
Proof.
  intros Hpost. unfold traffic_base_rows.
  apply (wp_for_blocks _ (λ z block,
           Forall2 base_row_of ((λ ts, (z, ts)) <$> traffic_timestamps) block)).
  - intros z acc g1 post' Hz Hpost'.
    pose proof ZONES_profiles as Hprof. rewrite Forall_forall in Hprof.
    destruct (Hprof z Hz) as [_ [prof Hp]].
    apply wp_bind. eapply wp_dict_get; [exact Hp|].
    apply (wp_for_collect (λ ts, traffic_row z prof ts) (λ ts row, base_row_of (z, ts) row)).
    + intros ts g2 post'' _ Hpost''. by apply wp_traffic_row_cells.
    + intros rows g2 Hrows. apply Hpost'. by apply Forall2_fmap_l.
  - intros blocks g' Hblocks. apply Hpost. simpl. by apply Forall2_bind_concat.
Qed.


Lemma traffic_table_base g run g' :
  traffic_table g = Ok (run, g') → ∃ g1, traffic_base_rows g = Ok (t_base run, g1).
Proof.
  unfold traffic_table, mbind, M_bind.
  destruct (traffic_base_rows g) as [[base g1]|]; [|done].
  repeat match goal with
         | |- context [match ?m with Ok _ => _ | Raise _ => _ end] =>
             destruct m as [[? ?]|]; [|done]
         end.
  intros [= <- <-]. by eauto.
Qed.

Lemma traffic_table_layout g :
  ∃ run g', traffic_table g = Ok (run, g') ∧ traffic_run_ok run
            ∧ Forall2 base_row_of traffic_keys (t_base run).
Proof.
  destruct (proj1 (wp_returns _ _ _) (traffic_table_ok g)) as (run & g' & Hrun & Hok).
  exists run, g'. split; [done|]. split; [done|].
  destruct (traffic_table_base _ _ _ Hrun) as [g1 Hbase].
  pose proof (wp_traffic_base_rows_layout g (λ rows _, Forall2 base_row_of traffic_keys rows))
    as Hwp.
  unfold wp in Hwp. rewrite Hbase in Hwp. by apply Hwp.
Qed.

Lemma base_row_keyed key row : base_row_of key row → keyed_row key row.
Proof.
  intros (speed & vol & occ & -> & _ & Hvol & _). repeat split; try done. by exists vol.
Qed.

Lemma keyed_row_blank key old new : keyed_row key old → blank_edit old new → keyed_row key new.
Proof.
  intros (Hlen & Hz & Hts & vol & Hv & Hvol) [-> | ->];
    (split; [by rewrite length_insert|]);
    rewrite !list_lookup_insert_ne by done; eauto.
Qed.

Lemma keyed_row_outlier key old new :
  keyed_row key old → outlier_edit old new → keyed_row key new.
Proof.
  intros (Hlen & Hz & Hts & vol & Hv & Hvol) [(v & _ & ->)|(q & _ & ->)];
    (split; [by rewrite length_insert|]);
    rewrite !list_lookup_insert_ne by done; eauto.
Qed.

Lemma traffic_rows_keyed g :
  ∃ run g', traffic_table g = Ok (run, g') ∧ traffic_run_ok run
            ∧ Forall2 keyed_row traffic_keys (t_rows run).
Proof.
  destruct (traffic_table_layout g) as (run & g' & Hrun & Hok & Hbase).
  exists run, g'. split; [done|]. split; [done|].
  apply Forall2_same_length_lookup_2.
  { apply Forall2_length in Hbase. destruct Hok as (_ & Hlb & Hlr & _). congruence. }
  intros i key new Hkey Hnew.
  destruct (run_rows_base run i new Hok Hnew) as [old Hold].
  pose proof (Forall2_lookup_lr _ _ _ _ _ _ Hbase Hkey Hold) as Hrow%base_row_keyed.
  destruct (run_index_cases run i old Hok Hold) as (_ & new' & Hnew' & Hc).
  assert (new' = new) as -> by congruence.
  destruct Hc as [(_ & _ & He)|[(_ & _ & He)|(_ & _ & ->)]];
    eauto using keyed_row_blank, keyed_row_outlier.
Qed.

Lemma traffic_keys_grid :
  traffic_keys
  = (λ i : nat, ("Z" +:+ str_of_nat (i / 69 + 1),
                 TRAFFIC_START + 300 * Z.of_nat (i mod 69))) <$> seq 0 552.
Proof. vm_compute. reflexivity. Qed.

Lemma traffic_keys_NoDup :
  NoDup ((λ key : string * datetime, (key.1, strftime_date_HM key.2)) <$> traffic_keys).
Proof. apply (bool_decide_unpack _). vm_compute. exact I. Qed.

(** X3: the traffic table has one row per zone and instant, zone by zone:
    row [i] is the row of zone [Z(i / 69 + 1)] at 07:00 plus [5 * (i mod 69)]
    minutes, and no two rows have the same zone and timestamp text. On
    every tape the injection keeps, in every row, five fields, the zone,
    the timestamp and an integer volume between 20 and 450; so it is for
    the file [generate_traffic_csv] writes, whose header is the schema and
    whose returned count is 552. *)
Theorem traffic_table_keys `{PyRandom} (outdir : string) (g : rng) :
  traffic_keys
  = (λ i : nat, ("Z" +:+ str_of_nat (i / 69 + 1),
                 TRAFFIC_START + 300 * Z.of_nat (i mod 69))) <$> seq 0 552
  ∧ NoDup ((λ key : string * datetime, (key.1, strftime_date_HM key.2)) <$> traffic_keys)
  ∧ (∀ g0, ∃ run g1,
       traffic_table g0 = Ok (run, g1)
       ∧ Forall2 base_row_of traffic_keys (t_base run)
       ∧ Forall2 keyed_row traffic_keys (t_rows run))
  ∧ ∃ file g',
      generate_traffic_csv outdir g
      = Ok ((file, (path_join outdir "traffic_data.csv", 552%nat)), g')
      ∧ csv_path file = path_join outdir "traffic_data.csv"
      ∧ csv_header file = traffic_header
      ∧ Forall2 keyed_row traffic_keys (csv_rows file).
Proof.
  split; [exact traffic_keys_grid|]. split; [exact traffic_keys_NoDup|]. split.
  - intros g0. destruct (traffic_table_layout g0) as (run & g1 & Hrun & Hok & Hbase).
    destruct (traffic_rows_keyed g0) as (run' & g1' & Hrun' & _ & Hrows).
    rewrite Hrun in Hrun'. injection Hrun' as <- <-. by exists run, g1.
  - set (g0 := {| tape := seeded_tape SEED; pos := 0 |}).
    destruct (traffic_rows_keyed g0) as (run & g' & Hrun & Hok & Hrows).
    eexists _, g'. split.
    + unfold generate_traffic_csv, mbind, M_bind, random_seed. fold g0. rewrite Hrun.
      destruct Hok as (-> & _). reflexivity.
    + done.
Qed.

(** X4: on every tape the [average_speed_kmh] cell of each row of the
    traffic table is blank, at a missing index only, or a number between 8
    and 80, or one of 2.0, 4.5 and 120.0, at an outlier index only; an
    unrealistic speed is found at outlier indices only; and no row has two
    imperfections: its speed and its occupancy are never both blank, both
    outliers, or one blank and the other an outlier. *)
Theorem speed_cells (g : rng) :
  ∃ run g',
    traffic_table g = Ok (run, g')
    ∧ ∀ i row, t_rows run !! i = Some row →
        ∃ v, row !! col_average_speed_kmh = Some v
          ∧ ((v = VStr "" ∧ i ∈ t_miss_indices run)
             ∨ in_range 8 80 v
             ∨ (v ∈ [VFloat (FNum 2.0); VFloat (FNum 4.5); VFloat (FNum 120.0)]
                ∧ i ∈ t_out_indices run))
          ∧ ¬ (v = VStr "" ∧ speed_outlier v = true)
          ∧ ¬ (in_range 8 80 v ∧ speed_outlier v = true)
          ∧ (speed_outlier v = true → i ∈ t_out_indices run)
          ∧ (∀ w, row !! col_occupancy_rate = Some w →
               ¬ (v = VStr "" ∧ w = VStr "")
               ∧ ¬ (speed_outlier v = true ∧ occupancy_outlier w = true)
               ∧ ¬ (v = VStr "" ∧ occupancy_outlier w = true)
               ∧ ¬ (speed_outlier v = true ∧ w = VStr "")).
Proof.
  destruct (proj1 (wp_returns _ _ _) (traffic_table_ok g)) as (run & g' & Hrun & Hok).
  exists run, g'. split; [done|]. intros i row Hrow.
  destruct (run_rows_base run i row Hok Hrow) as [old Hold].
  destruct (run_index_cases run i old Hok Hold) as (Hnorm & new & Hnew & Hc).
  assert (new = row) as -> by congruence.
  destruct Hnorm as (z & ts & speed & vol & occ & -> & Hz & Hts & Hspeed & Hocc).
  pose proof (in_range_not_speed_outlier _ Hspeed) as Hso.
  pose proof (in_range_not_blank _ _ _ Hspeed) as Hsb.
  pose proof (normal_occupancy_not_outlier _ Hocc) as Hoo.
  assert (Hblank : speed_outlier (VStr "") = false ∧ occupancy_outlier (VStr "") = false
                   ∧ ¬ in_range 8 80 (VStr "")).
  { split; [done|]. split; [done|]. by intros (q & ? & _). }
  destruct Hblank as (Hb1 & Hb2 & Hb3).
  destruct Hc as [(Him & _ & [->| ->])|[(_ & Hio & [(v & Hv & ->)|(q & Hq & ->)])
                                       |(_ & _ & ->)]];
    (eexists; split; [reflexivity|]).
  - split; [by left|]. split; [intros [_ ?]; congruence|].
    split; [by intros [? _]|]. split; [congruence|].
    intros w [= <-]. repeat split; intros [? ?]; congruence.
  - split; [by right; left|]. split; [intros [_ ?]; congruence|].
    split; [intros [_ ?]; congruence|]. split; [congruence|].
    intros w [= <-]. repeat split; intros [? ?]; congruence.
  - destruct (speed_outlier_values v Hv) as (Hout & Hnb & Hnr).
    split; [by right; right|]. split; [by intros [? _]|].
    split; [by intros [? _]|]. split; [done|].
    intros w [= <-]. repeat split; intros [? ?]; congruence.
  - destruct (occupancy_outlier_values q Hq) as [Hout _].
    split; [by right; left|]. split; [intros [_ ?]; congruence|].
    split; [intros [_ ?]; congruence|]. split; [congruence|].
    intros w [= <-]. repeat split; intros [? ?]; congruence.
  - split; [by right; left|]. split; [intros [_ ?]; congruence|].
    split; [intros [_ ?]; congruence|]. split; [congruence|].
    intros w [= <-]. repeat split; intros [? ?]; congruence.
Qed.

End traffic_layout.

(** ** The trajectories of the buses *)

Section bus_points.
Local Open Scope nat_scope.

Local Ltac Qcompare := unfold Qle, Qlt, Qeq; simpl; lia.

Lemma ZONES_centers :
  Forall (λ z, from_option (λ c : Q * Q,
                  on_grid6 (c.1 - 0.0025) && on_grid6 (c.1 + 0.0025)
                  && on_grid6 (c.2 - 0.0025) && on_grid6 (c.2 + 0.0025))
                 false (zone_center !! z) = true) ZONES.
Proof. apply (bool_decide_unpack _). vm_compute. exact I. Qed.

Lemma Qround_grid6 (q lo hi : Q) :
  on_grid6 lo = true → on_grid6 hi = true →
  (lo <= q <= hi)%Q → (lo <= Qround q 6 <= hi)%Q.
Proof.
  intros Hlo%Qeq_bool_eq Hhi%Qeq_bool_eq. by eapply Qround_range.
Qed.

Lemma py_int_clamp_delay (d : Z) :
  (0 < d < 35)%Z → py_int (clamp (VInt d) (VInt 0) (VInt 35)) = Ok d.
Proof.
  intros Hd. unfold clamp, py_max, py_min, py_ltb. simpl.
  assert (H1 : Qltb (inject_Z d) (inject_Z 35) = true) by (apply Qltb_lt; Qcompare).
  rewrite H1. simpl.
  assert (H2 : Qltb (inject_Z 0) (inject_Z d) = true) by (apply Qltb_lt; Qcompare).
  by rewrite H2.
Qed.

Lemma wp_bus_point_ok bus line zones_path t0 base_delay k g
    (post : bus_feature → rng → Prop) :
  line_zones !! line = Some zones_path →
  length zones_path = 3 →
  Forall (λ z, z ∈ ZONES) zones_path →
  base_delay = (if bool_decide ("Z1" ∈ zones_path) || bool_decide ("Z6" ∈ zones_path)
                then 6 else 2)%Z →
  k < BUS_POINTS_PER_BUS →
  (∀ f g', bus_point_ok bus line zones_path t0 k f → post f g') →
  wp (bus_point bus line zones_path t0 base_delay k) g post.
Proof.
  intros Hline Hlen Hzones Hbase Hk Hpost. unfold bus_point.
  rewrite decide_False by (rewrite Hlen; lia).
  assert (Hseg : (k / Nat.max 1 (BUS_POINTS_PER_BUS / length zones_path))
                 mod length zones_path = k / 40).
  { rewrite Hlen. change (Nat.max 1 (BUS_POINTS_PER_BUS / 3)) with 40.
    apply Nat.mod_small, Nat.Div0.div_lt_upper_bound. unfold BUS_POINTS_PER_BUS in Hk. lia. }
  rewrite Hseg.
  assert (Hlt : k / 40 < length zones_path).
  { rewrite Hlen. apply Nat.Div0.div_lt_upper_bound. unfold BUS_POINTS_PER_BUS in Hk. lia. }
  destruct (lookup_lt_is_Some_2 zones_path _ Hlt) as [z Hz].
  apply wp_bind. eapply wp_list_get; [exact Hz|].
  assert (Hin : z ∈ zones_path) by (by eapply list_elem_of_lookup_2).
  assert (HZ : z ∈ ZONES) by (rewrite Forall_forall in Hzones; by apply Hzones).
  pose proof ZONES_codes as Hcodes. rewrite Forall_forall in Hcodes.
  destruct (Hcodes z HZ) as ([center Hcenter] & code & Hcode & Hback).
  pose proof ZONES_centers as Hgrid. rewrite Forall_forall in Hgrid.
  specialize (Hgrid z HZ). rewrite Hcenter in Hgrid. simpl in Hgrid.
  apply andb_prop in Hgrid as [[[Hg1 Hg2]%andb_prop Hg3]%andb_prop Hg4].
  apply wp_bind. eapply wp_dict_get; [exact Hcenter|].
  apply wp_bind, wp_random_uniform; [Qcompare|]. intros d1 g1 Hd1.
  apply wp_bind, wp_random_uniform; [Qcompare|]. intros d2 g2 Hd2.
  apply wp_bind, wp_random_uniform; [Qcompare|]. intros s1 g3 Hs1.
  apply wp_bind.
  apply (wp_mono _ _ (λ speed _,
           if congested z then (8 <= speed <= 20)%Q else (18 <= speed <= 35)%Q)).
  { destruct (congested z); [by apply wp_random_uniform; [Qcompare|]|by apply wp_ret]. }
  intros speed g4 Hspeed.
  apply wp_bind.
  apply (wp_mono _ _ (λ r _,
           if congested z then (2 ≤ r ≤ 7)%Z else (-1 ≤ r ≤ 3)%Z)).
  { destruct (congested z); by apply wp_random_randint; [lia|]. }
  intros r g5 Hr.
  set (peak_bonus := if bool_decide _ then 3%Z else 0%Z).
  assert (Hbonus : (0 ≤ peak_bonus ≤ 3)%Z).
  { unfold peak_bonus.
    match goal with |- context [if ?b then _ else _] => destruct b end; lia. }
  assert (Hdelay : if congested z then (8 ≤ base_delay + peak_bonus + r ≤ 16)%Z
                   else (1 ≤ base_delay + peak_bonus + r ≤ 12)%Z).
  { destruct (congested z) eqn:Hc.
    - assert (base_delay = 6%Z) as ->; [|lia].
      rewrite Hbase. unfold congested in Hc. apply bool_decide_eq_true in Hc.
      rewrite !elem_of_cons, elem_of_nil in Hc.
      destruct Hc as [->|[->|[]]].
      + by rewrite (bool_decide_eq_true_2 _ Hin).
      + rewrite (bool_decide_eq_true_2 ("Z6" ∈ zones_path) Hin). by rewrite orb_true_r.
    - assert (base_delay = 6%Z ∨ base_delay = 2%Z) as [-> | ->]; [|lia..].
      rewrite Hbase. destruct (_ || _); auto. }
  apply wp_bind. eapply wp_lift.
  { apply py_int_clamp_delay. destruct (congested z); lia. }
  apply wp_bind, wp_random_random. intros u g6 _ _.
  apply wp_bind. eapply wp_dict_get; [exact Hcode|].
  apply wp_ret, Hpost. unfold bus_point_ok. cbn [bus_id line_id timestamp area_code
    coordinates speed_kmh delay_minutes].
  split; [done|]. split; [done|]. split; [done|].
  exists z, center, (Qround (center.2 + d2) 6), (Qround (center.1 + d1) 6).
  split; [done|]. split; [done|]. split; [done|]. split; [done|]. split; [done|].
  split; [apply Qround_grid6; [done..|lra]|].
  split; [apply Qround_grid6; [done..|lra]|].
  split.
  - destruct (congested z).
    + eapply (py_round_range _ 8 20 1 80 200); [Qcompare..|]. by eexists.
    + eapply (py_round_range _ 18 35 1 180 350); [Qcompare..|]. by eexists.
  - destruct (Qltb u BUS_MISSING_DELAY_RATE); [done|]. done.
Qed.


Lemma wp_bus_trajectory_block b features g (post : list bus_feature → rng → Prop) :
  b.2 ∈ lines →
  (∀ block g', bus_block_ok b block → post (features ++ block)%list g') →
  wp (bus_trajectory b features) g post.
Proof.
  intros Hb Hpost. unfold bus_trajectory.
  pose proof lines_paths as Hpaths. rewrite Forall_forall in Hpaths.
  destruct (Hpaths _ Hb) as (zones_path & Hline & Hlen & Hzones).
  apply wp_bind. eapply wp_dict_get; [exact Hline|].
  apply wp_bind, wp_random_randint; [lia|]. intros r g1 Hr.
  apply (wp_for_collect
           (λ k, bus_point b.1 b.2 zones_path (TRAFFIC_START + timedelta_minutes r)%Z
                   (if bool_decide ("Z1" ∈ zones_path) || bool_decide ("Z6" ∈ zones_path)
                    then 6%Z else 2%Z) k)
           (bus_point_ok b.1 b.2 zones_path (TRAFFIC_START + timedelta_minutes r)%Z)).
  - intros k g2 post' [_ Hk]%elem_of_seq Hpost'.
    by apply wp_bus_point_ok.
  - intros block g2 Hblock. apply Hpost. by exists zones_path, r.
Qed.

(** The buses are assigned a line each, then the features are generated
    bus by bus. *)
Lemma bus_features_blocks (g : rng) :
  ∃ buses g1 blocks g2,
    bus_assignments g = Ok (buses, g1)
    ∧ for_ buses bus_trajectory [] g1 = Ok (concat blocks, g2)
    ∧ bus_features g = Ok (concat blocks, g2)
    ∧ buses.*1 = (λ b, "BUS-" +:+ fmt_02d b) <$> seq 1 BUS_COUNT
    ∧ Forall (λ b, b.2 ∈ lines) buses
    ∧ Forall2 bus_block_ok buses blocks.
Proof.
  destruct (proj1 (wp_returns bus_assignments g
              (λ buses _, buses.*1 = (λ b, "BUS-" +:+ fmt_02d b) <$> seq 1 BUS_COUNT
                          ∧ Forall (λ b, b.2 ∈ lines) buses)))
    as (buses & g1 & Hb & Hids & Hlines).
  { apply wp_bus_assignments. by intros buses g' ? ?. }
  destruct (proj1 (wp_returns (for_ buses bus_trajectory []) g1
              (λ fs _, ∃ blocks, fs = concat blocks ∧ Forall2 bus_block_ok buses blocks)))
    as (features & g2 & Hf & blocks & -> & Hblocks).
  { apply (wp_for_blocks _ bus_block_ok).
    - intros b acc g' post' Hin Hpost'. apply wp_bus_trajectory_block; [|done].
      rewrite Forall_forall in Hlines. by apply Hlines.
    - intros blocks g' Hblocks. by exists blocks. }
  exists buses, g1, blocks, g2. split; [done|]. split; [done|]. split; [|done].
  unfold bus_features, mbind, M_bind. by rewrite Hb.
Qed.

Lemma bus_block_length b block : bus_block_ok b block → length block = BUS_POINTS_PER_BUS.
Proof.
  intros (zones_path & r & _ & _ & Hpoints). apply Forall2_length in Hpoints.
  by rewrite length_seq in Hpoints.
Qed.

(** X5: on every tape the buses are [BUS-01] to [BUS-15], each with one of
    the eight lines, and the features are those of the buses in turn, 120
    for each; point [k] of a bus carries the identifier and the line of
    the bus, the instant [t0 + k] minutes for a start [t0] between 07:00
    and 07:30, and the area code of zone [k / 40] of the path of the line:
    the three zones are visited in order, 40 points each. So it is for the
    1800 features [generate_bus_geojson] dumps. *)
Theorem bus_trajectories `{PyRandom} (outdir : string) (g : rng) :
  (∀ g0, ∃ buses g1 blocks g2,
     bus_assignments g0 = Ok (buses, g1)
     ∧ for_ buses bus_trajectory [] g1 = Ok (concat blocks, g2)
     ∧ buses.*1 = (λ b, "BUS-" +:+ fmt_02d b) <$> seq 1 BUS_COUNT
     ∧ Forall (λ b, b.2 ∈ lines) buses
     ∧ Forall2 bus_block_ok buses blocks
     ∧ Forall (λ block, length block = BUS_POINTS_PER_BUS) blocks)
  ∧ ∃ blocks g',
      generate_bus_geojson outdir g
      = Ok ((concat blocks,
             (path_join outdir "bus_gps.geojson", BUS_COUNT * BUS_POINTS_PER_BUS)), g')
      ∧ length blocks = BUS_COUNT
      ∧ Forall (λ block, length block = BUS_POINTS_PER_BUS) blocks
      ∧ Forall2 (λ b block,
                   ∃ line zones_path r,
                     line ∈ lines ∧ line_zones !! line = Some zones_path ∧ (0 ≤ r ≤ 30)%Z
                     ∧ Forall2 (bus_point_ok ("BUS-" +:+ fmt_02d b) line zones_path
                                  (TRAFFIC_START + timedelta_minutes r)%Z)
                         (seq 0 BUS_POINTS_PER_BUS) block)
          (seq 1 BUS_COUNT) blocks.
Proof.
  assert (Hlens : ∀ buses blocks, Forall2 bus_block_ok buses blocks →
            Forall (λ block, length block = BUS_POINTS_PER_BUS) blocks).
  { intros buses blocks Hb. apply Forall_forall. intros block Hin.
    apply list_elem_of_lookup_1 in Hin as [i Hi].
    destruct (Forall2_lookup_r _ _ _ _ _ Hb Hi) as (b & _ & Hblock).
    by eapply bus_block_length. }
  split.
  - intros g0.
    destruct (bus_features_blocks g0) as (buses & g1 & blocks & g2 & Hb & Hf & _ & Hids & Hl & Hbl).
    exists buses, g1, blocks, g2. eauto 10.
  - set (g0 := {| tape := seeded_tape (SEED + 1); pos := 0 |}).
    destruct (bus_features_blocks g0) as (buses & g1 & blocks & g2 & Hb & _ & Hf & Hids & Hl & Hbl).
    assert (Hlen : length blocks = BUS_COUNT).
    { apply Forall2_length in Hbl. rewrite <- Hbl, <- (length_fmap fst), Hids.
      by rewrite length_fmap, length_seq. }
    exists blocks, g2. split; [|split; [done|split; [by eapply Hlens|]]].
    + unfold generate_bus_geojson, mbind, M_bind, random_seed. fold g0. rewrite Hf.
      do 4 f_equal.
      rewrite length_concat.
      rewrite (sum_list_fmap_same BUS_POINTS_PER_BUS) by (by eapply Hlens).
      by rewrite Hlen.
    + apply Forall2_same_length_lookup_2; [by rewrite length_seq|].
      intros i b block Hb' Hblock.
      destruct (Forall2_lookup_r _ _ _ _ _ Hbl Hblock) as ([bus line] & Hbus & Hok).
      assert (Hbus_id : bus = "BUS-" +:+ fmt_02d b).
      { apply (f_equal (fmap fst)) in Hbus. rewrite <- list_lookup_fmap, Hids in Hbus.
        rewrite list_lookup_fmap, Hb' in Hbus. by injection Hbus. }
      destruct Hok as (zones_path & r & Hline & Hr & Hpoints). simpl in *.
      exists line, zones_path, r. rewrite <- Hbus_id.
      split; [|done]. rewrite Forall_forall in Hl.
      apply (Hl (bus, line)). by eapply list_elem_of_lookup_2.
Qed.


Lemma in_range_weaken lo hi lo' hi' v :
  (lo' <= lo)%Q → (hi <= hi')%Q → in_range lo hi v → in_range lo' hi' v.
Proof. intros Hlo Hhi (q & Hq & Hr). exists q. split; [done|]. lra. Qed.

Lemma bus_point_ranges bus line zones_path t0 k f :
  bus_point_ok bus line zones_path t0 k f → bus_feature_ranges f.
Proof.
  intros (_ & _ & _ & z & center & lon & lat & _ & _ & Hz & Hc & Hcoord & Hlon & Hlat
          & Hspeed & Hdelay).
  exists z, center, lon, lat. split; [done|]. split; [done|]. split; [done|].
  split; [apply Qabs_Qle_condition; lra|]. split; [apply Qabs_Qle_condition; lra|].
  split; [|split; [done|]].
  - destruct (congested z); eapply in_range_weaken; try exact Hspeed; Qcompare.
  - intros d Hd. rewrite Hd in Hdelay. destruct (congested z); lia.
Qed.

Lemma bus_features_ranges (g : rng) :
  ∃ features g', bus_features g = Ok (features, g')
                 ∧ length features = BUS_COUNT * BUS_POINTS_PER_BUS
                 ∧ Forall bus_feature_ranges features.
Proof.
  destruct (bus_features_blocks g) as (buses & g1 & blocks & g2 & _ & _ & Hf & Hids & _ & Hbl).
  exists (concat blocks), g2. split; [done|]. split.
  - rewrite length_concat.
    rewrite (sum_list_fmap_same BUS_POINTS_PER_BUS).
    + apply Forall2_length in Hbl. rewrite <- Hbl, <- (length_fmap fst), Hids.
      by rewrite length_fmap, length_seq.
    + apply Forall_forall. intros block Hin.
      apply list_elem_of_lookup_1 in Hin as [i Hi].
      destruct (Forall2_lookup_r _ _ _ _ _ Hbl Hi) as (b & _ & Hblock).
      by eapply bus_block_length.
  - apply Forall_concat, Forall_forall. intros block Hin.
    apply list_elem_of_lookup_1 in Hin as [i Hi].
    destruct (Forall2_lookup_r _ _ _ _ _ Hbl Hi) as (b & _ & zones_path & r & _ & _ & Hpts).
    apply Forall_forall. intros f Hf'.
    apply list_elem_of_lookup_1 in Hf' as [k Hk].
    destruct (Forall2_lookup_r _ _ _ _ _ Hpts Hk) as (k' & _ & Hok).
    by eapply bus_point_ranges.
Qed.

(** X6: on every tape every feature lies within 0.0025 degrees of the
    center of the zone its area code stands for, its coordinates being
    [[lon, lat]]; its speed is between 8 and 20 in a congested zone (Z1,
    Z6) and between 18 and 35 elsewhere; and its delay, when it is not
    null, is between 8 and 16 in a congested zone and between 1 and 12
    elsewhere: the bounds 0 and 35 of the clamp are never reached, and no
    delay is 0. *)
Theorem bus_measurements `{PyRandom} (outdir : string) (g : rng) :
  (∀ g0, ∃ features g1,
     bus_features g0 = Ok (features, g1) ∧ Forall bus_feature_ranges features)
  ∧ ∃ features ret g',
      generate_bus_geojson outdir g = Ok ((features, ret), g')
      ∧ Forall bus_feature_ranges features.
Proof.
  split.
  - intros g0. destruct (bus_features_ranges g0) as (fs & g1 & Hf & _ & Hok). by exists fs, g1.
  - set (g0 := {| tape := seeded_tape (SEED + 1); pos := 0 |}).
    destruct (bus_features_ranges g0) as (fs & g1 & Hf & _ & Hok).
    eexists fs, _, g1. split; [|done].
    unfold generate_bus_geojson, mbind, M_bind, random_seed. fold g0. by rewrite Hf.
Qed.

End bus_points.

(** ** The format of the planning records *)

Section planning_format.
Local Open Scope nat_scope.

Lemma ZONES_service_zone_labels :
  Forall (λ z, ZONE_TO_SERVICE_ZONE !! z = Some ("ServiceZone-" +:+ z)) ZONES.
Proof. apply (bool_decide_unpack _). vm_compute. exact I. Qed.

Lemma times_hour_range :
  Forall (λ t, ∃ hh, int_of_str (split_head ":" t) = Ok hh ∧ (7 ≤ hh ≤ 12)%Z) times.
Proof.
  let l := eval vm_compute in times in change times with l.
  repeat (apply Forall_cons; split; [eexists; split; [vm_compute; reflexivity|lia]|]).
  apply Forall_nil_2.
Qed.

Lemma wp_planning_record_ok g (post : string → rng → Prop) :
  (∀ line g', planning_line_ok line → post line g') → wp planning_record g post.
Proof.
  intros Hpost. unfold planning_record.
  apply wp_bind, wp_random_choice; [done|]. intros l g1 Hl.
  apply wp_bind, wp_random_choice; [done|]. intros z g2 Hz.
  pose proof ZONES_service_zone_labels as Hs. rewrite Forall_forall in Hs.
  apply wp_bind. eapply wp_dict_get; [exact (Hs z Hz)|].
  apply wp_bind, wp_random_choice; [done|]. intros day_type g3 Hday.
  apply wp_bind, wp_random_choice; [done|]. intros t g4 Ht.
  pose proof times_hour_range as Hh. rewrite Forall_forall in Hh.
  destruct (Hh t Ht) as (hh & Hhh & Hrange).
  apply wp_bind. eapply wp_lift; [exact Hhh|].
  apply wp_bind.
  apply (wp_mono _ _ (λ frequency _,
           frequency ∈ freq_options
           ∧ (day_type = "weekday" → (hh ≤ 9)%Z → frequency ∈ [6; 8; 10]%Z))).
  { destruct (bool_decide (day_type = "weekday") && bool_decide (7 ≤ hh ≤ 9)%Z) eqn:Hpeak;
      (apply wp_random_choice; [done|]); intros frequency g5 Hf.
    - split; [|done]. revert Hf. unfold freq_options.
      rewrite !elem_of_cons, !elem_of_nil. tauto.
    - split; [done|]. intros Hd Hle. apply andb_false_iff in Hpeak as [Hp|Hp].
      + by rewrite bool_decide_eq_true_2 in Hp.
      + rewrite bool_decide_eq_true_2 in Hp; [done|lia]. }
  intros frequency g5 [Hf Hfast].
  apply wp_bind, wp_random_random. intros u g6 _ _. apply wp_ret, Hpost.
  exists l, z, ("ServiceZone-" +:+ z), day_type, t, hh, frequency,
    (if Qltb u 0.85 then " | " else " ; ").
  split; [reflexivity|]. split; [done|]. split; [done|]. split; [by apply Hs|].
  split; [done|]. split; [done|]. split; [done|]. split; [done|]. split; [done|].
  split; [|done]. destruct (Qltb u 0.85); rewrite !elem_of_cons; auto.
Qed.

Lemma planning_while_Forall (n : nat) records g :
  length records + n = PLANNING_LINES →
  Forall planning_line_ok records →
  ∃ records' g', planning_while records g = Ok (records', g')
                 ∧ length records' = PLANNING_LINES
                 ∧ Forall planning_line_ok records'.
Proof.
  revert records g. induction n as [|n IH]; intros records g Hlen Hok.
  - exists records, g. split; [apply planning_while_done; lia|]. split; [lia|done].
  - destruct (proj1 (wp_returns planning_record g (λ line _, planning_line_ok line)))
      as (line & g' & Hrec & Hline).
    { by apply wp_planning_record_ok. }
    rewrite (planning_while_step records g line g'); [|lia|done].
    apply IH; [rewrite length_app; simpl; lia|].
    apply Forall_app. split; [done|]. by apply Forall_singleton.
Qed.

(** X7: on every tape every line of the planning file is
    [line_id=..], [service_zone=..], [day_type=..], [scheduled_time=..],
    [frequency_min=..] joined by one and the same separator, [" | "] or
    [" ; "]; the line is one of the eight, the service zone is the label
    of a zone, the time is one of the 36 candidates, of hour 7 to 12, the
    frequency is one of 6, 8, 10, 12, 15, and on a weekday at an hour up
    to 9 it is 6, 8 or 10. The file has one such line per record, ended by
    a line feed. *)
Theorem planning_lines_format `{PyRandom} (outdir : string) (g : rng) :
  (∀ g0, ∃ records g1,
     planning_while [] g0 = Ok (records, g1) ∧ Forall planning_line_ok records)
  ∧ ∃ file ret g',
      generate_planning_txt outdir g = Ok ((file, ret), g')
      ∧ Forall (λ text, ∃ line, text = line +:+ String "010" EmptyString
                                ∧ planning_line_ok line) file.
Proof.
  split.
  - intros g0.
    destruct (planning_while_Forall PLANNING_LINES [] g0) as (records & g1 & Hw & _ & Hok);
      [done..|].
    by exists records, g1.
  - set (g0 := {| tape := seeded_tape (SEED + 2); pos := 0 |}).
    destruct (planning_while_Forall PLANNING_LINES [] g0) as (records & g1 & Hw & _ & Hok);
      [done..|].
    eexists _, _, g1. split.
    + unfold generate_planning_txt, mbind, M_bind, random_seed. fold g0. rewrite Hw.
      reflexivity.
    + apply Forall_fmap. eapply Forall_impl; [exact Hok|]. intros line Hline. by exists line.
Qed.

End planning_format.

(** ** The mapping table and the whole run *)

Section mapping_table.
Local Open Scope nat_scope.

Lemma ZONES_synonyms :
  Forall (λ z, ∃ a s, ZONE_TO_AREA_CODE !! z = Some a
                      ∧ ZONE_TO_SERVICE_ZONE !! z = Some s
                      ∧ zone_of_area_code a = Some z
                      ∧ s = "ServiceZone-" +:+ z) ZONES.
Proof.
  pose proof ZONES_codes as Hc. pose proof ZONES_service_zone_labels as Hs.
  rewrite Forall_forall in Hc, Hs. apply Forall_forall. intros z Hz.
  destruct (Hc z Hz) as (_ & a & Ha & Hback). exists a, ("ServiceZone-" +:+ z).
  split; [done|]. split; [by apply Hs|]. done.
Qed.

Lemma zone_mapping_rows :
  ∃ rows,
    (∀ outdir g,
       generate_zone_mapping outdir g
       = Ok ((write_csv (path_join outdir "zone_mapping.csv")
                ["zone_id"; "area_code"; "service_zone"] rows,
              (path_join outdir "zone_mapping.csv", 8)), g))
    ∧ Forall2 mapping_row_of ZONES rows
    ∧ NoDup ((λ row, row !! 0) <$> rows)
    ∧ NoDup ((λ row, row !! 1) <$> rows)
    ∧ NoDup ((λ row, row !! 2) <$> rows).
Proof.
  eexists. split; [intros outdir g; vm_compute; reflexivity|]. split.
  - let l := eval vm_compute in ZONES in change ZONES with l.
    repeat (apply Forall2_cons; split;
            [eexists _, _; split; [reflexivity|]; repeat split; vm_compute; reflexivity|]).
    apply Forall2_nil_2.
  - split; [|split]; apply (bool_decide_unpack _); vm_compute; exact I.
Qed.

(** X8: [generate_zone_mapping] draws nothing and never raises: it returns
    8 and leaves the generator as it was; the table has, for each zone in
    order, the row of the zone, its area code and its service zone label;
    no value is repeated in any of the three columns, the area code
    decodes back to the zone, and two zones never share an area code or a
    service zone label. *)
Theorem zone_mapping_bijection (outdir : string) (g : rng) :
  ∃ file rows,
    generate_zone_mapping outdir g
    = Ok ((file, (path_join outdir "zone_mapping.csv", length ZONES)), g)
    ∧ file = write_csv (path_join outdir "zone_mapping.csv")
               ["zone_id"; "area_code"; "service_zone"] rows
    ∧ Forall2 mapping_row_of ZONES rows
    ∧ NoDup ZONES
    ∧ NoDup ((λ row, row !! 0) <$> rows)
    ∧ NoDup ((λ row, row !! 1) <$> rows)
    ∧ NoDup ((λ row, row !! 2) <$> rows)
    ∧ (∀ z z' a, z ∈ ZONES → z' ∈ ZONES →
         ZONE_TO_AREA_CODE !! z = Some a → ZONE_TO_AREA_CODE !! z' = Some a → z = z')
    ∧ (∀ z z' s, z ∈ ZONES → z' ∈ ZONES →
         ZONE_TO_SERVICE_ZONE !! z = Some s → ZONE_TO_SERVICE_ZONE !! z' = Some s → z = z').
Proof.
  destruct zone_mapping_rows as (rows & Hgen & Hrows & Hn0 & Hn1 & Hn2).
  exists (write_csv (path_join outdir "zone_mapping.csv")
            ["zone_id"; "area_code"; "service_zone"] rows), rows.
  split; [apply Hgen|]. split; [done|]. split; [done|].
  split; [apply (bool_decide_unpack _); vm_compute; exact I|].
  split; [done|]. split; [done|]. split; [done|].
  pose proof ZONES_synonyms as Hs. rewrite Forall_forall in Hs. split.
  - intros z z' a Hz Hz' Ha Ha'.
    destruct (Hs z Hz) as (a1 & _ & Ha1 & _ & Hb1 & _).
    destruct (Hs z' Hz') as (a2 & _ & Ha2 & _ & Hb2 & _). congruence.
  - intros z z' s Hz Hz' Hsz Hsz'.
    destruct (Hs z Hz) as (_ & s1 & _ & Hs1 & _ & ->).
    destruct (Hs z' Hz') as (_ & s2 & _ & Hs2 & _ & ->).
    assert (E : "ServiceZone-" +:+ z = "ServiceZone-" +:+ z') by congruence.
    by apply append_inj_l in E.
Qed.


Lemma mapping_rows_zone rows z :
  Forall2 mapping_row_of ZONES rows → z ∈ ZONES →
  ∃ a s, [VStr z; VStr a; VStr s] ∈ rows
         ∧ ZONE_TO_AREA_CODE !! z = Some a ∧ ZONE_TO_SERVICE_ZONE !! z = Some s.
Proof.
  intros Hrows Hz. apply list_elem_of_lookup_1 in Hz as [i Hi].
  destruct (Forall2_lookup_l _ _ _ _ _ Hrows Hi) as (row & Hrow & a & s & -> & Ha & Hs & _).
  exists a, s. split; [by eapply list_elem_of_lookup_2|done].
Qed.

Lemma zone_of_area_code_Some code z :
  zone_of_area_code code = Some z → z ∈ ZONES ∧ ZONE_TO_AREA_CODE !! z = Some code.
Proof.
  unfold zone_of_area_code. intros Hhead.
  assert (Hin : z ∈ filter (λ z, ZONE_TO_AREA_CODE !! z = Some code) ZONES).
  { destruct (filter _ ZONES) as [|z' l]; [done|]. injection Hhead as ->. by left. }
  by apply list_elem_of_filter in Hin as [? ?].
Qed.

Lemma append_assoc (s t u : string) : (s +:+ t) +:+ u = s +:+ t +:+ u.
Proof.
  induction s as [|c s IH]; [done|].
  change (String c ((s +:+ t) +:+ u) = String c (s +:+ t +:+ u)). by f_equal.
Qed.

Lemma traffic_keys_zone key : key ∈ traffic_keys → key.1 ∈ ZONES.
Proof.
  unfold traffic_keys. intros (z & Hkey & Hz)%list_elem_of_bind.
  apply list_elem_of_fmap in Hkey as (ts & -> & _). done.
Qed.

(** X9: the three generated sources name zones of the mapping table only:
    on every tape the [zone_id] of every traffic row, the [area_code] of
    every bus feature and the [service_zone] of every planning line are
    found in the column of their kind of a row of the table
    [generate_zone_mapping] writes, and the row of an area code is that of
    the zone the code stands for. *)
Theorem synonyms_consistent `{PyMath} (outdir : string) (gm : rng) :
  ∃ mapping,
    generate_zone_mapping outdir gm
    = Ok ((mapping, (path_join outdir "zone_mapping.csv", 8)), gm)
    ∧ (∀ g0, ∃ run g1,
         traffic_table g0 = Ok (run, g1)
         ∧ Forall (λ row, ∃ z a s,
                     [VStr z; VStr a; VStr s] ∈ csv_rows mapping
                     ∧ row !! col_zone_id = Some (VStr z)) (t_rows run))
    ∧ (∀ g0, ∃ features g1,
         bus_features g0 = Ok (features, g1)
         ∧ Forall (λ f, ∃ z s,
                     [VStr z; VStr (area_code f); VStr s] ∈ csv_rows mapping
                     ∧ zone_of_area_code (area_code f) = Some z) features)
    ∧ (∀ g0, ∃ records g1,
         planning_while [] g0 = Ok (records, g1)
         ∧ Forall (λ line, ∃ z a s pre post,
                     [VStr z; VStr a; VStr s] ∈ csv_rows mapping
                     ∧ line = pre +:+ "service_zone=" +:+ s +:+ post) records).
Proof.
  destruct zone_mapping_rows as (rows & Hgen & Hrows & _).
  eexists. split; [apply Hgen|]. simpl. split; [|split].
  - intros g0. destruct (traffic_rows_keyed g0) as (run & g1 & Hrun & _ & Hkeyed).
    exists run, g1. split; [done|]. apply Forall_forall. intros row Hin.
    apply list_elem_of_lookup_1 in Hin as [i Hi].
    destruct (Forall2_lookup_r _ _ _ _ _ Hkeyed Hi) as (key & Hkey & _ & Hz & _).
    apply list_elem_of_lookup_2, traffic_keys_zone in Hkey.
    destruct (mapping_rows_zone rows key.1 Hrows Hkey) as (a & s & Hin & _).
    by exists key.1, a, s.
  - intros g0. destruct (bus_features_ranges g0) as (fs & g1 & Hf & _ & Hok).
    exists fs, g1. split; [done|]. eapply Forall_impl; [exact Hok|].
    intros f (z & _ & _ & _ & Hz & _).
    destruct (zone_of_area_code_Some _ _ Hz) as [HZ Hcode].
    destruct (mapping_rows_zone rows z Hrows HZ) as (a & s & Hin & Ha & _).
    exists z, s. split; [|done]. congruence.
  - intros g0.
    destruct (planning_while_Forall PLANNING_LINES [] g0) as (records & g1 & Hw & _ & Hok);
      [done..|].
    exists records, g1. split; [done|]. eapply Forall_impl; [exact Hok|].
    intros line (l & z & sz & day & t & hh & freq & sep & -> & _ & Hz & Hsz & _).
    destruct (mapping_rows_zone rows z Hrows Hz) as (a & s & Hin & _ & Hs).
    assert (s = sz) as -> by congruence.
    eexists z, a, sz, ("line_id=" +:+ l +:+ sep), _. split; [done|].
    rewrite !append_assoc. reflexivity.
Qed.

End mapping_table.

Section whole_run.
Context `{PyRandom} `{PyMath}.
Local Open Scope nat_scope.

(** X10: [main] returns whatever the state of the generator: the four
    stages report 552 rows, 1800 features, 180 lines and 8 rows under
    [generated_sources]; and each artifact is the one its stage produces
    when it is run alone from any state, since every stage that draws
    seeds the generator first. *)
Theorem main_runs (g : rng) :
  ∃ t b p m g',
    main g = Ok ((t, b, p, m), g')
    ∧ t.2 = (path_join OUTDIR "traffic_data.csv", 552)
    ∧ b.2 = (path_join OUTDIR "bus_gps.geojson", 1800)
    ∧ p.2 = (path_join OUTDIR "planning.txt", 180)
    ∧ m.2 = (path_join OUTDIR "zone_mapping.csv", 8)
    ∧ (∀ g0, ∃ g1, generate_traffic_csv OUTDIR g0 = Ok (t, g1))
    ∧ (∀ g0, ∃ g1, generate_bus_geojson OUTDIR g0 = Ok (b, g1))
    ∧ (∀ g0, ∃ g1, generate_planning_txt OUTDIR g0 = Ok (p, g1))
    ∧ (∀ g0, generate_zone_mapping OUTDIR g0 = Ok (m, g0)).
Proof.
  destruct (generate_traffic_csv_run OUTDIR g) as (run & gt & _ & Hok & Ht).
  destruct Hok as (Hn & _). rewrite Hn in Ht.
  assert (Hb : ∃ fs gb, generate_bus_geojson OUTDIR gt
                 = Ok ((fs, (path_join OUTDIR "bus_gps.geojson", 1800)), gb)).
  { set (g0 := {| tape := seeded_tape (SEED + 1); pos := 0 |}).
    destruct (bus_features_ranges g0) as (fs & gb & Hf & Hlen & _).
    exists fs, gb. unfold generate_bus_geojson, mbind, M_bind, random_seed. fold g0.
    rewrite Hf. by rewrite Hlen. }
  destruct Hb as (fs & gb & Hb).
  assert (Hp : ∃ file gp, generate_planning_txt OUTDIR gb
                 = Ok ((file, (path_join OUTDIR "planning.txt", 180)), gp)).
  { set (g0 := {| tape := seeded_tape (SEED + 2); pos := 0 |}).
    destruct (planning_while_returns PLANNING_LINES [] g0) as (records & gp & Hw & Hlen);
      [done|].
    eexists _, gp. unfold generate_planning_txt, mbind, M_bind, random_seed. fold g0.
    rewrite Hw. by rewrite Hlen. }
  destruct Hp as (file & gp & Hp).
  destruct zone_mapping_rows as (rows & Hm & _).
  eexists _, _, _, _, gp. split.
  { unfold main. unfold mbind at 1, M_bind. rewrite Ht.
    unfold mbind at 1, M_bind. rewrite Hb.
    unfold mbind at 1, M_bind. rewrite Hp.
    unfold mbind at 1, M_bind. rewrite Hm. reflexivity. }
  simpl. split; [done|]. split; [done|]. split; [done|]. split; [done|].
  split; [|split; [|split]].
  - intros g0. exists gt. exact Ht.
  - intros g0. exists gb. exact Hb.
  - intros g0. exists gp. exact Hp.
  - intros g0. apply Hm.
Qed.

End whole_run.

(** ** Examples *)

Section examples.
#[local] Existing Instance decimal_text.

Example to_uri_slug :
  to_uri "traffic_obs" (VStr "Z1_2025-03-10 07:00")
  = Some (URIRef "https://example.org/mobility/data/traffic_obs/Z1_2025-03-10_07-00").
Proof. reflexivity. Qed.

Example to_uri_percent :
  to_uri "zone" (VStr "a/b")
  = Some (URIRef "https://example.org/mobility/data/zone/a%2Fb").
Proof. reflexivity. Qed.

Example to_uri_blank : to_uri "zone" (VFloat FNaN) = None ∧ to_uri "zone" (VStr "") = None.
Proof. split; reflexivity. Qed.

Example safe_bool_values :
  safe_bool (VStr " TRUE ") = Some true
  ∧ safe_bool (VStr "maybe") = Some false
  ∧ safe_bool (VInt 1) = Some true
  ∧ safe_bool (VFloat (FNum 1)) = Some false
  ∧ safe_bool (VFloat FNaN) = None.
Proof. repeat split; reflexivity. Qed.

Example safe_float_values :
  safe_float (VStr "41.5") = Ok (Some (FNum (41 + 5 / 10)))
  ∧ safe_float (VStr "n/a") = Ok None
  ∧ safe_float (VFloat FNaN) = Ok None
  ∧ safe_int (VStr "12.9") = Ok (Some 12%Z)
  ∧ safe_int (VStr "nan") = Ok None.
Proof. repeat split; reflexivity. Qed.

Example strftime_values :
  strftime_date_HM TRAFFIC_START = "2025-03-10 07:00"
  ∧ strftime_date_HMS (TRAFFIC_START + 95) = "2025-03-10 07:01:35"
  ∧ head times = Some "07:00" ∧ last times = Some "12:50".
Proof. repeat split; reflexivity. Qed.

Example synonyms_Z3 :
  ZONE_TO_AREA_CODE !! "Z3" = Some "A03"
  ∧ ZONE_TO_SERVICE_ZONE !! "Z3" = Some "ServiceZone-Z3"
  ∧ zone_of_area_code "A03" = Some "Z3".
Proof. repeat split; vm_compute; reflexivity. Qed.

Lemma unresolved_row_adds_nothing_witness :
  required_uris (TrafficRow traffic_row_blank_zone)
    = Ok [Some (term EX "traffic_obs/nan_2025-03-10_07-00"); None]
  ∧ None ∈ [Some (term EX "traffic_obs/nan_2025-03-10_07-00"); None]
  ∧ row_triples (TrafficRow traffic_row_blank_zone) = Ok [].
Proof.
  assert (H1 : required_uris (TrafficRow traffic_row_blank_zone)
               = Ok [Some (term EX "traffic_obs/nan_2025-03-10_07-00"); None])
    by (vm_compute; reflexivity).
  assert (H2 : None ∈ [Some (term EX "traffic_obs/nan_2025-03-10_07-00"); None])
    by (apply list_elem_of_In; simpl; auto).
  exact (conj H1 (conj H2
    (unresolved_row_adds_nothing (TrafficRow traffic_row_blank_zone) _ H1 H2))).
Defined.

(** A table of two bus rows, the second with a blank EVENT_TIME: the
    mapper raises, whereas the first row alone is mapped to a graph. *)
Lemma blank_event_time_aborts_table_witness :
  bus_row_blank_time ∈ [bus_row_delayed; bus_row_blank_time]
  ∧ (∀ s, BusGps.EVENT_TIME bus_row_blank_time ≠ VStr s)
  ∧ required_uris (BusGpsRow bus_row_blank_time) = Raise AttributeError
  ∧ row_triples (BusGpsRow bus_row_blank_time) = Raise AttributeError
  ∧ process_bus_gps_clean [bus_row_delayed; bus_row_blank_time]
    = Raise AttributeError.
Proof.
  assert (H1 : bus_row_blank_time ∈ [bus_row_delayed; bus_row_blank_time])
    by (apply list_elem_of_In; simpl; auto).
  assert (H2 : ∀ s, BusGps.EVENT_TIME bus_row_blank_time ≠ VStr s)
    by (intros s; simpl; discriminate).
  exact (conj H1 (conj H2
    (blank_event_time_aborts_table [bus_row_delayed; bus_row_blank_time]
       bus_row_blank_time H1 H2))).
Defined.

Example bus_table_without_blank_row :
  ∃ g, process_bus_gps_clean [bus_row_delayed] = Ok g
       ∧ (term EX "trip/BUS-01_2025-03-10T07-05-00Z", RDF_type, term MOB "Trip") ∈ g.
Proof.
  eexists. split; [vm_compute; reflexivity|].
  apply list_elem_of_In. simpl. auto.
Qed.

(** A table with two rows of the same zone and instant: the URIs of the
    first row resolve and its speed does not parse, and yet the graph has
    an [averageSpeed] triple for its observation, added for the second. *)
Lemma unparseable_speed_counterexample :
  let df := [traffic_row_blank_speed; traffic_row_same_key] in
  let obs := term EX "traffic_obs/Z1_2025-03-10_07-00" in
  traffic_row_blank_speed ∈ df
  ∧ traffic_uris traffic_row_blank_speed = (Some obs, Some (term EX "zone/Z1"))
  ∧ safe_float (Traffic.AVERAGE_SPEED_KMH traffic_row_blank_speed) = Ok None
  ∧ ∃ g, process_traffic_clean df = Ok g
         ∧ (obs, term MOB "averageSpeed",
             Literal (VFloat (FNum 41.5)) (datatype XSD "float")) ∈ g.
Proof.
  cbv zeta. split; [by left|]. split; [reflexivity|]. split; [reflexivity|].
  eexists. split; [vm_compute; reflexivity|].
  apply (bool_decide_unpack _). vm_compute. exact I.
Qed.

Lemma unparseable_speed_omitted_witness :
  let df := [traffic_row_blank_speed] in
  let obs := term EX "traffic_obs/Z1_2025-03-10_07-00" in
  ∃ g, process_traffic_clean df = Ok g
       ∧ (obs, RDF_type, term MOB "TrafficObservation") ∈ g
       ∧ (∃ c, traffic_body traffic_row_blank_speed = Ok c
               ∧ ¬ has_pred (term MOB "averageSpeed") c)
       ∧ ((∀ row', row' ∈ df → (traffic_uris row').1 = Some obs →
             safe_float (Traffic.AVERAGE_SPEED_KMH row') = Ok None) →
          ∀ o, (obs, term MOB "averageSpeed", o) ∉ g).
Proof.
  cbv zeta. eexists. split; [vm_compute; reflexivity|].
  refine (unparseable_speed_omitted [traffic_row_blank_speed] _
            traffic_row_blank_speed _ (term EX "zone/Z1") _ _ _ _).
  - vm_compute. reflexivity.
  - apply list_elem_of_In. simpl. auto.
  - vm_compute. reflexivity.
  - vm_compute. reflexivity.
Defined.

(** A row delayed by 5 minutes whose DELAY_CATEGORY is blank: the row is not
    skipped, its delay parses to a float greater than 0, the [DelayEvent]
    node is added, and no [delayCategory] triple is. *)
Lemma delay_category_counterexample :
  let row := bus_row_delayed_no_category in
  let trip_id := "BUS-01_2025-03-10T07-05-00Z" in
  bus_trip_id row = Ok ("2025-03-10T07:05:00Z", "BUS-01_2025-03-10T07:05:00Z")
  ∧ bus_uris row "BUS-01_2025-03-10T07:05:00Z"
    = (Some (term EX ("trip/" +:+ trip_id)), Some (term EX "vehicle/BUS-01"),
       Some (term EX "route/L1"), Some (term EX "zone/Z1"))
  ∧ safe_float (BusGps.DELAY_MINUTES row) = Ok (Some (FNum 5))
  ∧ float_ltb (FNum 0) (FNum 5) = true
  ∧ ∃ c, bus_gps_body row = Ok c
         ∧ (term EX ("delay_event/" +:+ trip_id), RDF_type, term MOB "DelayEvent") ∈ c
         ∧ ¬ has_pred (term MOB "delayCategory") c.
Proof.
  cbv zeta. split; [reflexivity|]. split; [vm_compute; reflexivity|].
  split; [reflexivity|]. split; [reflexivity|].
  eexists. split; [vm_compute; reflexivity|]. split.
  - apply (bool_decide_unpack _). vm_compute. exact I.
  - rewrite has_pred_elem. apply (bool_decide_unpack _). vm_compute. exact I.
Qed.

Lemma delay_event_iff_positive_witness :
  let row := bus_row_delayed in
  let trip_id := "BUS-01_2025-03-10T07-05-00Z" in
  let trip := term EX ("trip/" +:+ trip_id) in
  ∃ c delay event,
    bus_gps_body row = Ok c
    ∧ safe_float (BusGps.DELAY_MINUTES row) = Ok delay
    ∧ to_uri "delay_event" (VStr "BUS-01_2025-03-10T07:05:00Z") = Some event
    ∧ ((trip, term MOB "hasDelayEvent", event) ∈ c ↔ delay_positive delay)
    ∧ ((event, RDF_type, term MOB "DelayEvent") ∈ c ↔ delay_positive delay)
    ∧ ((event, term MOB "delayUnit", term UNIT "MIN") ∈ c ↔ delay_positive delay)
    ∧ (∀ d, (event, term MOB "delayMinutes", Literal (VFloat d) (datatype XSD "float")) ∈ c
            ↔ delay = Some d ∧ float_ltb (FNum 0) d = true)
    ∧ ((event, term MOB "delayCategory", term_of_cell MOB (BusGps.DELAY_CATEGORY row)) ∈ c
       ↔ delay_positive delay ∧ present (BusGps.DELAY_CATEGORY row) = true)
    ∧ (∀ p, p ∈ delay_predicates → has_pred p c → delay_positive delay)
    ∧ (∀ s, (s, RDF_type, term MOB "DelayEvent") ∈ c → delay_positive delay)
    ∧ (has_pred (term MOB "delayCategory") c → present (BusGps.DELAY_CATEGORY row) = true)
    ∧ (has_pred (term MOB "isDelayed") c ↔ is_Some (safe_bool (BusGps.IS_DELAYED row))).
Proof.
  cbv zeta.
  refine (delay_event_iff_positive bus_row_delayed
            ("2025-03-10T07:05:00Z", "BUS-01_2025-03-10T07:05:00Z")
            _ (term EX "vehicle/BUS-01") (term EX "route/L1") (term EX "zone/Z1") _ _).
  - reflexivity.
  - vm_compute. reflexivity.
Defined.

End examples.

(** ** Examples of the further properties *)

#[local] Existing Instance decimal_text.

Lemma to_uri_resolved_witness :
  let v := VStr "Z1 07:00/a" in
  let u := URIRef "https://example.org/mobility/data/zone/Z1_07-00%2Fa" in
  to_uri "zone" v = Some u
  ∧ isna v = false ∧ v ≠ VStr ""
  ∧ ∃ slug,
      u = URIRef (EX +:+ "zone" +:+ "/" +:+ slug)
      ∧ str_forall slug_char slug = true
      ∧ (String.length (str_of_val v) ≤ String.length slug
         ≤ 3 * String.length (str_of_val v))%nat
      ∧ percent_decode slug = slugify (str_of_val v).
Proof.
  cbv zeta.
  assert (H1 : to_uri "zone" (VStr "Z1 07:00/a")
               = Some (URIRef "https://example.org/mobility/data/zone/Z1_07-00%2Fa"))
    by reflexivity.
  exact (conj H1 (to_uri_resolved "zone" (VStr "Z1 07:00/a") _ H1)).
Defined.

Lemma to_uri_same_node_witness :
  no_slash "traffic_obs" = true ∧ "Z1_2025-03-10 07:00" ≠ ""
  ∧ (to_uri "traffic_obs" (VStr "Z1_2025-03-10 07:00")
     = to_uri "traffic_obs" (VStr "Z1_2025-03-10_07.00")
     ↔ "traffic_obs" = "traffic_obs"
       ∧ slugify "Z1_2025-03-10 07:00" = slugify "Z1_2025-03-10_07.00").
Proof.
  assert (H1 : no_slash "traffic_obs" = true) by reflexivity.
  assert (H2 : "Z1_2025-03-10 07:00" ≠ "") by discriminate.
  exact (conj H1 (conj H2
    (to_uri_same_node "traffic_obs" "traffic_obs" "Z1_2025-03-10 07:00"
       "Z1_2025-03-10_07.00" H1 H1 H2))).
Defined.

Lemma bus_nodes_distinct_witness :
  let trip_id := "BUS-01_2025-03-10T07:05:00Z" in
  let trip := term EX "trip/BUS-01_2025-03-10T07-05-00Z" in
  bus_uris bus_row_delayed trip_id
  = (Some trip, Some (term EX "vehicle/BUS-01"), Some (term EX "route/L1"),
     Some (term EX "zone/Z1"))
  ∧ ∃ point event,
      to_uri "point" (VStr trip_id) = Some point
      ∧ to_uri "delay_event" (VStr trip_id) = Some event
      ∧ NoDup [trip; term EX "vehicle/BUS-01"; term EX "route/L1"; term EX "zone/Z1";
               point; event].
Proof.
  cbv zeta.
  assert (H1 : bus_uris bus_row_delayed "BUS-01_2025-03-10T07:05:00Z"
               = (Some (term EX "trip/BUS-01_2025-03-10T07-05-00Z"),
                  Some (term EX "vehicle/BUS-01"), Some (term EX "route/L1"),
                  Some (term EX "zone/Z1")))
    by (vm_compute; reflexivity).
  exact (conj H1 (bus_nodes_distinct bus_row_delayed _ _ _ _ _ H1)).
Defined.

Lemma safe_bool_insensitive_witness :
  str_forall is_space " " = true
  ∧ safe_bool (VStr (" " +:+ "TRUE" +:+ " ")) = safe_bool (VStr "TRUE")
  ∧ safe_bool (VStr (str_lower "TRUE")) = safe_bool (VStr "TRUE")
  ∧ is_Some (safe_bool (VStr "TRUE")).
Proof.
  assert (H1 : str_forall is_space " " = true) by reflexivity.
  exact (conj H1 (safe_bool_insensitive " " "TRUE" " " H1 H1)).
Defined.

Lemma row_triples_wellformed_witness :
  ∃ c, row_triples (BusGpsRow bus_row_delayed) = Ok c
       ∧ length c = 18%nat
       ∧ Forall (λ t : triple,
                   in_namespace EX t.1.1
                   ∧ (in_namespace MOB t.1.2
                      ∨ t.1.2 ∈ [RDF_type; term RDFS "label"; term GEO_NS "asWKT"])) c.
Proof.
  eexists. split; [vm_compute; reflexivity|]. split; [reflexivity|].
  refine (row_triples_wellformed (BusGpsRow bus_row_delayed) _ _).
  vm_compute. reflexivity.
Defined.

Lemma traffic_predicates_witness :
  let obs := term EX "traffic_obs/Z1_2025-03-10_07-00" in
  traffic_uris traffic_row_blank_speed = (Some obs, Some (term EX "zone/Z1"))
  ∧ ∃ c, traffic_body traffic_row_blank_speed = Ok c
         ∧ Forall (λ t : triple, t.1.1 = obs) c
         ∧ (∀ o, (obs, term MOB "averageSpeed", o) ∈ c
                 ↔ ∃ v, safe_float (Traffic.AVERAGE_SPEED_KMH traffic_row_blank_speed)
                          = Ok (Some v)
                        ∧ o = Literal (VFloat v) (datatype XSD "float"))
         ∧ (∀ o, (obs, term MOB "trafficVolume", o) ∈ c
                 ↔ ∃ n, safe_int (Traffic.TRAFFIC_VOLUME traffic_row_blank_speed)
                          = Ok (Some n)
                        ∧ o = Literal (VInt n) (datatype XSD "integer")).
Proof.
  cbv zeta.
  assert (H1 : traffic_uris traffic_row_blank_speed
               = (Some (term EX "traffic_obs/Z1_2025-03-10_07-00"),
                  Some (term EX "zone/Z1"))) by reflexivity.
  split; [exact H1|]. eexists.
  assert (H2 : traffic_body traffic_row_blank_speed = Ok _) by (vm_compute; reflexivity).
  split; [exact H2|].
  pose proof (traffic_predicates traffic_row_blank_speed _ _ _ H1 H2) as Hp.
  split; [apply Hp|]. split; apply Hp.
Defined.

Lemma zone_mapping_predicates_witness :
  let row := {| ZoneMapping.ZONE_ID := VStr "Z1";
                ZoneMapping.AREA_CODE := VFloat FNaN;
                ZoneMapping.SERVICE_ZONE := VStr "ServiceZone-Z1" |} in
  let zone := term EX "zone/Z1" in
  to_uri "zone" (ZoneMapping.ZONE_ID row) = Some zone
  ∧ ∃ c, zone_mapping_body row = Ok c
         ∧ length c = 3%nat
         ∧ Forall (λ t : triple, t.1.1 = zone) c
         ∧ (∀ o, (zone, RDF_type, o) ∈ c ↔ o = term MOB "ServiceZone")
         ∧ (∀ o, (zone, term MOB "hasAreaCode", o) ∈ c
                 ↔ o = Literal (ZoneMapping.AREA_CODE row) None)
         ∧ (∀ o, (zone, term RDFS "label", o) ∈ c
                 ↔ o = Literal (ZoneMapping.SERVICE_ZONE row) None)
         ∧ (isna (ZoneMapping.AREA_CODE row) = true →
              (zone, term MOB "hasAreaCode", Literal (VFloat FNaN) None) ∈ c).
Proof.
  cbv zeta.
  assert (H1 : to_uri "zone" (VStr "Z1") = Some (term EX "zone/Z1")) by reflexivity.
  exact (conj H1
    (zone_mapping_predicates
       {| ZoneMapping.ZONE_ID := VStr "Z1";
          ZoneMapping.AREA_CODE := VFloat FNaN;
          ZoneMapping.SERVICE_ZONE := VStr "ServiceZone-Z1" |} _ H1)).
Defined.

Lemma planning_predicates_witness :
  let schedule := term EX "schedule/L1_Z1_weekday_07-30" in
  planning_uris planning_row_weekday
  = (Some schedule, Some (term EX "route/L1"), Some (term EX "zone/Z1"))
  ∧ ∃ c, planning_body planning_row_weekday = Ok c
         ∧ Forall (λ t : triple, t.1.1 = schedule) c
         ∧ (∀ o, (schedule, term MOB "frequencyMinutes", o) ∈ c
                 ↔ ∃ n, safe_int (Planning.FREQUENCY_MIN planning_row_weekday)
                          = Ok (Some n)
                        ∧ o = Literal (VInt n) (datatype XSD "integer"))
         ∧ (5 ≤ length c ≤ 7)%nat.
Proof.
  cbv zeta.
  assert (H1 : planning_uris planning_row_weekday
               = (Some (term EX "schedule/L1_Z1_weekday_07-30"),
                  Some (term EX "route/L1"), Some (term EX "zone/Z1"))) by reflexivity.
  split; [exact H1|]. eexists.
  assert (H2 : planning_body planning_row_weekday = Ok _) by (vm_compute; reflexivity).
  split; [exact H2|].
  pose proof (planning_predicates planning_row_weekday _ _ _ _ H1 H2) as Hp.
  split; [apply Hp|]. split; apply Hp.
Defined.

Lemma bus_perf_predicates_witness :
  let perf := term EX "performance/L1_Z1_2025-03-10_7" in
  bus_perf_uris bus_perf_row_blank_max
  = (Some perf, Some (term EX "route/L1"), Some (term EX "zone/Z1"))
  ∧ ∃ c, bus_perf_body bus_perf_row_blank_max = Ok c
         ∧ Forall (λ t : triple, t.1.1 = perf) c
         ∧ (∀ o, (perf, term MOB "maxDelayMinutes", o) ∈ c
                 ↔ ∃ v, safe_float (BusPerf.MAX_DELAY_MINUTES bus_perf_row_blank_max)
                          = Ok (Some v)
                        ∧ o = Literal (VFloat v) (datatype XSD "float"))
         ∧ (4 ≤ length c ≤ 9)%nat.
Proof.
  cbv zeta.
  assert (H1 : bus_perf_uris bus_perf_row_blank_max
               = (Some (term EX "performance/L1_Z1_2025-03-10_7"),
                  Some (term EX "route/L1"), Some (term EX "zone/Z1"))) by reflexivity.
  split; [exact H1|]. eexists.
  assert (H2 : bus_perf_body bus_perf_row_blank_max = Ok _) by (vm_compute; reflexivity).
  split; [exact H2|].
  pose proof (bus_perf_predicates bus_perf_row_blank_max _ _ _ _ H1 H2) as Hp.
  split; [apply Hp|]. split; apply Hp.
Defined.

Lemma bus_location_predicates_witness :
  let ids := ("2025-03-10T07:05:00Z", "BUS-01_2025-03-10T07:05:00Z") in
  let trip := term EX "trip/BUS-01_2025-03-10T07-05-00Z" in
  bus_trip_id bus_row_delayed = Ok ids
  ∧ bus_uris bus_row_delayed ids.2
    = (Some trip, Some (term EX "vehicle/BUS-01"), Some (term EX "route/L1"),
       Some (term EX "zone/Z1"))
  ∧ ∃ c point,
      bus_gps_body bus_row_delayed = Ok c
      ∧ to_uri "point" (VStr ids.2) = Some point
      ∧ (∀ s o, (s, term GEO_NS "asWKT", o) ∈ c
                ↔ ∃ lat lon,
                    safe_float (BusGps.LATITUDE bus_row_delayed) = Ok (Some lat)
                    ∧ safe_float (BusGps.LONGITUDE bus_row_delayed) = Ok (Some lon)
                    ∧ s = point
                    ∧ o = Literal
                            (VStr ("POINT(" +:+ str_of_float lon +:+ " "
                                   +:+ str_of_float lat +:+ ")"))
                            (datatype GEO_NS "wktLiteral")).
Proof.
  cbv zeta.
  assert (H1 : bus_trip_id bus_row_delayed
               = Ok ("2025-03-10T07:05:00Z", "BUS-01_2025-03-10T07:05:00Z"))
    by reflexivity.
  assert (H2 : bus_uris bus_row_delayed "BUS-01_2025-03-10T07:05:00Z"
               = (Some (term EX "trip/BUS-01_2025-03-10T07-05-00Z"),
                  Some (term EX "vehicle/BUS-01"), Some (term EX "route/L1"),
                  Some (term EX "zone/Z1")))
    by (vm_compute; reflexivity).
  split; [exact H1|]. split; [exact H2|].
  destruct (bus_location_predicates bus_row_delayed _ _ _ _ _ H1 H2)
    as (c & point & Hc & Hpoint & Hp).
  exists c, point. split; [exact Hc|]. split; [exact Hpoint|]. apply Hp.
Defined.

Lemma clamp_bounds_witness :
  float_of_num (VFloat FNaN) = Some FNaN
  ∧ float_of_num (VInt 8) = Some (FNum 8)
  ∧ float_of_num (VInt 80) = Some (FNum 80)
  ∧ clamp (VFloat FNaN) (VInt 8) (VInt 80) ∈ [VFloat FNaN; VInt 8; VInt 80]
  ∧ ((8 <= 80)%Q →
       (∃ q, float_of_num (clamp (VFloat FNaN) (VInt 8) (VInt 80)) = Some (FNum q)
             ∧ (8 <= q <= 80)%Q)
       ∧ (FNaN = FNaN ∨ FNaN = FInf false → (8 < 80)%Q →
          clamp (VFloat FNaN) (VInt 8) (VInt 80) = VInt 80)).
Proof.
  assert (H1 : float_of_num (VFloat FNaN) = Some FNaN) by reflexivity.
  assert (H2 : float_of_num (VInt 8) = Some (FNum 8)) by reflexivity.
  assert (H3 : float_of_num (VInt 80) = Some (FNum 80)) by reflexivity.
  split; [exact H1|]. split; [exact H2|]. split; [exact H3|].
  pose proof (clamp_bounds (VFloat FNaN) (VInt 8) (VInt 80) FNaN 8 80 H1 H2 H3) as Hc.
  split; [apply Hc|]. intros Hle. split; apply Hc; exact Hle.
Defined.
